(** * Verification of the autotex log annotator

    Shallow embedding of [src/submit/filters/tex_filters.py]
    ([compilation_log_display] and its helpers) together with the part of
    Python's [re], [html] and [str] libraries that the function uses.

    Python strings are modelled by [string]: a character is an [ascii], read
    as the code point of the same number (0..255).  On that range
    - [str.splitlines] breaks lines at LF, VT, FF, CR, CR LF, FS, GS, RS and
      NEL (0x85);
    - the regex class [\s] holds TAB..CR, FS..US, SPACE, NEL and NBSP;
    - [.] (no DOTALL) holds every character but LF;
    - [re.IGNORECASE] against an ASCII literal is ASCII case folding.

    Exceptions are modelled by an error result: the two that the function can
    raise are [ValueError] (from [list.index]) and [KeyError] (from a
    dictionary subscript). *)

From Stdlib Require Import String Ascii List Bool Arith ZArith Lia.
From Stdlib Require Import DecimalString.
Import ListNotations.
Open Scope list_scope.
Open Scope string_scope.

(* ================================================================== *)
(** ** Characters and strings *)

Definition chr (n : nat) : ascii := ascii_of_nat n.

Definition LF : ascii := chr 10.
Definition CR : ascii := chr 13.
Definition TAB : ascii := chr 9.
Definition DQ : ascii := chr 34.

(** One-character strings used to write the source's string literals:
    [nl] is the escape [\n], [tab] is [\t], [dq] is a double quote and [bsl]
    a backslash. *)
Definition nl : string := String LF "".
Definition tab : string := String TAB "".
Definition dq : string := String DQ "".
Definition bsl : string := String (chr 92) "".

Definition is_upper (c : ascii) : bool :=
  let n := nat_of_ascii c in ((65 <=? n) && (n <=? 90))%nat.

(** [str.lower] on one character of the ASCII range. *)
Definition to_lower (c : ascii) : ascii :=
  if is_upper c then chr (nat_of_ascii c + 32) else c.

(** Membership in the regex class [\s]. *)
Definition is_space (c : ascii) : bool :=
  let n := nat_of_ascii c in
  (((9 <=? n) && (n <=? 13)) || ((28 <=? n) && (n <=? 32))
   || (n =? 133) || (n =? 160))%nat.

(** Line boundaries of [str.splitlines]. *)
Definition is_linebreak (c : ascii) : bool :=
  let n := nat_of_ascii c in
  (((10 <=? n) && (n <=? 13)) || ((28 <=? n) && (n <=? 30))
   || (n =? 133))%nat.

(** [str.splitlines()]: the lines without their terminators; CR LF is one
    terminator, and a terminator at the very end opens no empty last line. *)
Fixpoint splitlines (s : string) : list string :=
  match s with
  | "" => []
  | String c s' =>
      if is_linebreak c then
        "" :: match s' with
              | String c2 s'' =>
                  if Ascii.eqb c CR && Ascii.eqb c2 LF
                  then splitlines s'' else splitlines s'
              | "" => []
              end
      else match splitlines s' with
           | [] => [String c ""]
           | l :: ls => String c l :: ls
           end
  end.

(** [html.escape(s)] with its default [quote=True]. *)
Definition escape_char (c : ascii) : string :=
  match nat_of_ascii c with
  | 38 => "&amp;"
  | 60 => "&lt;"
  | 62 => "&gt;"
  | 34 => "&quot;"
  | 39 => "&#x27;"
  | _ => String c ""
  end.

Fixpoint html_escape (s : string) : string :=
  match s with
  | "" => ""
  | String c s' => escape_char c ++ html_escape s'
  end.

(** [str(n)] for a Python integer. *)
Definition str_of_int (n : Z) : string :=
  NilZero.string_of_int (Z.to_int n).

(** [needle in s]: [s] holds [needle] as a substring. *)
Definition contains (needle s : string) : Prop :=
  exists pre post, s = pre ++ needle ++ post.

Fixpoint containsb (needle s : string) : bool :=
  prefix needle s ||
  match s with
  | "" => false
  | String _ s' => containsb needle s'
  end.

(** Number of (possibly overlapping) occurrences of [needle] in [s]. *)
Fixpoint occurrences (needle s : string) : nat :=
  (if prefix needle s then 1 else 0) +
  match s with
  | "" => 0
  | String _ s' => occurrences needle s'
  end.

(* ================================================================== *)
(** ** Exceptions *)

Inductive exn : Set := ValueError | KeyError.

Inductive result (A : Type) : Type :=
| Ok (a : A)
| Raise (e : exn).
Arguments Ok {A} a.
Arguments Raise {A} e.

Definition bind {A B : Type} (x : result A) (f : A -> result B) : result B :=
  match x with
  | Ok a => f a
  | Raise e => Raise e
  end.

Notation "x <- c1 ;; c2" := (bind c1 (fun x => c2))
  (at level 61, c1 at next level, right associativity).

(* ================================================================== *)
(** ** The fragment of Python's [re] used by the filters *)

Module Re.

(** A pattern item that consumes exactly one character. *)
Inductive atom : Set :=
| Lit (c : ascii)   (* a literal or escaped character *)
| Dot               (* [.] *)
| Space.            (* [\s] *)

Inductive regex : Set :=
| Eps
| One (a : atom)
| Star (a : atom)             (* greedy [a*] *)
| Plus (a : atom)             (* greedy [a+] *)
| Cat (r1 r2 : regex)
| Alt (r1 r2 : regex)         (* [r1|r2] *)
| Group (r : regex).          (* capturing [(r)] *)

(** The literal text [s] as a pattern. *)
Fixpoint lit (s : string) : regex :=
  match s with
  | "" => Eps
  | String c s' => Cat (One (Lit c)) (lit s')
  end.

(** [ic] is the flag [re.IGNORECASE]. *)
Definition atom_match (ic : bool) (a : atom) (c : ascii) : bool :=
  match a with
  | Lit l => if ic then Ascii.eqb (to_lower c) (to_lower l) else Ascii.eqb c l
  | Dot => negb (Ascii.eqb c LF)
  | Space => is_space c
  end.

(** Captured groups, in the order of their opening parentheses; [None]
    for a group that took no part in the match. *)
Definition caps : Set := list (option string).

Fixpoint ngroups (r : regex) : nat :=
  match r with
  | Cat r1 r2 | Alt r1 r2 => ngroups r1 + ngroups r2
  | Group r => S (ngroups r)
  | _ => 0
  end.

(** The text consumed between a position [s] and a later position
    [rest] of the same string. *)
Definition consumed (s rest : string) : string :=
  substring 0 (String.length s - String.length rest) s.

(** Every way [a*] can match at the start of [s], longest first:
    each result is the text left after the match. *)
Fixpoint star (ic : bool) (a : atom) (s : string) : list string :=
  match s with
  | "" => [""]
  | String c s' => if atom_match ic a c then (star ic a s' ++ [s])%list else [s]
  end.

(** Every way [r] can match at the start of [s], in the order in which
    the backtracking matcher of [re] tries them; the head is the match
    that [re] reports. *)
Fixpoint matches (ic : bool) (r : regex) (s : string) : list (caps * string) :=
  match r with
  | Eps => [([], s)]
  | One a =>
      match s with
      | String c s' => if atom_match ic a c then [([], s')] else []
      | "" => []
      end
  | Star a => map (fun t => ([], t)) (star ic a s)
  | Plus a =>
      match s with
      | String c s' =>
          if atom_match ic a c then map (fun t => ([], t)) (star ic a s')
          else []
      | "" => []
      end
  | Cat r1 r2 =>
      flat_map (fun x => map (fun y => ((fst x ++ fst y)%list, snd y))
                             (matches ic r2 (snd x)))
               (matches ic r1 s)
  | Alt r1 r2 =>
      (map (fun x => (fst x ++ repeat None (ngroups r2), snd x))
           (matches ic r1 s)
       ++ map (fun x => (repeat None (ngroups r1) ++ fst x, snd x))
              (matches ic r2 s))%list
  | Group r =>
      map (fun x => (Some (consumed s (snd x)) :: fst x, snd x))
          (matches ic r s)
  end.

Definition match_at (ic : bool) (r : regex) (s : string)
  : option (caps * string) :=
  hd_error (matches ic r s).

(** [re.search(r, s)] as a truth value. *)
Fixpoint search (ic : bool) (r : regex) (s : string) : bool :=
  match match_at ic r s with
  | Some _ => true
  | None =>
      match s with
      | "" => false
      | String _ s' => search ic r s'
      end
  end.

(** [re.search(r, s)]: the groups of the leftmost match, if any. *)
Fixpoint search_groups (ic : bool) (r : regex) (s : string) : option caps :=
  match match_at ic r s with
  | Some (g, _) => Some g
  | None =>
      match s with
      | "" => None
      | String _ s' => search_groups ic r s'
      end
  end.

(** [m.group(n)] for [n >= 1]; an unmatched group reads as the empty
    string, as it does in a replacement template. *)
Definition group (n : nat) (g : caps) : string :=
  match nth_error g (n - 1) with
  | Some (Some s) => s
  | _ => ""
  end.

(** The non-overlapping matches of [r] in [s], left to right.  [skip]
    counts the characters of [s] that still belong to the last match. *)
Fixpoint finditer (ic : bool) (r : regex) (s : string) (skip : nat)
  : list caps :=
  match skip with
  | S k =>
      match s with
      | "" => []
      | String _ s' => finditer ic r s' k
      end
  | O =>
      match match_at ic r s with
      | Some (g, rest) =>
          g :: match s with
               | "" => []
               | String _ s' => finditer ic r s' (String.length s' - String.length rest)
               end
      | None =>
          match s with
          | "" => []
          | String _ s' => finditer ic r s' 0
          end
      end
  end.

(** [re.findall] for a pattern with two groups: the pairs of groups. *)
Definition findall2 (ic : bool) (r : regex) (s : string)
  : list (string * string) :=
  map (fun g => (group 1 g, group 2 g)) (finditer ic r s 0).

(** [re.sub(r, repl, s)]: every non-overlapping match is replaced by
    [repl] applied to its groups; the rest of [s] is copied. *)
Fixpoint sub_go (ic : bool) (r : regex) (repl : caps -> string)
         (s : string) (skip : nat) : string :=
  match skip with
  | S k =>
      match s with
      | "" => ""
      | String _ s' => sub_go ic r repl s' k
      end
  | O =>
      match match_at ic r s with
      | Some (g, rest) =>
          repl g ++
          match s with
          | "" => ""
          | String c s' =>
              if (String.length s <=? String.length rest)%nat
              then String c (sub_go ic r repl s' 0)
              else sub_go ic r repl s' (String.length s' - String.length rest)
          end
      | None =>
          match s with
          | "" => ""
          | String c s' => String c (sub_go ic r repl s' 0)
          end
      end
  end.

Definition sub (ic : bool) (r : regex) (repl : caps -> string) (s : string)
  : string :=
  sub_go ic r repl s 0.

End Re.

Import Re.

Notation "r1 ;; r2" := (Cat r1 r2) (at level 61, right associativity).

(* ================================================================== *)
(** ** Module constants of [tex_filters.py] *)

Definition TEX : string := "tex".
Definition LATEX : string := "latex".
Definition PDFLATEX : string := "pdflatex".

(** A banner pattern [\~+\sRunning <engine>.*\s\~+] (inside one group) of
    the six module constants. *)
Definition banner_of (engine : string) : regex :=
  Group (Plus (Lit "~") ;; One Space ;; lit ("Running " ++ engine) ;;
         Star Dot ;; One Space ;; Plus (Lit "~")).

Definition ENABLE_TEX : regex := banner_of "tex".
Definition ENABLE_LATEX : regex := banner_of "latex".
Definition ENABLE_PDFLATEX : regex := banner_of "pdflatex".

Definition DISABLE_HTEX : regex := banner_of "htex".
Definition DISABLE_HLATEX : regex := banner_of "hlatex".
Definition DISABLE_HPDFLATEX : regex := banner_of "hpdflatex".

Definition RUN_ORDER : list string :=
  ["last"; "first"; "second"; "third"; "fourth"].

(** [l.index(x)]: raises [ValueError] when [x] is not in [l]. *)
Fixpoint index (x : string) (l : list string) : result nat :=
  match l with
  | [] => Raise ValueError
  | y :: l' => if (x =? y)%string then Ok 0 else i <- index x l' ;; Ok (S i)
  end.

Definition initialize_error_summary : string :=
  nl ++ "Summary of <span class=" ++ dq ++ "tex-fatal" ++ dq
     ++ ">Critical Errors:</span>" ++ nl ++ nl ++ "<ul>" ++ nl.

Definition finalize_error_summary (error_summary : string) : string :=
  error_summary ++ "</ul>" ++ nl.

(* ================================================================== *)
(** ** Dictionaries

    [last_run_for_engine] is a Python [dict]: its keys keep the order of
    their first insertion, which the run summary prints. *)

Definition dict : Set := list (string * string).

Fixpoint dict_set (k v : string) (d : dict) : dict :=
  match d with
  | [] => [(k, v)]
  | (k', v') :: d' =>
      if (k =? k')%string then (k, v) :: d' else (k', v') :: dict_set k v d'
  end.

Fixpoint dict_find (k : string) (d : dict) : option string :=
  match d with
  | [] => None
  | (k', v) :: d' => if (k =? k')%string then Some v else dict_find k d'
  end.

(** [d[k]]: raises [KeyError] when [k] is not a key of [d]. *)
Definition dict_get (k : string) (d : dict) : result string :=
  match dict_find k d with
  | Some v => Ok v
  | None => Raise KeyError
  end.

(* ================================================================== *)
(** ** Patterns of [compilation_log_display] *)

(** [r'No log available.'] *)
Definition no_log_regex : regex := lit "No log available" ;; One Dot.

(** The pattern [\~+\sRunning G for the G time\s\~+], where each [G] is a
    group around [.*]; compiled with [re.IGNORECASE | re.MULTILINE]. *)
Definition run_regex : regex :=
  Plus (Lit "~") ;; One Space ;; lit "Running " ;; Group (Star Dot) ;;
  lit " for the " ;; Group (Star Dot) ;; lit " time" ;; One Space ;;
  Plus (Lit "~").

Inductive level : Set :=
| ignore | abort | fatal | danger | warning | info | success.

Definition level_name (l : level) : string :=
  match l with
  | ignore => "ignore" | abort => "abort" | fatal => "fatal"
  | danger => "danger" | warning => "warning" | info => "info"
  | success => "success"
  end.

Definition level_eqb (a b : level) : bool :=
  (level_name a =? level_name b)%string.

(** One entry [[css class, regex, run spec]] of the list [filters]. *)
Record filter : Set := Filter {
  f_level : level;
  f_regex : regex;
  f_run : string
}.

Definition pat_4passes : regex :=
  lit "get arXiv to do 4 passes: Label(s) may have changed".
Definition pat_fontspec_fatal : regex :=
  lit ("Fatal fontspec error: " ++ dq ++ "cannot-use-pdftex" ++ dq).
Definition pat_fontspec_requires : regex :=
  lit "The fontspec package requires either XeTeX or LuaTeX" ;; One Dot.
Definition pat_cannot_use_pdftex : regex := lit "{cannot-use-pdftex}".
Definition pat_missfont_any : regex :=
  Star Dot ;; lit "missfont" ;; One Dot ;; lit "log present" ;; One Dot.
Definition pat_file_not_found : regex :=
  lit "file " ;; Group (Star Dot) ;; lit " not found".
Definition pat_emergency_stop : regex := lit "emergency stop".

Definition filters : list filter :=
  [ Filter ignore pat_4passes "";
    (* Abort *)
    Filter abort pat_fontspec_fatal "";
    Filter abort pat_fontspec_requires "";
    Filter abort pat_cannot_use_pdftex "";
    Filter fatal (lit "*** AutoTeX ABORTING ***") "";
    Filter fatal (Star Dot ;; lit "AutoTeX returned error: missfont" ;;
                  One Dot ;; lit "log present" ;; One Dot) "";
    Filter fatal (lit "dvips: Font " ;; Star Dot ;;
                  lit " not found; characters will be left blank" ;;
                  One Dot) "";
    Filter fatal pat_missfont_any "";
    (* Fatal *)
    Filter fatal (lit "Fatal " ;; Star Dot ;; lit " error") "";
    Filter fatal (lit "fatal") "";
    (* Danger *)
    Filter danger pat_file_not_found "";
    Filter danger (lit "failed") "";
    Filter danger pat_emergency_stop "";
    Filter danger (lit "not allowed") "";
    Filter danger (lit "does not exist") "";
    Filter danger (lit "Package rerunfilecheck Warning:" ;; Star Dot) "last";
    Filter danger (Star Dot ;; lit "(rerunfilecheck)" ;; Star Dot) "last";
    Filter danger (lit "rerun") "last";
    (* Warnings *)
    Filter warning (lit "Citation" ;; Star Dot ;; lit "undefined") "last";
    Filter warning (lit "Reference" ;; Star Dot ;; lit "undefined") "last";
    Filter warning (lit "No " ;; Star Dot ;; lit " file") "";
    Filter warning (lit "warning") "second";
    Filter warning (lit "unsupported") "";
    Filter warning (lit "unable") "";
    Filter warning (lit "ignore") "";
    Filter warning (lit "undefined") "second";
    (* Informational *)
    Filter info (Plus (Lit "~") ;; One Space ;; lit "Running" ;; Star Dot ;;
                 One Space ;; Plus (Lit "~")) "";
    Filter info (Group (lit "*** Using TeX Live 2016 ***")) "";
    (* Success *)
    Filter success (Group (lit "Extracting files from archive:")) "";
    Filter success (lit "Successfully created PDF file:") "";
    Filter success (lit "** AutoTeX job completed" ;; One Dot ;; lit " **") "";
    (* Ignore *)
    Filter ignore (lit "Reference" ;; Star Dot ;; lit "undefined") "first";
    Filter ignore (lit "Citation" ;; Star Dot ;; lit "undefined") "first";
    Filter ignore (lit "warning") "first";
    Filter ignore (lit "undefined") "first" ].

(** The patterns of the second look at a marked-up line. *)
Definition pat_missfont : regex :=
  lit "missfont" ;; One Dot ;; lit "log present".
Definition pat_rerun : regex := Alt (lit "rerunfilecheck") (lit "rerun").
Definition pat_oberdiek : regex := lit "oberdiek".

(* ================================================================== *)
(** ** Run discovery (the loop over [hits]) *)

Definition run_summary_head : string :=
  "If you are attempting to compile "
  ++ "with a specific engine (PDFLaTeX, LaTeX, " ++ nl ++ "TeX) please "
  ++ "carefully review the appropriate log below." ++ nl ++ nl
  ++ "Summary of TeX runs:" ++ nl ++ nl.

Definition key_summary : string := "".

(** The variables that the loop over [hits] assigns (lines 99-129). *)
Record discovery : Set := Discovery {
  run_summary : string;
  success_last_engine : string;
  success_last_run : string;
  last_run_for_engine : dict;
  enable_markup : list regex;
  disable_markup : list regex
}.

Definition discovery0 : discovery :=
  Discovery run_summary_head "" "" [] [] [].

Definition discover_hit (d : discovery) (hit : string * string) : discovery :=
  let '(engine, run) := hit in
  let dis1 := if (engine =? PDFLATEX)%string
              then (disable_markup d ++ [DISABLE_HPDFLATEX])%list
              else disable_markup d in
  let en1 := if (engine =? PDFLATEX)%string
             then (enable_markup d ++ [ENABLE_PDFLATEX])%list
             else enable_markup d in
  let dis2 := if (engine =? LATEX)%string
              then (dis1 ++ [DISABLE_HLATEX])%list else dis1 in
  let en2 := if (engine =? LATEX)%string
             then (en1 ++ [ENABLE_LATEX])%list else en1 in
  let dis3 := if (engine =? TEX)%string
              then (dis2 ++ [DISABLE_HTEX])%list else dis2 in
  let en3 := if (engine =? TEX)%string
             then (en2 ++ [ENABLE_TEX])%list else en2 in
  {| run_summary :=
       run_summary d ++ tab ++ "Running " ++ engine ++ " for " ++ run
                     ++ " time." ++ nl;
     success_last_engine := engine;
     success_last_run := run;
     last_run_for_engine := dict_set engine run (last_run_for_engine d);
     enable_markup := en3;
     disable_markup := dis3 |}.

(** The loop over [last_run_for_engine.items()]. *)
Fixpoint last_run_lines (d : dict) : string :=
  match d with
  | [] => ""
  | (e, r) :: d' =>
      tab ++ "Last run for engine " ++ e ++ " is " ++ r ++ nl
          ++ last_run_lines d'
  end.

(** Everything up to the scan of the lines: the discovery loop, then the
    blank line and the last-run lines added to the run summary. *)
Definition discover (autotex_log : string) : discovery :=
  let d := fold_left discover_hit (findall2 true run_regex autotex_log)
                     discovery0 in
  {| run_summary := run_summary d ++ nl
                      ++ last_run_lines (last_run_for_engine d);
     success_last_engine := success_last_engine d;
     success_last_run := success_last_run d;
     last_run_for_engine := last_run_for_engine d;
     enable_markup := enable_markup d;
     disable_markup := disable_markup d |}.

(* ================================================================== *)
(** ** The state of the line-by-line scan *)

Record state : Set := State {
  current_engine : string;
  current_run : string;
  last_run : bool;
  markup_enabled : bool;
  abort_markup : bool;
  xetex_luatex_abort : bool;
  emergency_stop : bool;
  missing_file : bool;
  missing_font_markup : bool;
  rerun_markup : bool;
  final_run_had_errors : bool;
  final_run_had_warnings : bool;
  error_summary : string;
  new_log : string
}.

Definition state0 : state :=
  State "" "" false true false false false false false false false false
        "" "".

Definition set_run (e r : string) (st : state) : state :=
  let (_, _, a, b, c, d, f, g, h, i, j, k, l, m) := st in
  State e r a b c d f g h i j k l m.
Definition set_last_run (st : state) : state :=
  let (e, r, _, b, c, d, f, g, h, i, j, k, l, m) := st in
  State e r true b c d f g h i j k l m.
Definition set_markup_enabled (v : bool) (st : state) : state :=
  let (e, r, a, _, c, d, f, g, h, i, j, k, l, m) := st in
  State e r a v c d f g h i j k l m.
Definition set_abort (st : state) : state :=
  let (e, r, a, b, _, _, f, g, h, i, j, k, l, m) := st in
  State e r a b true true f g h i j k l m.
Definition set_emergency_stop (st : state) : state :=
  let (e, r, a, b, c, d, _, g, h, i, j, k, l, m) := st in
  State e r a b c d true g h i j k l m.
Definition set_missing_file (st : state) : state :=
  let (e, r, a, b, c, d, f, _, h, i, j, k, l, m) := st in
  State e r a b c d f true h i j k l m.
Definition set_missing_font_markup (st : state) : state :=
  let (e, r, a, b, c, d, f, g, _, i, j, k, l, m) := st in
  State e r a b c d f g true i j k l m.
Definition set_rerun_markup (st : state) : state :=
  let (e, r, a, b, c, d, f, g, h, _, j, k, l, m) := st in
  State e r a b c d f g h true j k l m.
Definition set_final_run_had_errors (st : state) : state :=
  let (e, r, a, b, c, d, f, g, h, i, _, k, l, m) := st in
  State e r a b c d f g h i true k l m.
Definition set_final_run_had_warnings (st : state) : state :=
  let (e, r, a, b, c, d, f, g, h, i, j, _, l, m) := st in
  State e r a b c d f g h i j true l m.
Definition set_error_summary (v : string) (st : state) : state :=
  let (e, r, a, b, c, d, f, g, h, i, j, k, _, m) := st in
  State e r a b c d f g h i j k v m.
Definition set_new_log (v : string) (st : state) : state :=
  let (e, r, a, b, c, d, f, g, h, i, j, k, l, _) := st in
  State e r a b c d f g h i j k l v.

Definition nonempty (s : string) : bool :=
  match s with "" => false | _ => true end.

(* ================================================================== *)
(** ** Which run a line belongs to (the head of the loop body) *)

Section Scan.

Variable d : discovery.
Variable submission_id : Z.
Variable compilation_status : string.

(** [for regex in l: if re.search(regex, line, re.IGNORECASE): ...; break]
    runs its body once when some pattern of [l] is found, whichever it
    is. *)
Definition any_search (l : list regex) (line : string) : bool :=
  existsb (fun r => search true r line) l.

Definition disable_step (line : string) (st : state) : state :=
  if any_search (disable_markup d) line
  then set_markup_enabled false st else st.

(** [if last_run_for_engine[current_engine] == current_run:
    last_run = True] *)
Definition mark_last_run (st : state) : result state :=
  r <- dict_get (current_engine st) (last_run_for_engine d) ;;
  Ok (if (r =? current_run st)%string then set_last_run st else st).

Definition enable_step (line : string) (st : state) : result state :=
  if any_search (enable_markup d) line then
    let st1 := set_markup_enabled true st in
    let st2 := match search_groups true run_regex line with
               | Some g => set_run (group 1 g) (group 2 g) st1
               | None => st1
               end in
    if nonempty (current_engine st2) && nonempty (current_run st2)
    then mark_last_run st2 else Ok st2
  else Ok st.

(** [if re.search(run_regex, line): ...] *)
Definition banner_step (line : string) (st : state) : result state :=
  match search_groups true run_regex line with
  | Some g => mark_last_run (set_run (group 1 g) (group 2 g) st)
  | None => Ok st
  end.

(** The loop body down to the test of [markup_enabled] (lines 280-315);
    [line] is already escaped. *)
Definition update_run (line : string) (st : state) : result state :=
  st1 <- enable_step line (disable_step line st) ;;
  banner_step line st1.

(* ---------------------------------------------------------------- *)
(** ** Choice of the filter (the loop over [filters]) *)

Definition run_spec (f : filter) : string :=
  if nonempty (f_run f) then f_run f else "first".

(** The test that skips a filter on the wrong run:
    [run and current_run and (RUN_ORDER.index(run) >
    RUN_ORDER.index(current_run) or (run == 'last' and current_run !=
    last_run_for_engine[current_engine]))]. *)
Definition wrong_run (st : state) (run : string) : result bool :=
  if nonempty run && nonempty (current_run st) then
    i <- index run RUN_ORDER ;;
    j <- index (current_run st) RUN_ORDER ;;
    if (j <? i)%nat then Ok true
    else if (run =? "last")%string then
      r <- dict_get (current_engine st) (last_run_for_engine d) ;;
      Ok (negb (current_run st =? r)%string)
    else Ok false
  else Ok false.

Definition fatal_or_abort (l : level) : bool :=
  level_eqb l fatal || level_eqb l abort.

(** The first filter of [fs] that is tried on this run and found in
    [line], if any: the filter that fires (lines 334-363). *)
Fixpoint first_filter (st : state) (line : string) (fs : list filter)
  : result (option filter) :=
  match fs with
  | [] => Ok None
  | f :: fs' =>
      if abort_markup st && negb (fatal_or_abort (f_level f))
      then first_filter st line fs'
      else
        skip <- wrong_run st (run_spec f) ;;
        if skip then first_filter st line fs'
        else if search true (Group (f_regex f)) line then Ok (Some f)
        else first_filter st line fs'
  end.

(* ---------------------------------------------------------------- *)
(** ** What a firing filter does *)

(** The class used for the span: [abort] is shown as [fatal]. *)
Definition css_level (l : level) : level :=
  if level_eqb l abort then fatal else l.

Definition span (l : level) (text : string) : string :=
  "<span class=" ++ dq ++ "tex-" ++ level_name l ++ dq ++ ">" ++ text
                 ++ "</span>".

(** [re.sub(regex, rf'<span class="tex-{level}">\1</span>', line,
    flags=re.IGNORECASE)] with [regex] the filter inside one group. *)
Definition markup (f : filter) (line : string) : string :=
  sub true (Group (f_regex f))
      (fun g => span (css_level (f_level f)) (group 1 g)) line.

(** Opening of an entry: the list is started by the first entry. *)
Definition add_entry (entry : string) (st : state) : state :=
  set_error_summary
    ((if (error_summary st =? "")%string then initialize_error_summary
      else error_summary st ++ nl) ++ entry) st.

Definition abort_entry : string :=
  tab ++ "<li>At the current time arXiv does not support XeTeX/LuaTeX."
  ++ nl ++ nl
  ++ tab ++ "If you believe that your submission requires a compilation "
  ++ "method " ++ nl ++ tab ++ "unsupported by arXiv, please contact "
  ++ "<span class=" ++ dq ++ "tex-help" ++ dq ++ ">help@arxiv.org</span> for "
  ++ nl ++ tab ++ "more information and provide us with this "
  ++ "submit/" ++ str_of_int submission_id ++ " identifier.</li>".

Definition missing_font_entry : string :=
  tab ++ "<li>A font required by your paper is not available. "
  ++ "You may try to " ++ nl ++ tab ++ "include a non-standard font or "
  ++ "substitue an alternative font. " ++ nl ++ tab ++ "See <span "
  ++ "class=" ++ dq ++ "tex-help" ++ dq ++ "><a href=" ++ dq
  ++ "https://arxiv.org/"
  ++ "help/00README#fontmap" ++ dq ++ ">Custom Fontmaps</a></span>. If "
  ++ "this is due to a problem with " ++ nl ++ tab ++ "our system, please "
  ++ "contact <span class=" ++ dq ++ "tex-help" ++ dq
  ++ ">help@arxiv.org</span>"
  ++ " with details " ++ nl ++ tab ++ "and provide us with this "
  ++ "submission identifier: submit/" ++ str_of_int submission_id ++ "."
  ++ "</li>".

Definition rerun_entry : string :=
  tab ++ "<li>Analysis of the compilation log indicates "
  ++ "your submission " ++ nl ++ tab ++ "may need an additional TeX run. "
  ++ "Please add the following line " ++ nl ++ tab ++ "to your source in "
  ++ "order to force an additional TeX run:" ++ nl ++ nl
  ++ tab ++ "<span class=" ++ dq ++ "tex-help" ++ dq ++ ">" ++ bsl
  ++ "typeout{get arXiv "
  ++ "to do 4 passes: Label(s) may have changed. Rerun}</span>"
  ++ nl ++ nl ++ tab ++ "Add the above line just before <span "
  ++ "class=" ++ dq ++ "tex-help" ++ dq ++ ">" ++ bsl
  ++ "end{document}</span> directive."
  ++ "/li>".

Definition missing_file_entry (line : string) : string :=
  "<li>" ++ tab ++ "A file required by your submission was not found."
  ++ nl ++ tab ++ line ++ nl ++ tab ++ "Please upload any missing files, or "
  ++ "correct any file naming issues, and then reprocess"
  ++ " your submission.</li>".

Definition emergency_stop_entry : string :=
  tab ++ "<li>We detected an emergency stop during one of the TeX"
  ++ " compilation runs. Please review the compilation log"
  ++ " to determie whether there is a serious issue with "
  ++ "your submission source.</li>".

(** Problems of a successful compilation: only matches on the last
    engine and run of the log count.  [lv] is the span class. *)
Definition on_final_run (st : state) : bool :=
  (compilation_status =? "succeeded")%string
  && (current_engine st =? success_last_engine d)%string
  && (current_run st =? success_last_run d)%string.

Definition note_final_run (lv : level) (st : state) : state :=
  if on_final_run st then
    let st1 := if level_eqb lv warning
               then set_final_run_had_warnings st else st in
    if level_eqb lv danger || level_eqb lv fatal
    then set_final_run_had_errors st1 else st1
  else st.

(** The five reports read the line after its markup; [actual] is the
    filter's own level and [lv] the span class. *)
Definition abort_due (actual : level) (line : string) (st : state) : bool :=
  negb (abort_markup st) && level_eqb actual abort
  && (search false pat_fontspec_fatal line
      || search false pat_fontspec_requires line
      || search false pat_cannot_use_pdftex line).

Definition report_abort (actual : level) (line : string) (st : state)
  : state :=
  if abort_due actual line st then set_abort (add_entry abort_entry st)
  else st.

Definition missing_font_due (lv : level) (line : string) (st : state)
  : bool :=
  negb (missing_font_markup st) && level_eqb lv fatal
  && search false pat_missfont line.

Definition report_missing_font (lv : level) (line : string) (st : state)
  : state :=
  if missing_font_due lv line st
  then set_missing_font_markup (add_entry missing_font_entry st)
  else st.

Definition rerun_due (lv : level) (line : string) (st : state) : bool :=
  negb (rerun_markup st) && level_eqb lv danger
  && search false pat_rerun line
  && negb (search false pat_4passes line)
  && negb (search false pat_oberdiek line).

Definition report_rerun (lv : level) (line : string) (st : state) : state :=
  if rerun_due lv line st
  then set_rerun_markup
         (set_final_run_had_warnings (add_entry rerun_entry st))
  else st.

Definition missing_file_due (lv : level) (line : string) (st : state)
  : bool :=
  negb (missing_file st) && level_eqb lv danger
  && search true pat_file_not_found line.

Definition report_missing_file (lv : level) (line : string) (st : state)
  : state :=
  if missing_file_due lv line st
  then set_missing_file (add_entry (missing_file_entry line) st)
  else st.

Definition emergency_stop_due (lv : level) (line : string) (st : state)
  : bool :=
  negb (missing_file st) && negb (emergency_stop st) && level_eqb lv danger
  && search true pat_emergency_stop line.

Definition report_emergency_stop (lv : level) (line : string) (st : state)
  : state :=
  if emergency_stop_due lv line st
  then set_emergency_stop (add_entry emergency_stop_entry st)
  else st.

(** The body of [if re.search(regex, line, re.IGNORECASE):] for the
    filter [f] that fires (lines 367-495); [line] is the line after
    [markup]. *)
Definition fire (f : filter) (line : string) (st : state) : state :=
  let lv := css_level (f_level f) in
  report_emergency_stop lv line
    (report_missing_file lv line
       (report_rerun lv line
          (report_missing_font lv line
             (report_abort (f_level f) line
                (note_final_run lv st))))).

(* ---------------------------------------------------------------- *)
(** ** One line, and the loop over the lines *)

(** The line as appended to [new_log], given the filter that fired. *)
Definition shown (fired : option filter) (line : string) : string :=
  match fired with
  | Some f => markup f line
  | None => line
  end.

(** One turn of [for line in line_by_line].  The list [skip_markup] is
    empty, so its loop does nothing. *)
Definition process_line (raw : string) (st : state) : result state :=
  let line := html_escape raw in
  st1 <- update_run line st ;;
  if negb (markup_enabled st1) then Ok st1
  else
    fired <- first_filter st1 line filters ;;
    let line' := shown fired line in
    let st2 := match fired with
               | Some f => fire f line' st1
               | None => st1
               end in
    Ok (set_new_log (new_log st2 ++ line' ++ nl) st2).

Fixpoint scan (lines : list string) (st : state) : result state :=
  match lines with
  | [] => Ok st
  | raw :: rest => st' <- process_line raw st ;; scan rest st'
  end.

(** What the scan does with the lines that reach the filters: for each
    such line, in order, the state in which the filters are tried, the
    escaped line, and the filter that fires.  The list stops where
    the scan raises. *)
Fixpoint firings (lines : list string) (st : state)
  : list (state * string * option filter) :=
  match lines with
  | [] => []
  | raw :: rest =>
      match update_run (html_escape raw) st with
      | Ok st1 =>
          if negb (markup_enabled st1) then firings rest st1
          else
            match first_filter st1 (html_escape raw) filters,
                  process_line raw st with
            | Ok fired, Ok st' =>
                (st1, html_escape raw, fired) :: firings rest st'
            | _, _ => []
            end
      | Raise _ => []
      end
  end.

(* ---------------------------------------------------------------- *)
(** ** Status and report *)

(** [(status_class, display_status)] (lines 511-537) *)
Definition status (st : state) : string * string :=
  if (compilation_status =? "failed")%string then
    if xetex_luatex_abort st
    then ("fatal", "Failed: XeTeX/LuaTeX are not supported at current time.")
    else ("fatal", "Failed")
  else if (compilation_status =? "succeeded")%string then
    if final_run_had_errors st && negb (final_run_had_warnings st) then
      ("danger", "Succeeded with possible errors. "
                 ++ nl ++ tab ++ tab
                 ++ "Be sure to carefully inspect log (see below).")
    else if negb (final_run_had_errors st) && final_run_had_warnings st then
      ("warning", "Succeeded with warnings. We recommend that you "
                  ++ nl ++ tab ++ tab ++ "inspect the log (see below).")
    else if final_run_had_errors st && final_run_had_warnings st then
      ("danger", "Succeeded with (possibly significant) errors and "
                 ++ "warnings. " ++ nl ++ tab ++ tab
                 ++ "Please be sure to carefully inspect "
                 ++ "log (see below).")
    else ("success", "Succeeded!")
  else ("warning", "Succeeded with warnings").

Definition status_line (cls_msg : string * string) : string :=
  nl ++ "Processing Status: <span class=" ++ dq ++ "tex-" ++ fst cls_msg
     ++ dq ++ ">" ++ snd cls_msg ++ "</span>" ++ nl ++ nl.

Definition final_error_summary (st : state) : string :=
  if nonempty (error_summary st)
  then finalize_error_summary (error_summary st) else error_summary st.

Definition report (st : state) : string :=
  run_summary d ++ status_line (status st) ++ final_error_summary st
              ++ key_summary
              ++ nl ++ nl ++ "<b>Marked Up Log:</b>" ++ nl ++ nl
              ++ new_log st.

End Scan.

(** [compilation_log_display(autotex_log, submission_id,
    compilation_status)] *)
Definition compilation_log_display (autotex_log : string) (submission_id : Z)
           (compilation_status : string) : result string :=
  if search false no_log_regex autotex_log then Ok autotex_log
  else
    let d := discover autotex_log in
    st <- scan d submission_id compilation_status
               (splitlines autotex_log) state0 ;;
    Ok (report d compilation_status st).

(* ================================================================== *)
(** * Vocabulary of the properties *)

(** ** Definitions for: C8: text of the log that reaches the output unescaped *)

(** A banner whose line break stands where the pattern has [\s]: it is found
    in the whole text, and on no single line. *)
Definition split_banner_log : string :=
  "~~~" ++ nl ++ "Running <script> for the first time ~~~".

(** ** Definitions for: Which variables each part of the loop body assigns *)

(** The variables that follow the runs. *)
Definition same_run (st st' : state) : Prop :=
  current_engine st' = current_engine st
  /\ current_run st' = current_run st
  /\ last_run st' = last_run st
  /\ markup_enabled st' = markup_enabled st.

(** The latches, the two flags of the final run and the two texts. *)
Definition same_report (st st' : state) : Prop :=
  abort_markup st' = abort_markup st
  /\ xetex_luatex_abort st' = xetex_luatex_abort st
  /\ emergency_stop st' = emergency_stop st
  /\ missing_file st' = missing_file st
  /\ missing_font_markup st' = missing_font_markup st
  /\ rerun_markup st' = rerun_markup st
  /\ final_run_had_errors st' = final_run_had_errors st
  /\ final_run_had_warnings st' = final_run_had_warnings st
  /\ error_summary st' = error_summary st
  /\ new_log st' = new_log st.

Definition keeps_run (g : state -> state) : Prop :=
  forall st, same_run st (g st) /\ new_log (g st) = new_log st.

(** ** Definitions for: What can be observed of a scan *)

(** A firing without the texts of the state: the engine and run of the
    line, the flag [last_run], the escaped line, and the level and run
    spec of the filter that fires. *)
Definition observe (x : state * string * option filter)
  : string * string * bool * string * option (level * string) :=
  let '(st, line, fired) := x in
  (current_engine st, current_run st, last_run st, line,
   option_map (fun f => (f_level f, f_run f)) fired).

(** ** Definitions for: C4: two runs of one engine *)

Definition two_runs_log : string :=
  "~~~ Running latex for the first time ~~~" ++ nl
  ++ "LaTeX Warning: Label(s) may have changed." ++ nl
  ++ "~~~ Running latex for the second time ~~~" ++ nl
  ++ "LaTeX Warning: Label(s) may have changed." ++ nl.

Definition warning_second : filter := Filter warning (lit "warning") "second".

(** ** Definitions for: C10: the flag [last_run] *)

(** Two engines: the only run of [tex] is its last, and the first run of
    [latex] that follows is not the last of [latex]. *)
Definition two_engines_log : string :=
  "~~~ Running tex for the first time ~~~" ++ nl
  ++ "~~~ Running latex for the first time ~~~" ++ nl
  ++ "Citation x undefined" ++ nl
  ++ "~~~ Running latex for the second time ~~~" ++ nl
  ++ "Citation x undefined" ++ nl.

(** ** Definitions for: Invariants of the scan *)

(** Everything that the reports and the status depend on. *)
Definition same_latches (st st' : state) : Prop :=
  abort_markup st' = abort_markup st
  /\ xetex_luatex_abort st' = xetex_luatex_abort st
  /\ emergency_stop st' = emergency_stop st
  /\ missing_file st' = missing_file st
  /\ missing_font_markup st' = missing_font_markup st
  /\ rerun_markup st' = rerun_markup st
  /\ final_run_had_errors st' = final_run_had_errors st
  /\ final_run_had_warnings st' = final_run_had_warnings st
  /\ error_summary st' = error_summary st.

(** ** Definitions for: The latches after a firing filter *)

(** [st'] has the latches and flags of [st], each one raised where the
    matching argument is true. *)
Definition raised (st st' : state) (ab mfm rr mf es fe fw : bool) : Prop :=
  abort_markup st' = abort_markup st || ab
  /\ xetex_luatex_abort st' = xetex_luatex_abort st || ab
  /\ missing_font_markup st' = missing_font_markup st || mfm
  /\ rerun_markup st' = rerun_markup st || rr
  /\ missing_file st' = missing_file st || mf
  /\ emergency_stop st' = emergency_stop st || es
  /\ final_run_had_errors st' = final_run_had_errors st || fe
  /\ final_run_had_warnings st' = final_run_had_warnings st || fw.

(** The emergency-stop report is due on a state where the missing-file
    report may just have been made. *)
Definition emergency_stop_after (lv : level) (line : string) (st : state)
  : bool :=
  negb (missing_file st || missing_file_due lv line st)
  && negb (emergency_stop st) && level_eqb lv danger
  && search true pat_emergency_stop line.

(** ** Definitions for: The error summary only grows *)

Definition grows (st st' : state) : Prop :=
  exists x, error_summary st' = error_summary st ++ x.

(** ** Definitions for: C3: the abort latch *)

Definition latch_closed (st : state) : Prop :=
  abort_markup st = true /\ xetex_luatex_abort st = true.

(** The two variables of the abort are assigned together. *)
Definition abort_agrees (st : state) : Prop :=
  abort_markup st = xetex_luatex_abort st.

(** The level of a filter is [fatal] or [abort]; no filter is fine too. *)
Definition severe (x : state * string * option filter) : Prop :=
  match snd x with
  | Some f => f_level f = fatal \/ f_level f = abort
  | None => True
  end.

Definition report_tail (st : state) : string :=
  final_error_summary st ++ key_summary ++ nl ++ nl
  ++ "<b>Marked Up Log:</b>" ++ nl ++ nl ++ new_log st.

(** A fontspec line in the run of a hidden engine, which is dropped
    from the display once the run of [pdflatex] is found in the log. *)
Definition hidden_fontspec_log : string :=
  "~~~ Running hpdflatex for the first time ~~~" ++ nl
  ++ "! The fontspec package requires either XeTeX or LuaTeX." ++ nl
  ++ "~~~ Running pdflatex for the first time ~~~" ++ nl
  ++ "! Emergency stop." ++ nl.

Definition fontspec_log : string :=
  "~~~ Running pdflatex for the first time ~~~" ++ nl
  ++ "! The fontspec package requires either XeTeX or LuaTeX." ++ nl
  ++ "LaTeX Warning: ignored" ++ nl
  ++ "! Emergency stop, fatal error" ++ nl.

Definition result_state (r : result state) : state :=
  match r with
  | Ok st => st
  | Raise _ => state0
  end.

(** The state after the first two lines of [fontspec_log], and the
    state after all its lines. *)
Definition fontspec_st1 : state :=
  Eval vm_compute in
    result_state (scan (discover fontspec_log) 1 "failed"
                       (firstn 2 (splitlines fontspec_log)) state0).

Definition fontspec_st2 : state :=
  Eval vm_compute in
    result_state (scan (discover fontspec_log) 1 "failed"
                       (skipn 2 (splitlines fontspec_log)) fontspec_st1).

(** ** Definitions for: C5: the status of a successful compilation *)

(** A filter shown as [warning], [danger] or [fatal] fires on a line of
    the last engine and run of the log. *)
Definition final_run_problem (d : discovery)
           (x : state * string * option filter) : bool :=
  match x with
  | (st, _, Some f) =>
      on_final_run d "succeeded" st
      && (level_eqb (css_level (f_level f)) warning
          || level_eqb (css_level (f_level f)) danger
          || level_eqb (css_level (f_level f)) fatal)
  | (_, _, None) => false
  end.

(** The firing makes the rerun report. *)
Definition rerun_reported (x : state * string * option filter) : bool :=
  match x with
  | (st, line, Some f) => rerun_due (css_level (f_level f)) (markup f line) st
  | (_, _, None) => false
  end.

(** A [danger] match on a line with [rerun], in the first of two runs. *)
Definition rerun_first_run_log : string :=
  "~~~ Running latex for the first time ~~~" ++ nl
  ++ "bibtex rerun failed" ++ nl
  ++ "~~~ Running latex for the second time ~~~" ++ nl
  ++ "Output written on paper.dvi" ++ nl.

Definition rerun_first_run_st : state :=
  Eval vm_compute in
    result_state (scan (discover rerun_first_run_log) 1 "succeeded"
                       (splitlines rerun_first_run_log) state0).

Definition clean_log : string :=
  "~~~ Running latex for the first time ~~~" ++ nl
  ++ "LaTeX Warning: Citation `x' undefined" ++ nl
  ++ "~~~ Running latex for the second time ~~~" ++ nl
  ++ "Output written on paper.dvi" ++ nl.

Definition clean_st : state :=
  Eval vm_compute in
    result_state (scan (discover clean_log) 1 "succeeded"
                       (splitlines clean_log) state0).

(** ** Definitions for: C6: the missing-font report *)





(** ** Definitions for: Where a match can end *)

(** [r] matches at the start of [s] and leaves [t]. *)
Definition ends (ic : bool) (r : regex) (s t : string) : Prop :=
  exists g, In (g, t) (matches ic r s).

(** The matches of [a*]: the string less a prefix of characters of [a]. *)
Fixpoint all_match (ic : bool) (a : atom) (s : string) : bool :=
  match s with
  | "" => true
  | String c s' => atom_match ic a c && all_match ic a s'
  end.

(** ** Definitions for: Matching in an escaped line *)

(** The five characters that [html.escape] replaces. *)
Definition special (c : ascii) : bool :=
  match nat_of_ascii c with
  | 38 | 60 | 62 | 34 | 39 => true
  | _ => false
  end.

Fixpoint occurs (c : ascii) (s : string) : bool :=
  match s with
  | "" => false
  | String x s' => Ascii.eqb c x || occurs c s'
  end.

(** A character that is copied by [html.escape] and is in none of the
    five entities. *)
Definition marker (c : ascii) : bool :=
  negb (special c) && negb (occurs c "&amp;&lt;&gt;&quot;&#x27;").

(** An atom that only matches characters that [html.escape] copies. *)
Definition plain_atom (a : atom) : bool :=
  match a with
  | Lit l => negb (special l)
  | Space => true
  | Dot => false
  end.

(** No line feed in the text. *)
Definition no_lf (s : string) : bool := all_match true Dot s.

(** The pattern starts with a literal space. *)
Definition starts_with_space (r : regex) : Prop :=
  forall s t, ends true r s t -> exists w, s = String " " w.

(** Patterns whose match in an escaped text is a match in the text: their
    atoms only match copied characters, but for groups of [.*] that are
    followed by a literal space. *)
Inductive safe : regex -> Prop :=
| safe_eps : safe Eps
| safe_one (a : atom) : plain_atom a = true -> safe (One a)
| safe_star (a : atom) : plain_atom a = true -> safe (Star a)
| safe_plus (a : atom) : plain_atom a = true -> safe (Plus a)
| safe_cat (r1 r2 : regex) : safe r1 -> safe r2 -> safe (Cat r1 r2)
| safe_group (r : regex) : safe r -> safe (Group r)
| safe_dots (r : regex) :
    safe r -> starts_with_space r -> safe (Cat (Group (Star Dot)) r).

(** No character of the text is replaced by [html.escape]. *)
Fixpoint copied (w : string) : bool :=
  match w with
  | "" => true
  | String c w' => negb (special c) && copied w'
  end.

(** ** Definitions for: C2: a log without run banner *)

Fixpoint count_lf (s : string) : nat :=
  match s with
  | "" => 0
  | String c s' => (if Ascii.eqb c LF then 1 else 0) + count_lf s'
  end.

(** ** Definitions for: The markup keeps the text that the filter found *)

Definition span_open (l : level) : string :=
  "<span class=" ++ dq ++ "tex-" ++ level_name l ++ dq ++ ">".

(** ** Definitions for: C7: the missing-file report *)

(** A filter shown as [danger] fires on the line, and the line with its
    markup holds the missing-file pattern. *)
Definition file_missing_seen (x : state * string * option filter) : bool :=
  match x with
  | (_, line, Some f) =>
      level_eqb (css_level (f_level f)) danger
      && search true pat_file_not_found (markup f line)
  | (_, _, None) => false
  end.

Definition file_entry_in (st : state) : Prop :=
  exists line, contains (missing_file_entry line) (error_summary st).

(** With the latch goes an entry in the summary. *)
Definition file_latch_entry (st : state) : Prop :=
  missing_file st = true -> file_entry_in st.

Definition file_reported_in (st : state) : Prop :=
  missing_file st = true /\ file_entry_in st.

(** The missing-file pattern on a line, in the first of two runs, where
    a filter listed before the one for missing files fires. *)
Definition fatal_file_log : string :=
  "~~~ Running latex for the first time ~~~" ++ nl
  ++ "Fatal: file a.sty not found" ++ nl
  ++ "~~~ Running latex for the second time ~~~" ++ nl
  ++ "Output written on paper.dvi" ++ nl.

Definition fatal_file_st : state :=
  Eval vm_compute in
    result_state (scan (discover fatal_file_log) 1 "failed"
                       (splitlines fatal_file_log) state0).

(** The entry of [filters] for a missing file: level [danger], all runs. *)
Definition file_filter : filter := Filter danger pat_file_not_found "".

(** The missing file is reported by the first of two runs. *)
Definition missing_file_log : string :=
  "~~~ Running latex for the first time ~~~" ++ nl
  ++ "! LaTeX Error: File `a.sty' not found." ++ nl
  ++ "~~~ Running latex for the second time ~~~" ++ nl
  ++ "Output written on paper.dvi" ++ nl.

Definition missing_file_st : state :=
  Eval vm_compute in
    result_state (scan (discover missing_file_log) 1 "failed"
                       (splitlines missing_file_log) state0).

(** ** Definitions for: C4: the runs as the line loop follows them *)

Definition two_runs_st : state :=
  Eval vm_compute in
    result_state (scan (discover two_runs_log) 1 "succeeded"
                       (splitlines two_runs_log) state0).

(** The engine and the run of the banner that the line loop finds in a
    line ([run_regex.search(line)], groups 1 and 2). *)
Definition banner (line : string) : option (string * string) :=
  match search_groups true run_regex line with
  | Some g => Some (group 1 g, group 2 g)
  | None => None
  end.

(** The line loop finds no banner in the line. *)
Definition no_banner (raw : string) : Prop :=
  banner (html_escape raw) = None.

(** The filters are tried on the line of the firing [x] with run [r] of
    engine [e] as the current run. *)
Definition in_run (e r : string) (x : state * string * option filter)
  : Prop :=
  current_engine (fst (fst x)) = e /\ current_run (fst (fst x)) = r.

(** [f] fires on the line of [x] when it is found in the line, the abort
    latch is open and no filter listed before [f] is found. *)
Definition fires_when_found (f : filter) (before : list filter)
           (x : state * string * option filter) : Prop :=
  abort_markup (fst (fst x)) = false ->
  search true (Group (f_regex f)) (snd (fst x)) = true ->
  (forall f0, In f0 before ->
              search true (Group (f_regex f0)) (snd (fst x)) = false) ->
  snd x = Some f.

(** Two runs of [latex]; the banner of the first run is broken over two
    lines, so that the search over the whole log finds it and the search
    in each line does not. *)
Definition split_two_runs_log : string :=
  "~~~" ++ nl ++ "Running latex for the first time ~~~" ++ nl
  ++ "LaTeX Warning: Label(s) may have changed." ++ nl
  ++ "~~~ Running latex for the second time ~~~" ++ nl
  ++ "LaTeX Warning: Label(s) may have changed." ++ nl.

(** Two runs of [latex]; the line of the second run holds [warning] and
    also [failed], the pattern of a filter listed earlier. *)
Definition earlier_filter_log : string :=
  "~~~ Running latex for the first time ~~~" ++ nl
  ++ "~~~ Running latex for the second time ~~~" ++ nl
  ++ "warning: conversion failed" ++ nl.

(** ** Definitions for: the run discovery *)

(** The run of the last hit for engine [e], if any. *)
Fixpoint last_hit (e : string) (hits : list (string * string))
  : option string :=
  match hits with
  | [] => None
  | (e', r) :: rest =>
      match last_hit e rest with
      | Some r' => Some r'
      | None => if (e =? e')%string then Some r else None
      end
  end.

(** One of the three engines whose hidden variant is dropped. *)
Definition real_engine (e : string) : bool :=
  (e =? PDFLATEX)%string || (e =? LATEX)%string || (e =? TEX)%string.

(** Only runs of a hidden engine. *)
Definition hidden_only_log : string :=
  "~~~ Running hlatex for the first time ~~~" ++ nl
  ++ "LaTeX Warning: Citation `x' undefined" ++ nl
  ++ "~~~ Running hlatex for the second time ~~~" ++ nl
  ++ "Output written on paper.dvi" ++ nl.

Definition hidden_only_st : state :=
  Eval vm_compute in
    result_state (scan (discover hidden_only_log) 1 "succeeded"
                       (splitlines hidden_only_log) state0).

(** ** Definitions for: the inputs on which the scan returns *)

Definition is_some {A : Type} (o : option A) : bool :=
  match o with Some _ => true | None => false end.

(** The banner of the (escaped) line, if it has one, names an engine
    that is a key of [last_run_for_engine] and a run of [RUN_ORDER]. *)
Definition banner_ok (d : discovery) (line : string) : bool :=
  match search_groups true run_regex line with
  | Some g =>
      is_some (dict_find (group 1 g) (last_run_for_engine d))
      && existsb (String.eqb (group 2 g)) RUN_ORDER
  | None => true
  end.

(** No run has begun, or the current run is one of [RUN_ORDER] and the
    current engine a key of [last_run_for_engine]. *)
Definition run_known (d : discovery) (st : state) : bool :=
  negb (nonempty (current_run st))
  || (is_some (dict_find (current_engine st) (last_run_for_engine d))
      && existsb (String.eqb (current_run st)) RUN_ORDER).

(** ** Definitions for: the five reports *)

(** The firing makes the XeTeX/LuaTeX report. *)
Definition abort_reported (x : state * string * option filter) : bool :=
  match x with
  | (st, line, Some f) => abort_due (f_level f) (markup f line) st
  | (_, _, None) => false
  end.

(** The firing makes the missing-file report. *)
Definition file_reported (x : state * string * option filter) : bool :=
  match x with
  | (st, line, Some f) =>
      missing_file_due (css_level (f_level f)) (markup f line) st
  | (_, _, None) => false
  end.

(** The firing makes the emergency-stop report. *)
Definition emergency_reported (x : state * string * option filter) : bool :=
  match x with
  | (st, line, Some f) =>
      emergency_stop_after (css_level (f_level f)) (markup f line) st
  | (_, _, None) => false
  end.

(** A missing file, then the emergency stop that comes with it. *)
Definition file_then_stop_log : string :=
  "~~~ Running latex for the first time ~~~" ++ nl
  ++ "! LaTeX Error: File `a.sty' not found." ++ nl
  ++ "! Emergency stop." ++ nl
  ++ "! Emergency stop." ++ nl.


Definition file_then_stop_st : state :=
  Eval vm_compute in
    result_state (scan (discover file_then_stop_log) 1 "failed"
                       (splitlines file_then_stop_log) state0).



(** With the latch [latch] goes the entry [e] in the error summary. *)
Definition has_entry (latch : state -> bool) (e : string) (st : state)
  : Prop :=
  latch st = true -> contains e (error_summary st).

(** The latches of the abort, of the extra run and of the emergency stop
    have their entries in the error summary. *)
Definition entries_in (submission_id : Z) (st : state) : Prop :=
  has_entry xetex_luatex_abort (abort_entry submission_id) st
  /\ has_entry rerun_markup rerun_entry st
  /\ has_entry emergency_stop emergency_stop_entry st.

(** ** Definitions for: the flags of the final run *)

(** A filter shown as [danger] or [fatal] fires on a line of the last
    engine and run of the log. *)
Definition final_run_error (d : discovery) (compilation_status : string)
           (x : state * string * option filter) : bool :=
  match x with
  | (st, _, Some f) =>
      on_final_run d compilation_status st
      && (level_eqb (css_level (f_level f)) danger
          || level_eqb (css_level (f_level f)) fatal)
  | (_, _, None) => false
  end.

(** A filter shown as [warning] fires on a line of the last engine and
    run of the log, or the firing makes the rerun report. *)
Definition final_run_warning (d : discovery) (compilation_status : string)
           (x : state * string * option filter) : bool :=
  match x with
  | (st, line, Some f) =>
      (on_final_run d compilation_status st
       && level_eqb (css_level (f_level f)) warning)
      || rerun_due (css_level (f_level f)) (markup f line) st
  | (_, _, None) => false
  end.

Definition emergency_log : string :=
  "~~~ Running pdflatex for the first time ~~~" ++ nl
  ++ "! Emergency stop." ++ nl.

Definition emergency_st : state :=
  Eval vm_compute in
    result_state (scan (discover emergency_log) 1 "failed"
                       (splitlines emergency_log) state0).

(** ** Definitions for: what the markup does to a line *)

(** [s] without its first [n] characters. *)
Fixpoint drop (n : nat) (s : string) : string :=
  match n, s with
  | O, _ => s
  | S k, String _ s' => drop k s'
  | S _, "" => ""
  end.

(** A line cut into pieces: each pair is a stretch of text that is
    copied and the match that follows it; [tail] is the text after the
    last match. *)
Fixpoint plain (segs : list (string * string)) (tail : string) : string :=
  match segs with
  | [] => tail
  | (pre, m) :: segs' => pre ++ m ++ plain segs' tail
  end.

(** The same pieces with every match inside a span of class [lv]. *)
Fixpoint spanned (lv : level) (segs : list (string * string))
         (tail : string) : string :=
  match segs with
  | [] => tail
  | (pre, m) :: segs' => pre ++ span lv m ++ spanned lv segs' tail
  end.

(** ** Definitions for: the marked-up log *)

(** The lines of the firings as they are appended to [new_log]. *)
Fixpoint log_of (fs : list (state * string * option filter)) : string :=
  match fs with
  | [] => ""
  | (_, line, fired) :: fs' => shown fired line ++ nl ++ log_of fs'
  end.

(** ** Definitions for: the lists [enable_markup] and [disable_markup] *)

(** The patterns that one hit of the discovery loop appends. *)
Definition disable_for (engine : string) : list regex :=
  ((if (engine =? PDFLATEX)%string then [DISABLE_HPDFLATEX] else [])
   ++ (if (engine =? LATEX)%string then [DISABLE_HLATEX] else [])
   ++ (if (engine =? TEX)%string then [DISABLE_HTEX] else []))%list.

Definition enable_for (engine : string) : list regex :=
  ((if (engine =? PDFLATEX)%string then [ENABLE_PDFLATEX] else [])
   ++ (if (engine =? LATEX)%string then [ENABLE_LATEX] else [])
   ++ (if (engine =? TEX)%string then [ENABLE_TEX] else []))%list.

(* ================================================================== *)
(** * Properties *)


(** ** Strings *)

Lemma append_assoc (a b c : string) : (a ++ b) ++ c = a ++ b ++ c.
Proof. induction a as [|x a IH]; simpl; [reflexivity | now rewrite IH]. Qed.

Lemma append_nil_r (a : string) : a ++ "" = a.
Proof. induction a as [|x a IH]; simpl; [reflexivity | now rewrite IH]. Qed.

Lemma contains_app_l (x a b : string) : contains x a -> contains x (a ++ b).
Proof.
  intros (pre & post & ->). exists pre, (post ++ b).
  now rewrite !append_assoc.
Qed.

Lemma contains_app_r (x a b : string) : contains x b -> contains x (a ++ b).
Proof.
  intros (pre & post & ->). exists (a ++ pre), post.
  now rewrite !append_assoc.
Qed.

Lemma contains_refl (x : string) : contains x x.
Proof. exists "", "". simpl. now rewrite append_nil_r. Qed.

(** ** The matcher *)

Lemma search_at (ic : bool) (r : regex) (pre t : string) :
  matches ic r t <> [] -> search ic r (pre ++ t) = true.
Proof.
  intros Hm. induction pre as [|c pre IH]; simpl.
  - revert Hm. destruct t; simpl; unfold match_at;
      destruct (matches ic r _); simpl; congruence.
  - unfold match_at. destruct (matches ic r (String c (pre ++ t))); simpl; auto.
Qed.

Lemma search_inv (ic : bool) (r : regex) (s : string) :
  search ic r s = true ->
  exists pre t, s = pre ++ t /\ matches ic r t <> [].
Proof.
  induction s as [|c s IH]; simpl; unfold match_at.
  - destruct (matches ic r "") eqn:E; simpl; [discriminate|].
    intros _. exists "", "". split; [reflexivity | congruence].
  - destruct (matches ic r (String c s)) eqn:E; simpl.
    + intros H. destruct (IH H) as (pre & t & -> & Hm).
      exists (String c pre), t. split; [reflexivity | assumption].
    + intros _. exists "", (String c s). split; [reflexivity | congruence].
Qed.

Lemma search_groups_none (ic : bool) (r : regex) (s : string) :
  search ic r s = false -> search_groups ic r s = None.
Proof.
  induction s as [|c s IH]; simpl; unfold match_at;
    destruct (matches ic r _) as [|[g t] l]; simpl; auto; discriminate.
Qed.

(* ================================================================== *)
(** ** C9: the sentinel *)

Lemma no_log_matches (post : string) :
  matches false no_log_regex ("No log available." ++ post) <> [].
Proof. cbn. discriminate. Qed.

(** C9.  Every input that holds the literal text [No log available.] is
    returned unchanged, whatever the identifier and the status. *)
Theorem C9_no_log_available_unchanged
        (autotex_log : string) (submission_id : Z) (compilation_status : string) :
  contains "No log available." autotex_log ->
  compilation_log_display autotex_log submission_id compilation_status
  = Ok autotex_log.
Proof.
  intros (pre & post & ->). unfold compilation_log_display.
  now rewrite (search_at false no_log_regex pre _ (no_log_matches post)).
Qed.

(** C9, witness: the theorem on a concrete log. *)
Lemma C9_no_log_available_witness :
  contains "No log available." "Sorry. No log available. Try later."
  /\ compilation_log_display "Sorry. No log available. Try later." 7 "failed"
     = Ok "Sorry. No log available. Try later.".
Proof.
  assert (H : contains "No log available."
                       "Sorry. No log available. Try later.")
    by (exists "Sorry. ", " Try later."; reflexivity).
  split; [exact H | exact (C9_no_log_available_unchanged _ 7 "failed" H)].
Defined.

(* ================================================================== *)
(** ** C1: inputs on which the function raises *)

(** C1.  The function does not return on every input: a banner for a
    fifth run makes [RUN_ORDER.index] raise [ValueError] on the banner
    line itself, and a banner whose engine name is changed by
    [html.escape] makes the subscript of [last_run_for_engine] raise
    [KeyError]. *)
Theorem C1_banner_raises (submission_id : Z) (compilation_status : string) :
  compilation_log_display "~~~ Running pdflatex for the fifth time ~~~"
                          submission_id compilation_status
  = Raise ValueError
  /\ compilation_log_display "~~~ Running a&b for the first time ~~~"
                             submission_id compilation_status
     = Raise KeyError.
Proof. split; vm_compute; reflexivity. Qed.

(* ================================================================== *)
(** ** C8: text of the log that reaches the output unescaped *)

(** C8.  The run summary is built from the groups found in the raw text:
    an engine name is copied to the output as it is, here with its angle
    brackets. *)
Theorem C8_run_summary_unescaped (submission_id : Z) :
  exists out,
    compilation_log_display split_banner_log submission_id "succeeded" = Ok out
    /\ containsb (tab ++ "Running <script> for first time.") out = true
    /\ containsb "<script>" (html_escape split_banner_log) = false.
Proof.
  eexists. split; [vm_compute; reflexivity|].
  split; vm_compute; reflexivity.
Qed.

(* ================================================================== *)
(** ** The choice of the filter *)

Section FilterChoice.

Variable d : discovery.

(** The filter that fires passed every test of the loop. *)
Lemma first_filter_some (st : state) (line : string) (f : filter)
      (fs : list filter) :
  first_filter d st line fs = Ok (Some f) ->
  In f fs
  /\ (abort_markup st = true -> fatal_or_abort (f_level f) = true)
  /\ wrong_run d st (run_spec f) = Ok false
  /\ search true (Group (f_regex f)) line = true.
Proof.
  induction fs as [|f0 fs IH]; simpl; [discriminate|].
  destruct (abort_markup st && negb (fatal_or_abort (f_level f0))) eqn:Ha.
  - intros H. destruct (IH H) as (? & ? & ? & ?). auto.
  - destruct (wrong_run d st (run_spec f0)) as [[|]|] eqn:Hw; simpl;
      try discriminate.
    + intros H. destruct (IH H) as (? & ? & ? & ?). auto.
    + destruct (search true (Group (f_regex f0)) line) eqn:Hs.
      * intros H. injection H as <-. repeat split; auto.
        intros Hab. rewrite Hab in Ha. simpl in Ha.
        now destruct (fatal_or_abort (f_level f0)).
      * intros H. destruct (IH H) as (? & ? & ? & ?). auto.
Qed.

(** A filter fires when it is tried and found and no filter listed
    before it is found. *)
Lemma first_filter_fires (st : state) (line : string) (f : filter)
      (pre post : list filter) :
  abort_markup st = false ->
  (forall f0, In f0 pre ->
              (exists b, wrong_run d st (run_spec f0) = Ok b)
              /\ search true (Group (f_regex f0)) line = false) ->
  wrong_run d st (run_spec f) = Ok false ->
  search true (Group (f_regex f)) line = true ->
  first_filter d st line (pre ++ f :: post)%list = Ok (Some f).
Proof.
  intros Hab Hpre Hw Hs. induction pre as [|f0 pre IH]; simpl; rewrite Hab; simpl.
  - now rewrite Hw, Hs.
  - destruct (Hpre f0 (or_introl eq_refl)) as ((b & Hb) & Hs0).
    rewrite Hb, Hs0. simpl.
    assert (IH' := IH (fun f1 H1 => Hpre f1 (or_intror H1))).
    destruct b; exact IH'.
Qed.

(** With no run begun, no filter is skipped and nothing raises. *)
Lemma wrong_run_no_run (st : state) (run : string) :
  current_run st = "" -> wrong_run d st run = Ok false.
Proof.
  intros H. unfold wrong_run. rewrite H. simpl.
  now rewrite andb_false_r.
Qed.

Lemma first_filter_no_run (st : state) (line : string) (fs : list filter) :
  current_run st = "" -> exists o, first_filter d st line fs = Ok o.
Proof.
  intros H. induction fs as [|f fs IH]; simpl; [now eexists|].
  destruct (abort_markup st && negb (fatal_or_abort (f_level f))); auto.
  rewrite (wrong_run_no_run st _ H). simpl.
  destruct (search true (Group (f_regex f)) line); auto. now eexists.
Qed.


End FilterChoice.

(* ================================================================== *)
(** ** Which variables each part of the loop body assigns *)

Section Steps.

Variable d : discovery.
Variable submission_id : Z.
Variable compilation_status : string.

Lemma mark_last_run_report (st st' : state) :
  mark_last_run d st = Ok st' -> same_report st st'.
Proof.
  unfold mark_last_run, dict_get.
  destruct (dict_find _ _); cbn [bind]; [|discriminate].
  destruct (_ =? _)%string; intros [= <-]; destruct st;
    repeat split; reflexivity.
Qed.

Lemma mark_last_run_monotone (st st' : state) :
  mark_last_run d st = Ok st' ->
  current_engine st' = current_engine st
  /\ current_run st' = current_run st
  /\ markup_enabled st' = markup_enabled st
  /\ (last_run st = true -> last_run st' = true).
Proof.
  unfold mark_last_run, dict_get.
  destruct (dict_find _ _); cbn [bind]; [|discriminate].
  destruct (_ =? _)%string; intros [= <-]; destruct st;
    repeat split; auto.
Qed.


Lemma update_run_report (line : string) (st st' : state) :
  update_run d line st = Ok st' -> same_report st st'.
Proof.
  unfold update_run, enable_step, disable_step, banner_step.
  destruct (any_search (disable_markup d) line);
    destruct (any_search (enable_markup d) line); cbn [bind].
  all: destruct (search_groups true run_regex line) as [g|].
  all: repeat match goal with
         | |- context [if ?b then _ else _] => destruct b
         end; cbn [bind].
  all: repeat match goal with
         | |- context [mark_last_run d ?s] =>
             let E := fresh "E" in
             destruct (mark_last_run d s) eqn:E; cbn [bind];
             [apply mark_last_run_report in E | discriminate]
         end.
  all: try (intros [= <-]).
  all: repeat match goal with s : state |- _ => destruct s end.
  all: repeat match goal with
         | H : same_report _ _ |- _ => destruct H as (?&?&?&?&?&?&?&?&?&?)
         end; unfold same_report; simpl in *; repeat split; congruence.
Qed.


Lemma keeps_run_compose (g h : state -> state) :
  keeps_run g -> keeps_run h -> keeps_run (fun st => h (g st)).
Proof.
  intros Hg Hh st. destruct (Hg st) as ((?&?&?&?)&?).
  destruct (Hh (g st)) as ((?&?&?&?)&?).
  unfold same_run. repeat split; congruence.
Qed.

Lemma note_final_run_keeps (lv : level) :
  keeps_run (note_final_run d compilation_status lv).
Proof.
  intros st. unfold note_final_run.
  destruct (on_final_run d compilation_status st);
    destruct (level_eqb lv warning);
    destruct (level_eqb lv danger || level_eqb lv fatal);
    destruct st; repeat split; reflexivity.
Qed.

Lemma report_abort_keeps (actual : level) (line : string) :
  keeps_run (report_abort submission_id actual line).
Proof.
  intros st. unfold report_abort. destruct (abort_due actual line st);
    destruct st; repeat split; reflexivity.
Qed.

Lemma report_missing_font_keeps (lv : level) (line : string) :
  keeps_run (report_missing_font submission_id lv line).
Proof.
  intros st. unfold report_missing_font.
  destruct (missing_font_due lv line st);
    destruct st; repeat split; reflexivity.
Qed.

Lemma report_rerun_keeps (lv : level) (line : string) :
  keeps_run (report_rerun lv line).
Proof.
  intros st. unfold report_rerun. destruct (rerun_due lv line st);
    destruct st; repeat split; reflexivity.
Qed.

Lemma report_missing_file_keeps (lv : level) (line : string) :
  keeps_run (report_missing_file lv line).
Proof.
  intros st. unfold report_missing_file.
  destruct (missing_file_due lv line st);
    destruct st; repeat split; reflexivity.
Qed.

Lemma report_emergency_stop_keeps (lv : level) (line : string) :
  keeps_run (report_emergency_stop lv line).
Proof.
  intros st. unfold report_emergency_stop.
  destruct (emergency_stop_due lv line st);
    destruct st; repeat split; reflexivity.
Qed.

Lemma fire_same_run (f : filter) (line : string) (st : state) :
  same_run st (fire d submission_id compilation_status f line st)
  /\ new_log (fire d submission_id compilation_status f line st)
     = new_log st.
Proof.
  revert st. unfold fire.
  apply (keeps_run_compose
           (fun st => report_missing_file _ line
                        (report_rerun _ line
                           (report_missing_font submission_id _ line
                              (report_abort submission_id _ line
                                 (note_final_run d compilation_status _ st)))))
           (report_emergency_stop _ line));
    [|apply report_emergency_stop_keeps].
  apply (keeps_run_compose
           (fun st => report_rerun _ line
                        (report_missing_font submission_id _ line
                           (report_abort submission_id _ line
                              (note_final_run d compilation_status _ st))))
           (report_missing_file _ line));
    [|apply report_missing_file_keeps].
  apply (keeps_run_compose
           (fun st => report_missing_font submission_id _ line
                        (report_abort submission_id _ line
                           (note_final_run d compilation_status _ st)))
           (report_rerun _ line));
    [|apply report_rerun_keeps].
  apply (keeps_run_compose
           (fun st => report_abort submission_id _ line
                        (note_final_run d compilation_status _ st))
           (report_missing_font submission_id _ line));
    [|apply report_missing_font_keeps].
  apply (keeps_run_compose
           (note_final_run d compilation_status _)
           (report_abort submission_id _ line));
    [apply note_final_run_keeps | apply report_abort_keeps].
Qed.

(** The state in which the filters of a line are tried and the state
    after the line. *)
Lemma process_line_inv (raw : string) (st st' : state) :
  process_line d submission_id compilation_status raw st = Ok st' ->
  exists st1,
    update_run d (html_escape raw) st = Ok st1
    /\ ((markup_enabled st1 = false /\ st' = st1)
        \/ (markup_enabled st1 = true
            /\ exists fired,
                first_filter d st1 (html_escape raw) filters = Ok fired
                /\ st' = set_new_log
                           (new_log
                              (match fired with
                               | Some f =>
                                   fire d submission_id compilation_status
                                        f (shown fired (html_escape raw)) st1
                               | None => st1
                               end)
                            ++ shown fired (html_escape raw) ++ nl)
                           (match fired with
                            | Some f =>
                                fire d submission_id compilation_status
                                     f (shown fired (html_escape raw)) st1
                            | None => st1
                            end))).
Proof.
  unfold process_line. generalize filters. intros fs.
  destruct (update_run d (html_escape raw) st) as [st1|] eqn:E;
    [|discriminate].
  unfold bind at 1.
  intros H. exists st1. split; [reflexivity|].
  destruct (markup_enabled st1).
  - right. split; [reflexivity|].
    destruct (first_filter d st1 (html_escape raw) fs) as [fired|];
      [|discriminate H].
    exists fired. split; [reflexivity|]. now injection H as <-.
  - left. split; [reflexivity|]. now injection H as <-.
Qed.

Lemma set_new_log_same (v : string) (st : state) :
  same_run st (set_new_log v st)
  /\ abort_markup (set_new_log v st) = abort_markup st
  /\ xetex_luatex_abort (set_new_log v st) = xetex_luatex_abort st
  /\ emergency_stop (set_new_log v st) = emergency_stop st
  /\ missing_file (set_new_log v st) = missing_file st
  /\ missing_font_markup (set_new_log v st) = missing_font_markup st
  /\ rerun_markup (set_new_log v st) = rerun_markup st
  /\ final_run_had_errors (set_new_log v st) = final_run_had_errors st
  /\ final_run_had_warnings (set_new_log v st) = final_run_had_warnings st
  /\ error_summary (set_new_log v st) = error_summary st
  /\ new_log (set_new_log v st) = v.
Proof. destruct st; repeat split; reflexivity. Qed.



Lemma scan_app (l1 l2 : list string) (st : state) :
  scan d submission_id compilation_status (l1 ++ l2)%list st
  = (st1 <- scan d submission_id compilation_status l1 st ;;
     scan d submission_id compilation_status l2 st1).
Proof.
  revert st. induction l1 as [|raw l1 IH]; simpl; intros st; [reflexivity|].
  destruct (process_line d submission_id compilation_status raw st);
    cbn [bind]; auto.
Qed.

End Steps.

(* ================================================================== *)
(** ** Two runs of one engine: the run test *)

Lemma discover_two_runs (autotex_log e : string) :
  findall2 true run_regex autotex_log = [(e, "first"); (e, "second")] ->
  last_run_for_engine (discover autotex_log) = [(e, "second")].
Proof.
  intros H. unfold discover. rewrite H. cbn [fold_left last_run_for_engine].
  unfold discover_hit at 1. cbn [last_run_for_engine].
  unfold discover_hit at 1. cbn [last_run_for_engine discovery0 dict_set].
  now rewrite String.eqb_refl.
Qed.

(** The run test in a log with exactly two runs, the first and the
    second of one engine [e], for a filter [f] whose run spec is [second]
    or [last].  In a state whose current run is [first], [f] does not
    fire.  In a state whose current run is the second of [e] the run test
    lets [f] through, and [f] fires when it is found in the line, the
    abort latch is open and no filter listed before it is found. *)
Lemma two_runs_gate
        (autotex_log e : string) (st : state) (line : string) (f : filter)
        (pre post : list filter) :
  findall2 true run_regex autotex_log = [(e, "first"); (e, "second")] ->
  filters = (pre ++ f :: post)%list ->
  f_run f = "second" \/ f_run f = "last" ->
  (current_run st = "first" ->
   first_filter (discover autotex_log) st line filters <> Ok (Some f))
  /\ (current_engine st = e -> current_run st = "second" ->
      wrong_run (discover autotex_log) st (run_spec f) = Ok false
      /\ (abort_markup st = false ->
          search true (Group (f_regex f)) line = true ->
          (forall f0, In f0 pre ->
                      search true (Group (f_regex f0)) line = false) ->
          first_filter (discover autotex_log) st line filters = Ok (Some f))).
Proof.
  intros Hhits Hfs Hrun.
  pose proof (discover_two_runs _ _ Hhits) as Hd.
  assert (Hspec : run_spec f = f_run f)
    by (unfold run_spec; destruct Hrun as [-> | ->]; reflexivity).
  split.
  - intros Hfirst Hfire.
    apply first_filter_some in Hfire. destruct Hfire as (_ & _ & Hw & _).
    rewrite Hspec in Hw. unfold wrong_run in Hw. rewrite Hfirst, Hd in Hw.
    destruct Hrun as [Hr | Hr]; rewrite Hr in Hw.
    + discriminate Hw.
    + unfold dict_get, dict_find in Hw. cbn [nonempty andb] in Hw.
      change (index "last" RUN_ORDER) with (@Ok nat 0) in Hw.
      change (index "first" RUN_ORDER) with (@Ok nat 1) in Hw.
      cbn [bind] in Hw. change (1 <? 0)%nat with false in Hw. cbn iota in Hw.
      change ("last" =? "last")%string with true in Hw. cbn iota in Hw.
      destruct (current_engine st =? e)%string; discriminate Hw.
  - intros He Hsecond.
    assert (Hgate : forall run, In run RUN_ORDER ->
                wrong_run (discover autotex_log) st run
                = Ok ((run =? "third")%string
                      || (run =? "fourth")%string)).
    { intros run Hin. unfold wrong_run. rewrite Hsecond, Hd, He.
      unfold dict_get, dict_find. rewrite String.eqb_refl.
      simpl in Hin.
      destruct Hin as [<- | [<- | [<- | [<- | [<- | []]]]]]; reflexivity. }
    assert (Hin : forall f0, In f0 filters -> In (run_spec f0) RUN_ORDER).
    { intros f0 H0. unfold filters in H0. simpl in H0.
      repeat (destruct H0 as [<- | H0]; [simpl; tauto|]). destruct H0. }
    assert (Hw : wrong_run (discover autotex_log) st (run_spec f) = Ok false).
    { rewrite Hgate.
      - rewrite Hspec. destruct Hrun as [-> | ->]; reflexivity.
      - apply Hin. rewrite Hfs. apply in_or_app. right. now left. }
    split; [exact Hw|].
    intros Hab Hs Hpre. rewrite Hfs.
    apply first_filter_fires; auto.
    intros f0 H0. split; [|now apply Hpre].
    eexists. apply Hgate. apply Hin. rewrite Hfs. apply in_or_app. now left.
Qed.

(* ================================================================== *)
(** ** C10: the flag [last_run] *)




(* ================================================================== *)
(** ** Invariants of the scan *)

Lemma same_report_latches (st st' : state) :
  same_report st st' -> same_latches st st'.
Proof. unfold same_report, same_latches. tauto. Qed.

Lemma set_new_log_latches (v : string) (st : state) :
  same_latches st (set_new_log v st).
Proof. destruct st. repeat split; reflexivity. Qed.

Section Invariants.

Variable d : discovery.
Variable submission_id : Z.
Variable compilation_status : string.

Local Abbreviation process_line' :=
  (process_line d submission_id compilation_status).
Local Abbreviation scan' := (scan d submission_id compilation_status).
Local Abbreviation firings' := (firings d submission_id compilation_status).
Local Abbreviation fire' := (fire d submission_id compilation_status).

Lemma scan_cons (raw : string) (rest : list string) (st : state) :
  scan' (raw :: rest) st = (st' <- process_line' raw st ;; scan' rest st').
Proof. reflexivity. Qed.

Lemma firings_cons (raw : string) (rest : list string) (st : state) :
  firings' (raw :: rest) st
  = match update_run d (html_escape raw) st with
    | Ok st1 =>
        if negb (markup_enabled st1) then firings' rest st1
        else
          match first_filter d st1 (html_escape raw) filters,
                process_line' raw st with
          | Ok fired, Ok st' =>
              (st1, html_escape raw, fired) :: firings' rest st'
          | _, _ => []
          end
    | Raise _ => []
    end.
Proof. reflexivity. Qed.

(** One line of a scan that goes on: either the line is dropped, or the
    filters are tried on it and the firing is recorded. *)
Lemma scan_step (raw : string) (rest : list string) (st st' : state) :
  scan' (raw :: rest) st = Ok st' ->
  exists st1 st2,
    update_run d (html_escape raw) st = Ok st1
    /\ scan' rest st2 = Ok st'
    /\ ((markup_enabled st1 = false /\ st2 = st1
         /\ firings' (raw :: rest) st = firings' rest st2)
        \/ (markup_enabled st1 = true
            /\ exists fired,
                first_filter d st1 (html_escape raw) filters = Ok fired
                /\ same_latches
                     (match fired with
                      | Some f => fire' f (markup f (html_escape raw)) st1
                      | None => st1
                      end) st2
                /\ new_log st2
                   = new_log st1 ++ shown fired (html_escape raw) ++ nl
                /\ same_run st1 st2
                /\ firings' (raw :: rest) st
                   = (st1, html_escape raw, fired) :: firings' rest st2)).
Proof.
  rewrite scan_cons, firings_cons.
  destruct (process_line' raw st) as [st2|] eqn:Hp; [|discriminate].
  unfold bind at 1. intros Hscan.
  destruct (process_line_inv _ _ _ _ _ _ Hp) as (st1 & Hu & Hc).
  exists st1, st2. rewrite Hu. split; [reflexivity|]. split; [exact Hscan|].
  destruct Hc as [(Hm & ->) | (Hm & fired & Hf & ->)]; rewrite Hm.
  - left. repeat split; reflexivity.
  - right. split; [reflexivity|]. exists fired. rewrite Hf.
    split; [reflexivity|].
    destruct fired as [f|]; cbn [negb shown].
    + destruct (fire_same_run d submission_id compilation_status f
                  (markup f (html_escape raw)) st1) as (Hr & Hn).
      set (st3 := fire' f (markup f (html_escape raw)) st1) in *.
      destruct (set_new_log_same
                  (new_log st3 ++ markup f (html_escape raw) ++ nl) st3)
        as ((?&?&?&?)&?&?&?&?&?&?&?&?&?&?).
      destruct Hr as (?&?&?&?).
      split; [apply set_new_log_latches|].
      split; [congruence|]. split; [|reflexivity].
      unfold same_run. repeat split; congruence.
    + destruct (set_new_log_same (new_log st1 ++ html_escape raw ++ nl) st1)
        as (?&?&?&?&?&?&?&?&?&?&?).
      split; [apply set_new_log_latches|].
      split; [assumption|]. split; [assumption | reflexivity].
Qed.

(** A property of the latches that every firing filter keeps, under a
    condition [Q] on the firings, holds at the end of the scan. *)
Lemma scan_keeps (P : state -> Prop)
      (Q : state * string * option filter -> Prop) :
  (forall st st', same_latches st st' -> P st -> P st') ->
  (forall st line f,
      Q (st, line, Some f) -> P st -> P (fire' f (markup f line) st)) ->
  forall lines st st',
    scan' lines st = Ok st' -> Forall Q (firings' lines st) -> P st -> P st'.
Proof.
  intros Hframe Hfire. induction lines as [|raw rest IH]; intros st st'.
  - simpl. intros [= <-] _ H. exact H.
  - intros Hscan.
    destruct (scan_step _ _ _ _ Hscan) as (st1 & st2 & Hu & Hrest & Hc).
    pose proof (same_report_latches _ _ (update_run_report _ _ _ _ Hu)) as Hrep.
    destruct Hc as [(_ & -> & ->) | (_ & fired & _ & Hl & _ & _ & ->)];
      intros HQ HP.
    + apply (IH _ _ Hrest HQ). exact (Hframe _ _ Hrep HP).
    + inversion HQ as [|x l Hq HQ']; subst.
      apply (IH _ _ Hrest HQ'). apply (Hframe _ _ Hl).
      destruct fired as [f|].
      * apply Hfire; [exact Hq | exact (Hframe _ _ Hrep HP)].
      * exact (Hframe _ _ Hrep HP).
Qed.

(** A property [R] that some firing establishes, in a state where the
    invariant [P] holds, and that every later step keeps, holds at the
    end of the scan. *)
Lemma scan_reaches (P R : state -> Prop)
      (Q : state * string * option filter -> Prop) :
  (forall st st', same_latches st st' -> P st -> P st') ->
  (forall st line f, P st -> P (fire' f line st)) ->
  (forall st st', same_latches st st' -> R st -> R st') ->
  (forall st line f, R st -> R (fire' f line st)) ->
  (forall st line f,
      P st -> Q (st, line, Some f) -> R (fire' f (markup f line) st)) ->
  (forall st line, ~ Q (st, line, None)) ->
  forall lines st st',
    scan' lines st = Ok st' -> P st -> Exists Q (firings' lines st) -> R st'.
Proof.
  intros HPframe HPfire Hframe Hkeep Hset Hnone.
  assert (Hstable : forall lines st st',
             scan' lines st = Ok st' -> R st -> R st').
  { intros l s s' Hs HR.
    apply (scan_keeps R (fun _ => True) Hframe
                      (fun st line f _ H => Hkeep st (markup f line) f H)
                      l s s' Hs); [|exact HR].
    apply Forall_forall. auto. }
  induction lines as [|raw rest IH]; intros st st' Hscan HP.
  - simpl. intros H. inversion H.
  - destruct (scan_step _ _ _ _ Hscan) as (st1 & st2 & Hu & Hrest & Hc).
    pose proof (HPframe _ _ (same_report_latches
                               _ _ (update_run_report _ _ _ _ Hu)) HP) as HP1.
    destruct Hc as [(_ & -> & ->) | (_ & fired & _ & Hl & _ & _ & ->)];
      intros Hex.
    + exact (IH _ _ Hrest HP1 Hex).
    + inversion Hex as [x l Hq | x l Hex']; subst.
      * apply (Hstable _ _ _ Hrest). apply (Hframe _ _ Hl).
        destruct fired as [f|]; [now apply Hset | now apply Hnone in Hq].
      * apply (IH _ _ Hrest); [|exact Hex'].
        apply (HPframe _ _ Hl). destruct fired as [f|]; auto.
Qed.

End Invariants.

(* ================================================================== *)
(** ** The latches after a firing filter *)

Lemma raised_trans (a b c : state)
      (x1 x2 x3 x4 x5 x6 x7 y1 y2 y3 y4 y5 y6 y7 : bool) :
  raised a b x1 x2 x3 x4 x5 x6 x7 ->
  raised b c y1 y2 y3 y4 y5 y6 y7 ->
  raised a c (x1 || y1) (x2 || y2) (x3 || y3) (x4 || y4) (x5 || y5)
         (x6 || y6) (x7 || y7).
Proof.
  unfold raised. intros (?&?&?&?&?&?&?&?) (?&?&?&?&?&?&?&?).
  repeat split; rewrite orb_assoc; congruence.
Qed.

Ltac raise_step due :=
  unfold raised; destruct due;
  match goal with st : state |- _ => destruct st end;
  simpl; rewrite ?orb_false_r, ?orb_true_r; repeat split; reflexivity.

Section Fire.

Variable d : discovery.
Variable submission_id : Z.
Variable compilation_status : string.

Local Abbreviation fire' := (fire d submission_id compilation_status).

Lemma note_final_run_raised (lv : level) (st : state) :
  raised st (note_final_run d compilation_status lv st)
         false false false false false
         (on_final_run d compilation_status st
          && (level_eqb lv danger || level_eqb lv fatal))
         (on_final_run d compilation_status st && level_eqb lv warning).
Proof.
  unfold note_final_run, raised.
  destruct (on_final_run d compilation_status st);
    destruct (level_eqb lv warning);
    destruct (level_eqb lv danger || level_eqb lv fatal);
    destruct st; simpl; rewrite ?orb_false_r, ?orb_true_r;
    repeat split; reflexivity.
Qed.

Lemma report_abort_raised (actual : level) (line : string) (st : state) :
  raised st (report_abort submission_id actual line st)
         (abort_due actual line st) false false false false false false.
Proof. unfold report_abort. raise_step (abort_due actual line st). Qed.

Lemma report_missing_font_raised (lv : level) (line : string) (st : state) :
  raised st (report_missing_font submission_id lv line st)
         false (missing_font_due lv line st) false false false false false.
Proof.
  unfold report_missing_font. raise_step (missing_font_due lv line st).
Qed.

Lemma report_rerun_raised (lv : level) (line : string) (st : state) :
  raised st (report_rerun lv line st)
         false false (rerun_due lv line st) false false false
         (rerun_due lv line st).
Proof. unfold report_rerun. raise_step (rerun_due lv line st). Qed.

Lemma report_missing_file_raised (lv : level) (line : string) (st : state) :
  raised st (report_missing_file lv line st)
         false false false (missing_file_due lv line st) false false false.
Proof.
  unfold report_missing_file. raise_step (missing_file_due lv line st).
Qed.

Lemma report_emergency_stop_raised (lv : level) (line : string) (st : state) :
  raised st (report_emergency_stop lv line st)
         false false false false (emergency_stop_due lv line st) false false.
Proof.
  unfold report_emergency_stop. raise_step (emergency_stop_due lv line st).
Qed.

Lemma fire_latches (f : filter) (line : string) (st : state) :
  raised st (fire' f line st)
         (abort_due (f_level f) line st)
         (missing_font_due (css_level (f_level f)) line st)
         (rerun_due (css_level (f_level f)) line st)
         (missing_file_due (css_level (f_level f)) line st)
         (emergency_stop_after (css_level (f_level f)) line st)
         (on_final_run d compilation_status st
          && (level_eqb (css_level (f_level f)) danger
              || level_eqb (css_level (f_level f)) fatal))
         ((on_final_run d compilation_status st
           && level_eqb (css_level (f_level f)) warning)
          || rerun_due (css_level (f_level f)) line st).
Proof.
  unfold fire.
  generalize (css_level (f_level f)) as lv.
  generalize (f_level f) as actual. intros actual lv.
  pose proof (note_final_run_raised lv st) as H1.
  set (s1 := note_final_run d compilation_status lv st) in *.
  pose proof (report_abort_raised actual line s1) as H2.
  set (s2 := report_abort submission_id actual line s1) in *.
  pose proof (report_missing_font_raised lv line s2) as H3.
  set (s3 := report_missing_font submission_id lv line s2) in *.
  pose proof (report_rerun_raised lv line s3) as H4.
  set (s4 := report_rerun lv line s3) in *.
  pose proof (report_missing_file_raised lv line s4) as H5.
  set (s5 := report_missing_file lv line s4) in *.
  pose proof (report_emergency_stop_raised lv line s5) as H6.
  set (s6 := report_emergency_stop lv line s5) in *.
  pose proof (raised_trans _ _ _ _ _ _ _ _ _ _ _ _ _ _ _ _ _ H1 H2) as H12.
  pose proof (raised_trans _ _ _ _ _ _ _ _ _ _ _ _ _ _ _ _ _ H12 H3) as H13.
  pose proof (raised_trans _ _ _ _ _ _ _ _ _ _ _ _ _ _ _ _ _ H13 H4) as H14.
  pose proof (raised_trans _ _ _ _ _ _ _ _ _ _ _ _ _ _ _ _ _ H14 H5) as H15.
  pose proof (raised_trans _ _ _ _ _ _ _ _ _ _ _ _ _ _ _ _ _ H15 H6) as H16.
  assert (E2 : abort_due actual line s1 = abort_due actual line st).
  { unfold abort_due. destruct H1 as (-> & _). now rewrite orb_false_r. }
  assert (E3 : missing_font_due lv line s2 = missing_font_due lv line st).
  { unfold missing_font_due. destruct H12 as (_ & _ & -> & _).
    now rewrite orb_false_r. }
  assert (E4 : rerun_due lv line s3 = rerun_due lv line st).
  { unfold rerun_due. destruct H13 as (_ & _ & _ & -> & _).
    now rewrite !orb_false_r. }
  assert (E5 : missing_file_due lv line s4 = missing_file_due lv line st).
  { unfold missing_file_due. destruct H14 as (_ & _ & _ & _ & -> & _).
    now rewrite !orb_false_r. }
  assert (E6 : emergency_stop_due lv line s5
               = emergency_stop_after lv line st).
  { unfold emergency_stop_due, emergency_stop_after.
    destruct H15 as (_ & _ & _ & _ & -> & -> & _).
    now rewrite E5, !orb_false_r, !orb_false_l. }
  rewrite E2, E3, E4, E5, E6 in H16.
  unfold raised in *.
  destruct H16 as (K1 & K2 & K3 & K4 & K5 & K6 & K7 & K8).
  rewrite K1, K2, K3, K4, K5, K6, K7, K8.
  rewrite ?orb_false_r, ?orb_false_l. repeat split; reflexivity.
Qed.

End Fire.

(* ================================================================== *)
(** ** The error summary only grows *)

Lemma grows_refl (st : state) : grows st st.
Proof. exists "". now rewrite append_nil_r. Qed.

Lemma grows_trans (a b c : state) : grows a b -> grows b c -> grows a c.
Proof.
  intros (x & Hx) (y & Hy). exists (x ++ y).
  now rewrite Hy, Hx, append_assoc.
Qed.

Lemma grows_contains (e : string) (st st' : state) :
  grows st st' -> contains e (error_summary st) ->
  contains e (error_summary st').
Proof. intros (x & ->). apply contains_app_l. Qed.

Lemma add_entry_summary (e : string) (st : state) :
  error_summary (add_entry e st)
  = (if (error_summary st =? "")%string then initialize_error_summary
     else error_summary st ++ nl) ++ e.
Proof. unfold add_entry. now destruct st. Qed.

Lemma add_entry_grows (e : string) (st : state) : grows st (add_entry e st).
Proof.
  unfold grows. rewrite add_entry_summary.
  destruct (String.eqb_spec (error_summary st) "") as [-> | _].
  - now exists (initialize_error_summary ++ e).
  - exists (nl ++ e). now rewrite append_assoc.
Qed.

Lemma add_entry_contains (e : string) (st : state) :
  contains e (error_summary (add_entry e st)).
Proof. rewrite add_entry_summary. apply contains_app_r, contains_refl. Qed.

Ltac latch_grows :=
  match goal with
  | |- grows ?st (?set (add_entry ?e ?st)) =>
      destruct (add_entry_grows e st) as (x & Hx); exists x;
      rewrite <- Hx; now destruct (add_entry e st)
  end.

Section Summary.

Variable d : discovery.
Variable submission_id : Z.
Variable compilation_status : string.

Local Abbreviation fire' := (fire d submission_id compilation_status).

Lemma note_final_run_grows (lv : level) (st : state) :
  grows st (note_final_run d compilation_status lv st).
Proof.
  unfold note_final_run.
  destruct (on_final_run d compilation_status st);
    destruct (level_eqb lv warning);
    destruct (level_eqb lv danger || level_eqb lv fatal);
    destruct st; exists ""; simpl; now rewrite append_nil_r.
Qed.

Lemma report_abort_grows (actual : level) (line : string) (st : state) :
  grows st (report_abort submission_id actual line st).
Proof.
  unfold report_abort. destruct (abort_due actual line st);
    [latch_grows | apply grows_refl].
Qed.

Lemma report_missing_font_grows (lv : level) (line : string) (st : state) :
  grows st (report_missing_font submission_id lv line st).
Proof.
  unfold report_missing_font. destruct (missing_font_due lv line st);
    [latch_grows | apply grows_refl].
Qed.

Lemma report_rerun_grows (lv : level) (line : string) (st : state) :
  grows st (report_rerun lv line st).
Proof.
  unfold report_rerun. destruct (rerun_due lv line st); [|apply grows_refl].
  destruct (add_entry_grows rerun_entry st) as (x & Hx). exists x.
  rewrite <- Hx. now destruct (add_entry rerun_entry st).
Qed.

Lemma report_missing_file_grows (lv : level) (line : string) (st : state) :
  grows st (report_missing_file lv line st).
Proof.
  unfold report_missing_file. destruct (missing_file_due lv line st);
    [latch_grows | apply grows_refl].
Qed.

Lemma report_emergency_stop_grows (lv : level) (line : string) (st : state) :
  grows st (report_emergency_stop lv line st).
Proof.
  unfold report_emergency_stop. destruct (emergency_stop_due lv line st);
    [latch_grows | apply grows_refl].
Qed.

Lemma fire_grows (f : filter) (line : string) (st : state) :
  grows st (fire' f line st).
Proof.
  unfold fire.
  eapply grows_trans; [|apply report_emergency_stop_grows].
  eapply grows_trans; [|apply report_missing_file_grows].
  eapply grows_trans; [|apply report_rerun_grows].
  eapply grows_trans; [|apply report_missing_font_grows].
  eapply grows_trans; [|apply report_abort_grows].
  apply note_final_run_grows.
Qed.


(** A missing-file report that is due is in the summary after the
    filter has fired; it quotes the line with its markup. *)
Lemma fire_missing_file (f : filter) (line : string) (st : state) :
  missing_file_due (css_level (f_level f)) line st = true ->
  contains (missing_file_entry line) (error_summary (fire' f line st)).
Proof.
  intros Hdue. unfold fire.
  set (lv := css_level (f_level f)) in *.
  set (s4 := report_rerun lv line
               (report_missing_font submission_id lv line
                  (report_abort submission_id (f_level f) line
                     (note_final_run d compilation_status lv st)))).
  assert (E : missing_file_due lv line s4 = true).
  { rewrite <- Hdue. unfold missing_file_due. f_equal. f_equal. f_equal.
    destruct (raised_trans _ _ _ _ _ _ _ _ _ _ _ _ _ _ _ _ _
                (raised_trans _ _ _ _ _ _ _ _ _ _ _ _ _ _ _ _ _
                   (raised_trans _ _ _ _ _ _ _ _ _ _ _ _ _ _ _ _ _
                      (note_final_run_raised d compilation_status lv st)
                      (report_abort_raised submission_id (f_level f) line _))
                   (report_missing_font_raised submission_id lv line _))
                (report_rerun_raised lv line _))
      as (_ & _ & _ & _ & H & _).
    fold s4 in H. now rewrite H, !orb_false_r. }
  eapply grows_contains; [apply report_emergency_stop_grows|].
  unfold report_missing_file. rewrite E.
  pose proof (add_entry_contains (missing_file_entry line) s4) as H.
  now destruct (add_entry (missing_file_entry line) s4).
Qed.

End Summary.

(* ================================================================== *)
(** ** C3: the abort latch *)

Lemma level_eqb_eq (a b : level) : level_eqb a b = true <-> a = b.
Proof. destruct a, b; simpl; split; (reflexivity || discriminate). Qed.

Section Abort.

Variable d : discovery.
Variable submission_id : Z.
Variable compilation_status : string.

Local Abbreviation process_line' :=
  (process_line d submission_id compilation_status).
Local Abbreviation scan' := (scan d submission_id compilation_status).
Local Abbreviation firings' := (firings d submission_id compilation_status).
Local Abbreviation fire' := (fire d submission_id compilation_status).

(** A property of the latches that every step keeps is kept by a line. *)
Lemma process_line_keeps (P : state -> Prop) :
  (forall st st', same_latches st st' -> P st -> P st') ->
  (forall st line f, P st -> P (fire' f line st)) ->
  forall raw st st', process_line' raw st = Ok st' -> P st -> P st'.
Proof.
  intros Hframe Hfire raw st st' Hp.
  apply (scan_keeps d submission_id compilation_status P (fun _ => True)
                    Hframe (fun s l f _ H => Hfire s (markup f l) f H)
                    [raw] st st').
  - rewrite scan_cons, Hp. reflexivity.
  - apply Forall_forall. auto.
Qed.

(** What holds of every firing, from a property of the states that every
    step keeps. *)
Lemma firings_all (P : state -> Prop)
      (Q : state * string * option filter -> Prop) :
  (forall st st', same_latches st st' -> P st -> P st') ->
  (forall st line f, P st -> P (fire' f line st)) ->
  (forall st line fired,
      P st -> first_filter d st line filters = Ok fired ->
      Q (st, line, fired)) ->
  forall lines st, P st -> Forall Q (firings' lines st).
Proof.
  intros Hframe Hfire HQ. induction lines as [|raw rest IH]; intros st HP.
  - constructor.
  - rewrite firings_cons.
    destruct (update_run d (html_escape raw) st) as [st1|] eqn:Hu;
      [|constructor].
    pose proof (Hframe _ _ (same_report_latches _ _
                              (update_run_report _ _ _ _ Hu)) HP) as HP1.
    destruct (markup_enabled st1); cbn [negb]; [|now apply IH].
    destruct (first_filter d st1 (html_escape raw) filters) as [fired|] eqn:Hf;
      [|constructor].
    destruct (process_line' raw st) as [st'|] eqn:Hp; [|constructor].
    constructor; [now apply HQ|].
    apply IH. exact (process_line_keeps P Hframe Hfire _ _ _ Hp HP).
Qed.

Lemma latch_closed_frame (st st' : state) :
  same_latches st st' -> latch_closed st -> latch_closed st'.
Proof. unfold latch_closed. intros (-> & -> & _). auto. Qed.

Lemma latch_closed_fire (st : state) (line : string) (f : filter) :
  latch_closed st -> latch_closed (fire' f line st).
Proof.
  intros (Ha & Hx). unfold latch_closed.
  destruct (fire_latches d submission_id compilation_status f line st)
    as (-> & -> & _).
  now rewrite Ha, Hx.
Qed.

Lemma abort_agrees_frame (st st' : state) :
  same_latches st st' -> abort_agrees st -> abort_agrees st'.
Proof. unfold abort_agrees. intros (-> & -> & _). auto. Qed.

Lemma abort_agrees_fire (st : state) (line : string) (f : filter) :
  abort_agrees st -> abort_agrees (fire' f line st).
Proof.
  unfold abort_agrees. intros H.
  destruct (fire_latches d submission_id compilation_status f line st)
    as (-> & -> & _).
  now rewrite H.
Qed.

End Abort.

Lemma report_eq (d : discovery) (compilation_status : string) (st : state) :
  report d compilation_status st
  = run_summary d ++ status_line (status compilation_status st)
                ++ report_tail st.
Proof. reflexivity. Qed.

(** C3, counterexample.
    The claim fails on [hidden_fontspec_log]: the log holds an abort
    pattern and the status is [failed], yet the status line is the plain
    [Failed]. *)
Lemma C3_fontspec_in_hidden_run :
  existsb (search true (Group pat_fontspec_requires))
          (map html_escape (splitlines hidden_fontspec_log)) = true
  /\ exists st,
      scan (discover hidden_fontspec_log) 1 "failed"
           (splitlines hidden_fontspec_log) state0 = Ok st
      /\ abort_markup st = false
      /\ compilation_log_display hidden_fontspec_log 1 "failed"
         = Ok (run_summary (discover hidden_fontspec_log)
               ++ status_line ("fatal", "Failed") ++ report_tail st).
Proof.
  split; [vm_compute; reflexivity|].
  eexists. split; [vm_compute; reflexivity|].
  split; vm_compute; reflexivity.
Qed.

(** C3, amended.  Once the abort latch is set, that is after a prefix
    [pre] of the lines, every filter that fires on a later line has level
    [fatal] or [abort], the latch stays set, and when the scan of the
    other lines returns and the status is [failed], the status line is
    the XeTeX/LuaTeX message with class [fatal]. *)
Theorem C3_abort_latch
        (autotex_log : string) (submission_id : Z) (pre post : list string)
        (st1 st2 : state) :
  search false no_log_regex autotex_log = false ->
  splitlines autotex_log = (pre ++ post)%list ->
  scan (discover autotex_log) submission_id "failed" pre state0 = Ok st1 ->
  abort_markup st1 = true ->
  scan (discover autotex_log) submission_id "failed" post st1 = Ok st2 ->
  Forall severe
         (firings (discover autotex_log) submission_id "failed" post st1)
  /\ abort_markup st2 = true
  /\ compilation_log_display autotex_log submission_id "failed"
     = Ok (run_summary (discover autotex_log)
           ++ status_line
                ("fatal",
                 "Failed: XeTeX/LuaTeX are not supported at current time.")
           ++ report_tail st2).
Proof.
  intros Hno Hlines Hpre Hab Hpost.
  set (d := discover autotex_log) in *.
  assert (Hagree : abort_agrees st1).
  { apply (scan_keeps d submission_id "failed" abort_agrees (fun _ => True)
                      abort_agrees_frame
                      (fun s l f _ H =>
                         abort_agrees_fire d submission_id "failed"
                                           s (markup f l) f H)
                      pre state0 st1 Hpre).
    - apply Forall_forall. auto.
    - reflexivity. }
  assert (Hclosed : latch_closed st1).
  { split; [exact Hab|]. unfold abort_agrees in Hagree. congruence. }
  assert (Hclosed2 : latch_closed st2).
  { apply (scan_keeps d submission_id "failed" latch_closed (fun _ => True)
                      latch_closed_frame
                      (fun s l f _ H =>
                         latch_closed_fire d submission_id "failed"
                                           s (markup f l) f H)
                      post st1 st2 Hpost); [|exact Hclosed].
    apply Forall_forall. auto. }
  split; [|split; [apply Hclosed2|]].
  - apply (firings_all d submission_id "failed" latch_closed severe
                       latch_closed_frame
                       (latch_closed_fire d submission_id "failed"));
      [|exact Hclosed].
    intros st line [f|] (Ha & _) Hf; [|exact I].
    apply first_filter_some in Hf. destruct Hf as (_ & Hsev & _).
    specialize (Hsev Ha). unfold fatal_or_abort in Hsev.
    apply orb_true_iff in Hsev. unfold severe. cbn [snd].
    destruct Hsev as [H | H]; apply level_eqb_eq in H; auto.
  - unfold compilation_log_display. rewrite Hno. fold d.
    rewrite Hlines, scan_app, Hpre. cbn [bind]. rewrite Hpost. cbn [bind].
    rewrite report_eq. unfold status.
    destruct Hclosed2 as (_ & ->). reflexivity.
Qed.

(** C3, witness: the theorem on a concrete log. *)
Lemma C3_abort_latch_witness :
  scan (discover fontspec_log) 1 "failed"
       (firstn 2 (splitlines fontspec_log)) state0 = Ok fontspec_st1
  /\ abort_markup fontspec_st1 = true
  /\ map observe (firings (discover fontspec_log) 1 "failed"
                          (skipn 2 (splitlines fontspec_log)) fontspec_st1)
     = [ ("pdflatex", "first", true, "LaTeX Warning: ignored", None);
         ("pdflatex", "first", true, "! Emergency stop, fatal error",
          Some (fatal, "")) ]
  /\ compilation_log_display fontspec_log 1 "failed"
     = Ok (run_summary (discover fontspec_log)
           ++ status_line
                ("fatal",
                 "Failed: XeTeX/LuaTeX are not supported at current time.")
           ++ report_tail fontspec_st2).
Proof.
  assert (Hno : search false no_log_regex fontspec_log = false)
    by (vm_compute; reflexivity).
  assert (Hpre : scan (discover fontspec_log) 1 "failed"
                      (firstn 2 (splitlines fontspec_log)) state0
                 = Ok fontspec_st1) by (vm_compute; reflexivity).
  assert (Hab : abort_markup fontspec_st1 = true) by reflexivity.
  assert (Hpost : scan (discover fontspec_log) 1 "failed"
                       (skipn 2 (splitlines fontspec_log)) fontspec_st1
                  = Ok fontspec_st2) by (vm_compute; reflexivity).
  split; [exact Hpre|]. split; [exact Hab|].
  split; [vm_compute; reflexivity|].
  exact (proj2 (proj2 (C3_abort_latch
                         fontspec_log 1 _ _ fontspec_st1 fontspec_st2 Hno
                         (eq_sym (firstn_skipn 2 (splitlines fontspec_log)))
                         Hpre Hab Hpost))).
Defined.

(* ================================================================== *)
(** ** C5: the status of a successful compilation *)

Lemma existsb_false_Forall {A : Type} (p : A -> bool) (l : list A) :
  existsb p l = false -> Forall (fun x => p x = false) l.
Proof.
  induction l as [|x l IH]; simpl; [constructor|].
  intros H. apply orb_false_iff in H. destruct H. constructor; auto.
Qed.

Lemma existsb_true_Exists {A : Type} (p : A -> bool) (l : list A) :
  existsb p l = true -> Exists (fun x => p x = true) l.
Proof.
  induction l as [|x l IH]; simpl; [discriminate|].
  intros H. apply orb_true_iff in H. destruct H; [left | right]; auto.
Qed.

(** C5, counterexample.
    The claim fails on [rerun_first_run_log]: no filter shown as
    warning, danger or fatal fires on a line of the final run, and the
    status is not [Succeeded!], because the rerun report of the first run
    sets [final_run_had_warnings]. *)
Lemma C5_rerun_sets_warnings :
  existsb (final_run_problem (discover rerun_first_run_log))
          (firings (discover rerun_first_run_log) 1 "succeeded"
                   (splitlines rerun_first_run_log) state0) = false
  /\ compilation_log_display rerun_first_run_log 1 "succeeded"
     = Ok (run_summary (discover rerun_first_run_log)
           ++ status_line
                ("warning",
                 "Succeeded with warnings. We recommend that you "
                 ++ nl ++ tab ++ tab ++ "inspect the log (see below).")
           ++ report_tail rerun_first_run_st).
Proof. split; vm_compute; reflexivity. Qed.

(** C5, amended.  When the status is [succeeded], the scan returns, no
    filter shown as warning, danger or fatal fires on a line of the final
    engine and run, and no firing makes the rerun report, the status line
    is [Succeeded!] in a span of class [tex-success]. *)
Theorem C5_succeeded_clean
        (autotex_log : string) (submission_id : Z) (st : state) :
  search false no_log_regex autotex_log = false ->
  scan (discover autotex_log) submission_id "succeeded"
       (splitlines autotex_log) state0 = Ok st ->
  existsb (final_run_problem (discover autotex_log))
          (firings (discover autotex_log) submission_id "succeeded"
                   (splitlines autotex_log) state0) = false ->
  existsb rerun_reported
          (firings (discover autotex_log) submission_id "succeeded"
                   (splitlines autotex_log) state0) = false ->
  compilation_log_display autotex_log submission_id "succeeded"
  = Ok (run_summary (discover autotex_log)
        ++ status_line ("success", "Succeeded!") ++ report_tail st).
Proof.
  intros Hno Hscan Hfinal Hrerun.
  set (d := discover autotex_log) in *.
  assert (Hclean : final_run_had_errors st = false
                   /\ final_run_had_warnings st = false).
  { apply (scan_keeps d submission_id "succeeded"
             (fun s => final_run_had_errors s = false
                       /\ final_run_had_warnings s = false)
             (fun x => final_run_problem d x = false
                       /\ rerun_reported x = false))
      with (lines := splitlines autotex_log) (st := state0).
    - intros s s' (_ & _ & _ & _ & _ & _ & -> & -> & _). auto.
    - intros s line f (Hq1 & Hq2) (He & Hw).
      destruct (fire_latches d submission_id "succeeded" f (markup f line) s)
        as (_ & _ & _ & _ & _ & _ & -> & ->).
      cbn [final_run_problem rerun_reported] in Hq1, Hq2.
      rewrite He, Hw, Hq2. cbn [orb].
      destruct (on_final_run d "succeeded" s); cbn [andb] in *; auto.
      apply orb_false_iff in Hq1. destruct Hq1 as (Hq1 & ->).
      apply orb_false_iff in Hq1. destruct Hq1 as (-> & ->). auto.
    - exact Hscan.
    - apply existsb_false_Forall in Hfinal.
      apply existsb_false_Forall in Hrerun.
      rewrite Forall_forall in *. auto.
    - split; reflexivity. }
  unfold compilation_log_display. rewrite Hno. fold d. rewrite Hscan.
  cbn [bind]. rewrite report_eq. unfold status.
  destruct Hclean as (-> & ->). reflexivity.
Qed.

(** C5, witness: the theorem on a concrete log. *)
Lemma C5_succeeded_clean_witness :
  compilation_log_display clean_log 1 "succeeded"
  = Ok (run_summary (discover clean_log)
        ++ status_line ("success", "Succeeded!") ++ report_tail clean_st).
Proof.
  assert (Hno : search false no_log_regex clean_log = false)
    by (vm_compute; reflexivity).
  assert (Hscan : scan (discover clean_log) 1 "succeeded"
                       (splitlines clean_log) state0 = Ok clean_st)
    by (vm_compute; reflexivity).
  assert (Hfinal : existsb (final_run_problem (discover clean_log))
                           (firings (discover clean_log) 1 "succeeded"
                                    (splitlines clean_log) state0) = false)
    by (vm_compute; reflexivity).
  assert (Hrerun : existsb rerun_reported
                           (firings (discover clean_log) 1 "succeeded"
                                    (splitlines clean_log) state0) = false)
    by (vm_compute; reflexivity).
  exact (C5_succeeded_clean clean_log 1 clean_st Hno Hscan Hfinal Hrerun).
Defined.

(* ================================================================== *)
(** ** C6: the missing-font report *)

Section MissingFont.

Variable d : discovery.
Variable submission_id : Z.
Variable compilation_status : string.

Local Abbreviation process_line' :=
  (process_line d submission_id compilation_status).
Local Abbreviation scan' := (scan d submission_id compilation_status).
Local Abbreviation firings' := (firings d submission_id compilation_status).
Local Abbreviation fire' := (fire d submission_id compilation_status).





End MissingFont.



Lemma final_error_summary_contains (e : string) (st : state) :
  contains e (error_summary st) -> contains e (final_error_summary st).
Proof.
  unfold final_error_summary, finalize_error_summary.
  destruct (nonempty (error_summary st)); [apply contains_app_l | auto].
Qed.

Lemma report_contains (d : discovery) (compilation_status e : string)
      (st : state) :
  contains e (error_summary st) -> contains e (report d compilation_status st).
Proof.
  intros H. rewrite report_eq. apply contains_app_r, contains_app_r.
  unfold report_tail. now apply contains_app_l, final_error_summary_contains.
Qed.




(* ================================================================== *)
(** ** Where a match can end *)

Lemma ends_matches (ic : bool) (r : regex) (s t : string) :
  ends ic r s t -> matches ic r s <> [].
Proof. intros (g & H) E. rewrite E in H. destruct H. Qed.

Lemma matches_ends (ic : bool) (r : regex) (s : string) :
  matches ic r s <> [] -> exists t, ends ic r s t.
Proof.
  destruct (matches ic r s) as [|[g t] l] eqn:E; [congruence|].
  intros _. exists t, g. rewrite E. now left.
Qed.

Lemma ends_eps (ic : bool) (s t : string) : ends ic Eps s t <-> t = s.
Proof.
  unfold ends. simpl. split.
  - intros (g & [[= _ <-] | []]). reflexivity.
  - intros ->. exists []. now left.
Qed.

Lemma ends_one (ic : bool) (a : atom) (s t : string) :
  ends ic (One a) s t <->
  exists c, s = String c t /\ atom_match ic a c = true.
Proof.
  unfold ends. simpl. split.
  - intros (g & H). destruct s as [|c s]; [destruct H|].
    destruct (atom_match ic a c) eqn:E; [|destruct H].
    destruct H as [[= _ <-] | []]. now exists c.
  - intros (c & -> & E). rewrite E. exists []. now left.
Qed.

Lemma ends_star (ic : bool) (a : atom) (s t : string) :
  ends ic (Star a) s t <-> In t (star ic a s).
Proof.
  unfold ends. simpl. split.
  - intros (g & H). apply in_map_iff in H.
    destruct H as (u & [= _ <-] & H). exact H.
  - intros H. exists []. apply in_map_iff. now exists t.
Qed.

Lemma ends_plus (ic : bool) (a : atom) (s t : string) :
  ends ic (Plus a) s t <->
  exists c u, s = String c u /\ atom_match ic a c = true
              /\ In t (star ic a u).
Proof.
  unfold ends. simpl. split.
  - intros (g & H). destruct s as [|c s]; [destruct H|].
    destruct (atom_match ic a c) eqn:E; [|destruct H].
    apply in_map_iff in H. destruct H as (u & [= _ <-] & H).
    now exists c, s.
  - intros (c & u & -> & E & H). rewrite E. exists [].
    apply in_map_iff. now exists t.
Qed.

Lemma ends_cat (ic : bool) (r1 r2 : regex) (s t : string) :
  ends ic (Cat r1 r2) s t <->
  exists u, ends ic r1 s u /\ ends ic r2 u t.
Proof.
  unfold ends. simpl. split.
  - intros (g & H). apply in_flat_map in H.
    destruct H as ([g1 u] & H1 & H2). apply in_map_iff in H2.
    destruct H2 as ([g2 v] & [= _ <-] & H2). cbn [snd] in H2.
    exists u. split; [now exists g1 | now exists g2].
  - intros (u & (g1 & H1) & (g2 & H2)). exists (g1 ++ g2)%list.
    apply in_flat_map. exists (g1, u). split; [exact H1|].
    apply in_map_iff. now exists (g2, t).
Qed.

Lemma ends_alt (ic : bool) (r1 r2 : regex) (s t : string) :
  ends ic (Alt r1 r2) s t <-> ends ic r1 s t \/ ends ic r2 s t.
Proof.
  unfold ends. simpl. split.
  - intros (g & H). apply in_app_or in H.
    destruct H as [H | H]; apply in_map_iff in H;
      destruct H as ([g' u] & [= _ <-] & H); [left | right]; now exists g'.
  - intros [(g & H) | (g & H)]; eexists; apply in_or_app; [left | right];
      apply in_map_iff; now exists (g, t).
Qed.

Lemma ends_group (ic : bool) (r : regex) (s t : string) :
  ends ic (Group r) s t <-> ends ic r s t.
Proof.
  unfold ends. simpl. split.
  - intros (g & H). apply in_map_iff in H.
    destruct H as ([g' u] & [= _ <-] & H). now exists g'.
  - intros (g & H). eexists. apply in_map_iff. now exists (g, t).
Qed.

Lemma star_self (ic : bool) (a : atom) (s : string) : In s (star ic a s).
Proof.
  destruct s as [|c s]; simpl; [now left|].
  destruct (atom_match ic a c); [apply in_or_app; right|]; now left.
Qed.

Lemma in_star (ic : bool) (a : atom) (s t : string) :
  In t (star ic a s) <->
  exists pre, s = pre ++ t /\ all_match ic a pre = true.
Proof.
  split.
  - revert t. induction s as [|c s IH]; simpl; intros t.
    + intros [<- | []]. now exists "".
    + destruct (atom_match ic a c) eqn:E.
      * intros H. apply in_app_or in H. destruct H as [H | [<- | []]].
        -- destruct (IH _ H) as (pre & -> & Hp). exists (String c pre).
           simpl. now rewrite E.
        -- now exists "".
      * intros [<- | []]. now exists "".
  - intros (pre & -> & Hp). revert Hp.
    induction pre as [|c pre IH]; simpl; intros Hp; [apply star_self|].
    apply andb_true_iff in Hp. destruct Hp as (-> & Hp).
    apply in_or_app. left. now apply IH.
Qed.

(** A match does not look at the text after its end. *)
Lemma ends_extend (ic : bool) (r : regex) (s t post : string) :
  ends ic r s t -> ends ic r (s ++ post) (t ++ post).
Proof.
  revert s t. induction r as [|a|a|a|r1 IH1 r2 IH2|r1 IH1 r2 IH2|r IH];
    intros s t.
  - rewrite !ends_eps. now intros ->.
  - rewrite !ends_one. intros (c & -> & E). now exists c.
  - rewrite !ends_star, !in_star. intros (pre & -> & Hp). exists pre.
    now rewrite append_assoc.
  - rewrite !ends_plus. intros (c & u & -> & E & H). exists c, (u ++ post).
    split; [reflexivity|]. split; [exact E|].
    apply in_star in H. destruct H as (pre & -> & Hp). apply in_star.
    exists pre. now rewrite append_assoc.
  - rewrite !ends_cat. intros (u & H1 & H2). exists (u ++ post). auto.
  - rewrite !ends_alt. intros [H | H]; auto.
  - rewrite !ends_group. auto.
Qed.

(** A pattern found in a part of a text is found in the text. *)
Lemma search_substring (ic : bool) (r : regex) (pre s post : string) :
  search ic r s = true -> search ic r (pre ++ s ++ post) = true.
Proof.
  intros H. apply search_inv in H. destruct H as (p & t & -> & Hm).
  apply matches_ends in Hm. destruct Hm as (t' & Ht).
  rewrite append_assoc, <- (append_assoc pre p).
  apply search_at. apply (ends_matches ic r _ (t' ++ post)).
  now apply ends_extend.
Qed.

Lemma finditer_nil_search (ic : bool) (r : regex) (s : string) :
  finditer ic r s 0 = [] -> search ic r s = false.
Proof.
  induction s as [|c s IH]; simpl; unfold match_at.
  - destruct (matches ic r "") as [|[g t] l]; simpl; [auto | discriminate].
  - destruct (matches ic r (String c s)) as [|[g t] l]; simpl;
      [auto | discriminate].
Qed.

(** The first line of [splitlines] starts the text. *)
Lemma splitlines_head (s l : string) (ls : list string) :
  splitlines s = l :: ls -> exists post, s = l ++ post.
Proof.
  revert l ls. induction s as [|c s IH]; simpl; intros l ls; [discriminate|].
  destruct (is_linebreak c).
  - intros [= <- _]. now exists (String c s).
  - destruct (splitlines s) as [|l' ls'] eqn:E.
    + intros [= <- _]. now exists s.
    + intros [= <- _]. destruct (IH _ _ eq_refl) as (post & ->).
      now exists post.
Qed.

(** Every line of [splitlines] is a part of the text. *)
Lemma splitlines_substring (s raw : string) :
  In raw (splitlines s) -> exists pre post, s = pre ++ raw ++ post.
Proof.
  remember (String.length s) as n eqn:Hn.
  assert (Hle : String.length s <= n) by lia. clear Hn.
  revert s Hle raw. induction n as [|n IH]; intros s Hle raw.
  - destruct s; [intros [] | simpl in Hle; lia].
  - destruct s as [|c s]; simpl; [intros []|]. simpl in Hle.
    destruct (is_linebreak c).
    + intros [<- | H]; [now exists "", (String c s)|].
      destruct s as [|c2 s2]; [destruct H|]. simpl in Hle.
      destruct (Ascii.eqb c CR && Ascii.eqb c2 LF).
      * destruct (IH s2 ltac:(lia) raw H) as (pre & post & ->).
        now exists (String c (String c2 pre)), post.
      * destruct (IH (String c2 s2) ltac:(simpl; lia) raw H)
          as (pre & post & E).
        exists (String c pre), post. simpl. now rewrite <- E.
    + destruct (splitlines s) as [|l ls] eqn:E.
      * intros [<- | []]. now exists "", s.
      * intros [<- | H].
        -- destruct (splitlines_head _ _ _ E) as (post & ->).
           now exists "", post.
        -- destruct (IH s ltac:(lia) raw) as (pre & post & Hs);
             [rewrite E; now right|].
           exists (String c pre), post. simpl. now rewrite Hs.
Qed.

(* ================================================================== *)
(** ** Matching in an escaped line *)

Ltac by_bits c :=
  destruct c as [[] [] [] [] [] [] [] []]; vm_compute;
  try reflexivity; try discriminate; auto.

Lemma escape_char_cases (x : ascii) :
  (special x = false /\ escape_char x = String x "")
  \/ (special x = true
      /\ (escape_char x = "&amp;" \/ escape_char x = "&lt;"
          \/ escape_char x = "&gt;" \/ escape_char x = "&quot;"
          \/ escape_char x = "&#x27;")).
Proof. by_bits x; right; split; auto 6. Qed.

Lemma special_lower (c : ascii) : special (to_lower c) = special c.
Proof. by_bits c. Qed.

Lemma space_not_special (c : ascii) : is_space c = true -> special c = false.
Proof. by_bits c. Qed.

Lemma marker_not_special (c : ascii) : marker c = true -> special c = false.
Proof. by_bits c. Qed.

Lemma marker_not_in_entity (c : ascii) :
  marker c = true ->
  occurs c "&amp;" = false /\ occurs c "&lt;" = false
  /\ occurs c "&gt;" = false /\ occurs c "&quot;" = false
  /\ occurs c "&#x27;" = false.
Proof. by_bits c. Qed.

Lemma lit_space_only (c : ascii) :
  atom_match true (Lit " ") c = true -> c = " "%char.
Proof. by_bits c. Qed.

Lemma lit_tilde_only (c : ascii) :
  atom_match true (Lit "~") c = true -> c = "~"%char.
Proof. by_bits c. Qed.

Lemma plain_atom_match (a : atom) (c : ascii) :
  plain_atom a = true -> atom_match true a c = true -> special c = false.
Proof.
  destruct a as [l| |]; simpl; [| discriminate | intros _; apply space_not_special].
  intros Hl Hm. apply Ascii.eqb_eq in Hm.
  rewrite <- special_lower, Hm, special_lower.
  now destruct (special l).
Qed.

(** An escaped text that starts with a copied character. *)
Lemma escape_head (s t : string) (c : ascii) :
  html_escape s = String c t -> special c = false ->
  exists s', s = String c s' /\ t = html_escape s'.
Proof.
  destruct s as [|x s]; simpl; [discriminate|].
  destruct (escape_char_cases x) as [(_ & ->) | (_ & H)].
  - intros [= -> <-] _. now exists s.
  - destruct H as [-> | [-> | [-> | [-> | ->]]]]; simpl;
      intros [= <- _]; discriminate.
Qed.

(** Cutting an escaped text before a marker cuts the text itself. *)
Lemma strip_entity (e rest pre v : string) (c : ascii) :
  e ++ rest = pre ++ String c v -> occurs c e = false ->
  exists pre', pre = e ++ pre' /\ rest = pre' ++ String c v.
Proof.
  revert pre. induction e as [|x e IH]; simpl; intros pre.
  - intros -> _. now exists pre.
  - intros H Ho. apply orb_false_iff in Ho. destruct Ho as (Hx & Ho).
    destruct pre as [|y pre]; simpl in H.
    + injection H as -> _. now rewrite Ascii.eqb_refl in Hx.
    + injection H as <- H. destruct (IH _ H Ho) as (pre' & -> & ->).
      now exists pre'.
Qed.

Lemma escape_split (s pre v : string) (c : ascii) :
  html_escape s = pre ++ String c v -> marker c = true ->
  exists p s', s = p ++ String c s' /\ pre = html_escape p
               /\ v = html_escape s'.
Proof.
  intros H Hc. revert pre H. induction s as [|x s IH]; simpl; intros pre H.
  - destruct pre; discriminate.
  - assert (Hent : forall e, escape_char x = e -> occurs c e = false ->
                             exists p s', String x s = p ++ String c s'
                                          /\ pre = html_escape p
                                          /\ v = html_escape s').
    { intros e He Ho. rewrite He in H.
      destruct (strip_entity _ _ _ _ _ H Ho) as (pre' & -> & H').
      destruct (IH _ H') as (p & s' & -> & -> & ->).
      exists (String x p), s'. simpl. now rewrite He. }
    destruct (marker_not_in_entity c Hc) as (H1 & H2 & H3 & H4 & H5).
    destruct (escape_char_cases x) as [(_ & E) | (_ & E)].
    + rewrite E in H. destruct pre as [|y pre]; simpl in H.
      * injection H as -> <-. now exists "", s.
      * injection H as <- H. destruct (IH _ H) as (p & s' & -> & -> & ->).
        exists (String x p), s'. simpl. now rewrite E.
    + destruct E as [E | [E | [E | [E | E]]]]; eauto.
Qed.

Lemma no_lf_app (a b : string) : no_lf (a ++ b) = no_lf a && no_lf b.
Proof.
  unfold no_lf. induction a as [|x a IH]; simpl; [reflexivity|].
  now rewrite IH, andb_assoc.
Qed.

Lemma no_lf_escape_char (x : ascii) :
  no_lf (escape_char x) = no_lf (String x "").
Proof. by_bits x. Qed.

Lemma no_lf_escape (s : string) : no_lf (html_escape s) = no_lf s.
Proof.
  induction s as [|x s IH]; simpl html_escape; [reflexivity|].
  rewrite no_lf_app, no_lf_escape_char, IH.
  change (String x s) with (String x "" ++ s). now rewrite no_lf_app.
Qed.

Lemma plain_prefix (a : atom) (pre s t : string) :
  plain_atom a = true -> all_match true a pre = true ->
  html_escape s = pre ++ t ->
  exists s', s = pre ++ s' /\ t = html_escape s'.
Proof.
  intros Ha. revert s. induction pre as [|c pre IH]; simpl; intros s Hp H.
  - now exists s.
  - apply andb_true_iff in Hp. destruct Hp as (Hc & Hp).
    destruct (escape_head _ _ _ H (plain_atom_match _ _ Ha Hc))
      as (s0 & -> & H0).
    destruct (IH s0 Hp (eq_sym H0)) as (s' & -> & ->). now exists s'.
Qed.

Lemma safe_transfer (r : regex) :
  safe r ->
  forall s t, ends true r (html_escape s) t ->
              exists s', t = html_escape s' /\ ends true r s s'.
Proof.
  induction 1 as [|a Ha|a Ha|a Ha|r1 r2 _ IH1 _ IH2|r _ IH|r _ IH Hsp];
    intros s t.
  - rewrite ends_eps. intros ->. exists s. now rewrite ends_eps.
  - rewrite ends_one. intros (c & H & Hc).
    destruct (escape_head _ _ _ H (plain_atom_match _ _ Ha Hc))
      as (s' & -> & ->).
    exists s'. split; [reflexivity|]. apply ends_one. now exists c.
  - rewrite ends_star, in_star. intros (pre & H & Hp).
    destruct (plain_prefix _ _ _ _ Ha Hp H) as (s' & -> & ->).
    exists s'. split; [reflexivity|]. apply ends_star, in_star. now exists pre.
  - rewrite ends_plus. intros (c & u & H & Hc & Hu).
    destruct (escape_head _ _ _ H (plain_atom_match _ _ Ha Hc))
      as (s0 & -> & ->).
    apply in_star in Hu. destruct Hu as (pre & H0 & Hp).
    destruct (plain_prefix _ _ _ _ Ha Hp H0) as (s' & -> & ->).
    exists s'. split; [reflexivity|]. apply ends_plus.
    exists c, (pre ++ s'). split; [reflexivity|]. split; [exact Hc|].
    apply in_star. now exists pre.
  - rewrite ends_cat. intros (u & H1 & H2).
    destruct (IH1 _ _ H1) as (s1 & -> & H1').
    destruct (IH2 _ _ H2) as (s2 & -> & H2').
    exists s2. split; [reflexivity|]. apply ends_cat. now exists s1.
  - rewrite ends_group. intros H. destruct (IH _ _ H) as (s' & -> & H').
    exists s'. split; [reflexivity|]. now apply ends_group.
  - rewrite ends_cat. intros (u & H1 & H2).
    destruct (Hsp _ _ H2) as (w & ->).
    apply ends_group, ends_star, in_star in H1.
    destruct H1 as (pre & H1 & Hp).
    destruct (escape_split _ _ _ _ H1 eq_refl) as (p & s1 & -> & -> & ->).
    destruct (IH (String " " s1) t H2) as (s' & -> & H2').
    exists s'. split; [reflexivity|]. apply ends_cat.
    exists (String " " s1). split; [|exact H2'].
    apply ends_group, ends_star, in_star. exists p. split; [reflexivity|].
    fold (no_lf (html_escape p)) in Hp. now rewrite no_lf_escape in Hp.
Qed.

Lemma safe_lit (w : string) : copied w = true -> safe (lit w).
Proof.
  induction w as [|c w IH]; simpl; [constructor|].
  intros H. apply andb_true_iff in H. destruct H.
  constructor; [constructor | ]; auto.
Qed.

Lemma lit_starts_with_space (w : string) (r : regex) :
  starts_with_space (Cat (lit (String " " w)) r).
Proof.
  intros s t H. cbn [lit] in H.
  apply ends_cat in H. destruct H as (u & H & _).
  apply ends_cat in H. destruct H as (v & H & _).
  apply ends_one in H. destruct H as (c & -> & Hc).
  apply lit_space_only in Hc. subst c. now exists v.
Qed.

Lemma run_regex_safe : safe run_regex.
Proof.
  unfold run_regex.
  apply safe_cat; [now apply safe_plus|].
  apply safe_cat; [now apply safe_one|].
  apply safe_cat; [now apply safe_lit|].
  apply safe_dots; [|apply lit_starts_with_space].
  apply safe_cat; [now apply safe_lit|].
  apply safe_dots; [|apply lit_starts_with_space].
  apply safe_cat; [now apply safe_lit|].
  apply safe_cat; [now apply safe_one | now apply safe_plus].
Qed.

(** A banner found in an escaped line is found in the line. *)
Lemma run_regex_escaped (raw : string) :
  search true run_regex (html_escape raw) = true ->
  search true run_regex raw = true.
Proof.
  intros H. apply search_inv in H. destruct H as (pre & t & H & Hm).
  apply matches_ends in Hm. destruct Hm as (t' & Ht).
  assert (Hc : exists w, t = String "~" w).
  { unfold run_regex in Ht. apply ends_cat in Ht.
    destruct Ht as (u & Hp & _). apply ends_plus in Hp.
    destruct Hp as (c & w & -> & Hc & _). apply lit_tilde_only in Hc.
    subst c. now exists w. }
  destruct Hc as (w & ->).
  destruct (escape_split _ _ _ _ H eq_refl) as (p & s1 & -> & -> & ->).
  destruct (safe_transfer _ run_regex_safe (String "~" s1) t' Ht)
    as (s' & _ & Hs).
  apply search_at. exact (ends_matches _ _ _ _ Hs).
Qed.

(** When the whole text holds no banner, no escaped line holds one. *)
Lemma no_banner_lines (autotex_log raw : string) :
  findall2 true run_regex autotex_log = [] ->
  In raw (splitlines autotex_log) ->
  search true run_regex (html_escape raw) = false.
Proof.
  intros Hhits Hin. unfold findall2 in Hhits. apply map_eq_nil in Hhits.
  apply finditer_nil_search in Hhits.
  destruct (splitlines_substring _ _ Hin) as (pre & post & E).
  destruct (search true run_regex (html_escape raw)) eqn:Hs; [|reflexivity].
  apply run_regex_escaped in Hs.
  apply (search_substring true run_regex pre raw post) in Hs.
  rewrite <- E in Hs. congruence.
Qed.

(* ================================================================== *)
(** ** C2: a log without run banner *)

Lemma count_lf_app (a b : string) :
  count_lf (a ++ b) = count_lf a + count_lf b.
Proof. induction a as [|c a IH]; simpl; [reflexivity | rewrite IH; lia]. Qed.

Lemma lf_is_linebreak (c : ascii) :
  Ascii.eqb c LF = true -> is_linebreak c = true.
Proof. by_bits c. Qed.

Lemma cr_is_not_lf (c : ascii) :
  Ascii.eqb c CR = true -> Ascii.eqb c LF = false.
Proof. by_bits c. Qed.

(** A text has at least as many lines as line feeds. *)
Lemma count_lf_lines (s : string) :
  count_lf s <= length (splitlines s).
Proof.
  remember (String.length s) as n eqn:Hn.
  assert (Hle : String.length s <= n) by lia. clear Hn.
  revert s Hle. induction n as [|n IH]; intros s Hle.
  - destruct s; [simpl; lia | simpl in Hle; lia].
  - destruct s as [|c s]; [simpl; lia|]. simpl in Hle.
    cbn [splitlines count_lf].
    destruct (is_linebreak c) eqn:Hb.
    + destruct s as [|c2 s2]; [simpl; destruct (Ascii.eqb c LF); lia|].
      simpl in Hle.
      pose proof (IH s2 ltac:(lia)) as IH2.
      pose proof (IH (String c2 s2) ltac:(simpl; lia)) as IH1.
      cbn [count_lf] in IH1 |- *.
      destruct (Ascii.eqb c CR) eqn:Hcr; cbn [andb].
      * rewrite (cr_is_not_lf _ Hcr).
        destruct (Ascii.eqb c2 LF); cbn [length]; lia.
      * destruct (Ascii.eqb c LF); cbn [length]; lia.
    + destruct (Ascii.eqb c LF) eqn:Hlf;
        [apply lf_is_linebreak in Hlf; congruence|].
      specialize (IH s ltac:(lia)).
      destruct (splitlines s); simpl in *; lia.
Qed.

Lemma discover_no_hits (autotex_log : string) :
  findall2 true run_regex autotex_log = [] ->
  discover autotex_log
  = Discovery (run_summary_head ++ nl ++ "") "" "" [] [] [].
Proof. intros H. unfold discover. now rewrite H. Qed.

Section NoBanner.

Variable d : discovery.
Variable submission_id : Z.
Variable compilation_status : string.
Hypothesis no_enable : enable_markup d = [].
Hypothesis no_disable : disable_markup d = [].

Local Abbreviation process_line' :=
  (process_line d submission_id compilation_status).
Local Abbreviation scan' := (scan d submission_id compilation_status).
Local Abbreviation firings' := (firings d submission_id compilation_status).
Local Abbreviation fire' := (fire d submission_id compilation_status).

Lemma update_run_no_banner (line : string) (st : state) :
  search true run_regex line = false -> update_run d line st = Ok st.
Proof.
  intros H. unfold update_run, enable_step, disable_step, banner_step.
  rewrite no_enable, no_disable. cbn [any_search existsb bind].
  now rewrite (search_groups_none _ _ _ H).
Qed.

(** A line without banner, read before any run has begun: the filters
    are tried, and the line is added to the log. *)
Lemma process_line_no_banner (raw : string) (st : state) :
  search true run_regex (html_escape raw) = false ->
  current_run st = "" -> markup_enabled st = true ->
  exists fired st',
    first_filter d st (html_escape raw) filters = Ok fired
    /\ process_line' raw st = Ok st'
    /\ current_run st' = "" /\ markup_enabled st' = true
    /\ new_log st' = new_log st ++ shown fired (html_escape raw) ++ nl.
Proof.
  intros Hs Hr Hm.
  destruct (first_filter_no_run d st (html_escape raw) filters Hr)
    as (fired & Hf).
  exists fired. unfold process_line. revert Hf. generalize filters.
  intros fs Hf. rewrite (update_run_no_banner _ _ Hs). unfold bind at 1.
  rewrite Hm, Hf. unfold bind, negb. eexists. split; [reflexivity|].
  split; [reflexivity|].
  destruct fired as [f|].
  - destruct (fire_same_run d submission_id compilation_status f
                            (shown (Some f) (html_escape raw)) st)
      as ((_ & Hr' & _ & Hm') & Hn).
    destruct (set_new_log_same
                (new_log (fire' f (shown (Some f) (html_escape raw)) st)
                 ++ shown (Some f) (html_escape raw) ++ nl)
                (fire' f (shown (Some f) (html_escape raw)) st))
      as ((_ & -> & _ & ->) & _ & _ & _ & _ & _ & _ & _ & _ & _ & ->).
    rewrite Hn. repeat split; congruence.
  - destruct (set_new_log_same
                (new_log st ++ shown None (html_escape raw) ++ nl) st)
      as ((_ & -> & _ & ->) & _ & _ & _ & _ & _ & _ & _ & _ & _ & ->).
    repeat split; assumption.
Qed.

Lemma scan_no_banner (lines : list string) (st : state) :
  (forall raw, In raw lines ->
               search true run_regex (html_escape raw) = false) ->
  current_run st = "" -> markup_enabled st = true ->
  exists st',
    scan' lines st = Ok st'
    /\ map (fun x => snd (fst x)) (firings' lines st)
       = map html_escape lines
    /\ count_lf (new_log st) + length lines <= count_lf (new_log st').
Proof.
  revert st. induction lines as [|raw rest IH]; intros st Hall Hr Hm.
  - exists st. repeat split; simpl; try reflexivity.
    rewrite Nat.add_0_r. apply le_n.
  - destruct (process_line_no_banner raw st (Hall raw (or_introl eq_refl))
                                     Hr Hm)
      as (fired & st1 & Hf & Hp & Hr1 & Hm1 & Hn).
    destruct (IH st1 (fun r H => Hall r (or_intror H)) Hr1 Hm1)
      as (st' & Hs & Hfs & Hc).
    exists st'. rewrite scan_cons, firings_cons, Hp.
    rewrite (update_run_no_banner _ _ (Hall raw (or_introl eq_refl))).
    rewrite Hm, Hf. cbn [bind negb map fst snd length].
    split; [exact Hs|]. split; [now rewrite Hfs|].
    rewrite Hn, !count_lf_app in Hc. change (count_lf nl) with 1 in Hc.
    clear - Hc. lia.
Qed.

End NoBanner.

Lemma Ok_inj {A : Type} (a b : A) : Ok a = Ok b -> a = b.
Proof.
  intros H.
  exact (f_equal (fun r => match r with Ok x => x | Raise _ => a end) H).
Qed.

(** C2, counterexample.
    The claim fails on the text [No log available] without a final
    character: the sentinel pattern wants one more character, the text
    holds no banner, and what comes back is a report, not the text. *)
Lemma C2_no_banner_not_unchanged :
  findall2 true run_regex "No log available" = []
  /\ compilation_log_display "No log available" 1 "failed"
     = Ok (run_summary_head ++ nl
           ++ status_line ("fatal", "Failed")
           ++ nl ++ nl ++ "<b>Marked Up Log:</b>" ++ nl ++ nl
           ++ "No log available" ++ nl)
  /\ compilation_log_display "No log available" 1 "failed"
     <> Ok "No log available".
Proof.
  split; [vm_compute; reflexivity|].
  split; [vm_compute; reflexivity|].
  vm_compute. discriminate.
Qed.

(** C2, amended.  For a log without run banner that does not hold the
    sentinel either, the call returns; nothing is skipped: the filters
    are tried on every escaped line; and the result is the report (run
    summary without runs, status line, error summary, heading and
    marked-up log), which is never the raw text. *)
Theorem C2_no_banner_report
        (autotex_log : string) (submission_id : Z)
        (compilation_status : string) :
  search false no_log_regex autotex_log = false ->
  findall2 true run_regex autotex_log = [] ->
  exists st,
    scan (discover autotex_log) submission_id compilation_status
         (splitlines autotex_log) state0 = Ok st
    /\ map (fun x => snd (fst x))
           (firings (discover autotex_log) submission_id compilation_status
                    (splitlines autotex_log) state0)
       = map html_escape (splitlines autotex_log)
    /\ compilation_log_display autotex_log submission_id compilation_status
       = Ok (run_summary_head ++ nl
             ++ status_line (status compilation_status st)
             ++ report_tail st)
    /\ compilation_log_display autotex_log submission_id compilation_status
       <> Ok autotex_log.
Proof.
  intros Hno Hhits.
  pose proof (discover_no_hits _ Hhits) as Hd.
  destruct (scan_no_banner (discover autotex_log) submission_id
                           compilation_status
                           ltac:(now rewrite Hd) ltac:(now rewrite Hd)
                           (splitlines autotex_log) state0
                           (fun raw => no_banner_lines _ raw Hhits)
                           eq_refl eq_refl)
    as (st & Hscan & Hfs & Hc).
  assert (Hout : compilation_log_display autotex_log submission_id
                                         compilation_status
                 = Ok (run_summary_head ++ nl
                       ++ status_line (status compilation_status st)
                       ++ report_tail st)).
  { unfold compilation_log_display. rewrite Hno, Hscan. cbn [bind].
    rewrite report_eq, Hd. cbn [run_summary].
    now rewrite !append_assoc. }
  exists st. split; [exact Hscan|]. split; [exact Hfs|].
  split; [exact Hout|].
  rewrite Hout. intros E. apply Ok_inj in E.
  pose proof (count_lf_lines autotex_log) as Hl.
  rewrite <- E in Hl at 1.
  unfold report_tail in Hl. rewrite !count_lf_app in Hl.
  change (count_lf nl) with 1 in Hl.
  change (count_lf (new_log state0)) with 0 in Hc.
  clear - Hl Hc. lia.
Qed.

(** C2, witness: the theorem on a concrete log. *)
Lemma C2_no_banner_report_witness :
  exists st,
    scan (discover ("This is pdfTeX" ++ nl ++ "warning: x")) 1 "succeeded"
         (splitlines ("This is pdfTeX" ++ nl ++ "warning: x")) state0 = Ok st
    /\ compilation_log_display ("This is pdfTeX" ++ nl ++ "warning: x")
                               1 "succeeded"
       = Ok (run_summary_head ++ nl
             ++ status_line (status "succeeded" st) ++ report_tail st)
    /\ compilation_log_display ("This is pdfTeX" ++ nl ++ "warning: x")
                               1 "succeeded"
       <> Ok ("This is pdfTeX" ++ nl ++ "warning: x").
Proof.
  assert (Hno : search false no_log_regex
                       ("This is pdfTeX" ++ nl ++ "warning: x") = false)
    by (vm_compute; reflexivity).
  assert (Hhits : findall2 true run_regex
                           ("This is pdfTeX" ++ nl ++ "warning: x") = [])
    by (vm_compute; reflexivity).
  destruct (C2_no_banner_report ("This is pdfTeX" ++ nl ++ "warning: x")
                                1 "succeeded" Hno Hhits)
    as (st & Hscan & _ & Hout & Hne).
  exists st. auto.
Defined.

(* ================================================================== *)
(** ** The markup keeps the text that the filter found *)

Lemma length_append (a b : string) :
  String.length (a ++ b) = String.length a + String.length b.
Proof. induction a as [|c a IH]; simpl; [reflexivity | now rewrite IH]. Qed.

Lemma substring_prefix (m t : string) :
  substring 0 (String.length m) (m ++ t) = m.
Proof.
  induction m as [|c m IH]; simpl; [now destruct t | now rewrite IH].
Qed.

Lemma consumed_app (m t : string) : consumed (m ++ t) t = m.
Proof.
  unfold consumed. rewrite length_append.
  replace (String.length m + String.length t - String.length t)
    with (String.length m) by lia.
  apply substring_prefix.
Qed.

(** The text that a match consumed is itself matched, up to its end. *)
Lemma ends_restrict (ic : bool) (r : regex) (s t : string) :
  ends ic r s t -> exists m, s = m ++ t /\ ends ic r m "".
Proof.
  revert s t. induction r as [|a|a|a|r1 IH1 r2 IH2|r1 IH1 r2 IH2|r IH];
    intros s t.
  - rewrite ends_eps. intros ->. exists "". split; [reflexivity|].
    now apply ends_eps.
  - rewrite ends_one. intros (c & -> & E). exists (String c "").
    split; [reflexivity|]. apply ends_one. now exists c.
  - rewrite ends_star, in_star. intros (pre & -> & Hp). exists pre.
    split; [reflexivity|]. apply ends_star, in_star. exists pre.
    now rewrite append_nil_r.
  - rewrite ends_plus. intros (c & u & -> & E & H).
    apply in_star in H. destruct H as (pre & -> & Hp).
    exists (String c pre). split; [reflexivity|]. apply ends_plus.
    exists c, pre. split; [reflexivity|]. split; [exact E|].
    apply in_star. exists pre. now rewrite append_nil_r.
  - rewrite ends_cat. intros (u & H1 & H2).
    destruct (IH1 _ _ H1) as (m1 & -> & H1').
    destruct (IH2 _ _ H2) as (m2 & -> & H2').
    exists (m1 ++ m2). split; [now rewrite append_assoc|].
    apply ends_cat. exists m2. split; [|exact H2'].
    now apply (ends_extend ic r1 m1 "" m2).
  - rewrite ends_alt. intros [H | H].
    + destruct (IH1 _ _ H) as (m & -> & H'). exists m.
      split; [reflexivity|]. apply ends_alt. now left.
    + destruct (IH2 _ _ H) as (m & -> & H'). exists m.
      split; [reflexivity|]. apply ends_alt. now right.
  - rewrite ends_group. intros H. destruct (IH _ _ H) as (m & -> & H').
    exists m. split; [reflexivity|]. now apply ends_group.
Qed.

(** The match that [re] reports for a pattern inside one group: its
    first group is the text matched. *)
Lemma match_at_group (ic : bool) (r : regex) (t rest : string) (g : caps) :
  match_at ic (Group r) t = Some (g, rest) ->
  exists m, t = m ++ rest /\ group 1 g = m /\ ends ic r m "".
Proof.
  unfold match_at. cbn [matches].
  destruct (matches ic r t) as [|[g0 u] l] eqn:E; cbn [map hd_error];
    [discriminate|].
  cbn [fst snd]. intros [= <- <-].
  assert (He : ends ic r t u) by (exists g0; rewrite E; now left).
  destruct (ends_restrict _ _ _ _ He) as (m & -> & Hm).
  exists m. split; [reflexivity|]. split; [|exact Hm].
  unfold group. cbn [Nat.sub nth_error]. apply consumed_app.
Qed.

(** Where the first replacement of [re.sub] stands. *)
Lemma sub_first (ic : bool) (r : regex) (repl : caps -> string) (s : string) :
  search ic r s = true ->
  exists pre t g rest tail,
    s = pre ++ t /\ match_at ic r t = Some (g, rest)
    /\ sub ic r repl s = pre ++ repl g ++ tail.
Proof.
  unfold sub. induction s as [|c s IH]; cbn [search sub_go].
  - destruct (match_at ic r "") as [[g rest]|] eqn:E; [|discriminate].
    intros _. exists "", "", g, rest, "". now rewrite E.
  - destruct (match_at ic r (String c s)) as [[g rest]|] eqn:E.
    + intros _. exists "", (String c s), g, rest. eexists.
      rewrite E. repeat split.
    + intros H. destruct (IH H) as (pre & t & g & rest & tail & -> & Hm & Hs).
      exists (String c pre), t, g, rest, tail. rewrite Hs. auto.
Qed.

Lemma span_eq (l : level) (text : string) :
  span l text = span_open l ++ text ++ "</span>".
Proof. unfold span, span_open. now rewrite !append_assoc. Qed.

(** A pattern found in a line is found in the line with the markup of
    the filter of that pattern. *)
Lemma markup_keeps_match (f : filter) (line : string) :
  search true (Group (f_regex f)) line = true ->
  search true (f_regex f) (markup f line) = true.
Proof.
  intros H. unfold markup.
  destruct (sub_first true (Group (f_regex f))
                      (fun g => span (css_level (f_level f)) (group 1 g))
                      line H)
    as (pre & t & g & rest & tail & _ & Hm & ->).
  destruct (match_at_group _ _ _ _ _ Hm) as (m & _ & -> & He).
  rewrite span_eq, !append_assoc, <- (append_assoc pre).
  apply search_at.
  apply (ends_matches true _ _ ("</span>" ++ tail)).
  now apply (ends_extend true (f_regex f) m "" ("</span>" ++ tail)).
Qed.

(** The filter of every firing is the one that the loop over [filters]
    chose. *)
Lemma firings_fired (d : discovery) (submission_id : Z)
      (compilation_status : string) (lines : list string) (st : state) :
  Forall (fun x => first_filter d (fst (fst x)) (snd (fst x)) filters
                   = Ok (snd x))
         (firings d submission_id compilation_status lines st).
Proof.
  apply (firings_all d submission_id compilation_status (fun _ => True));
    auto.
Qed.

(* ================================================================== *)
(** ** C7: the missing-file report *)

Section MissingFile.

Variable d : discovery.
Variable submission_id : Z.
Variable compilation_status : string.

Local Abbreviation fire' := (fire d submission_id compilation_status).

Lemma file_entry_in_fire (st : state) (line : string) (f : filter) :
  file_entry_in st -> file_entry_in (fire' f line st).
Proof.
  intros (l & H). exists l. eapply grows_contains; [apply fire_grows | exact H].
Qed.

Lemma file_latch_entry_frame (st st' : state) :
  same_latches st st' -> file_latch_entry st -> file_latch_entry st'.
Proof.
  unfold file_latch_entry, file_entry_in.
  intros (_ & _ & _ & -> & _ & _ & _ & _ & ->). auto.
Qed.

Lemma file_reported_in_frame (st st' : state) :
  same_latches st st' -> file_reported_in st -> file_reported_in st'.
Proof.
  unfold file_reported_in, file_entry_in.
  intros (_ & _ & _ & -> & _ & _ & _ & _ & ->). auto.
Qed.

Lemma file_latch_entry_fire (st : state) (line : string) (f : filter) :
  file_latch_entry st -> file_latch_entry (fire' f line st).
Proof.
  unfold file_latch_entry. intros H.
  destruct (fire_latches d submission_id compilation_status f line st)
    as (_ & _ & _ & _ & -> & _).
  destruct (missing_file st) eqn:E; cbn [orb].
  - intros _. now apply file_entry_in_fire, H.
  - intros Hdue. exists line. now apply fire_missing_file.
Qed.

Lemma file_reported_in_fire (st : state) (line : string) (f : filter) :
  file_reported_in st -> file_reported_in (fire' f line st).
Proof.
  intros (Hl & He). split; [|now apply file_entry_in_fire].
  destruct (fire_latches d submission_id compilation_status f line st)
    as (_ & _ & _ & _ & -> & _).
  now rewrite Hl.
Qed.

Lemma file_reported_in_set (st : state) (line : string) (f : filter) :
  file_latch_entry st ->
  file_missing_seen (st, line, Some f) = true ->
  file_reported_in (fire' f (markup f line) st).
Proof.
  intros Hinv Hseen. cbn [file_missing_seen] in Hseen.
  destruct (missing_file st) eqn:E.
  - apply file_reported_in_fire. split; [exact E | exact (Hinv E)].
  - assert (Hdue : missing_file_due (css_level (f_level f)) (markup f line) st
                   = true).
    { unfold missing_file_due. rewrite E. exact Hseen. }
    split.
    + destruct (fire_latches d submission_id compilation_status f
                             (markup f line) st) as (_ & _ & _ & _ & -> & _).
      rewrite Hdue. apply orb_true_r.
    + exists (markup f line). now apply fire_missing_file.
Qed.

End MissingFile.

(** C7, counterexample.
    The claim fails on [fatal_file_log]: its second line holds the
    pattern and lies in the first of two runs of [latex]; the filter
    that fires is the [fatal] one, and the summary stays empty. *)
Lemma C7_fatal_filter_wins :
  map (search true (Group pat_file_not_found))
      (map html_escape (splitlines fatal_file_log))
  = [false; true; false; false]
  /\ map observe (firings (discover fatal_file_log) 1 "failed"
                          (splitlines fatal_file_log) state0)
     = [ ("latex", "first", false, "~~~ Running latex for the first time ~~~",
          Some (info, ""));
         ("latex", "first", false, "Fatal: file a.sty not found",
          Some (fatal, ""));
         ("latex", "second", true,
          "~~~ Running latex for the second time ~~~", Some (info, ""));
         ("latex", "second", true, "Output written on paper.dvi", None) ]
  /\ scan (discover fatal_file_log) 1 "failed"
          (splitlines fatal_file_log) state0 = Ok fatal_file_st
  /\ error_summary fatal_file_st = ""
  /\ exists out,
      compilation_log_display fatal_file_log 1 "failed" = Ok out
      /\ occurrences "A file required by your submission was not found" out
         = 0.
Proof.
  split; [vm_compute; reflexivity|].
  split; [vm_compute; reflexivity|].
  split; [vm_compute; reflexivity|].
  split; [reflexivity|].
  eexists. split; vm_compute; reflexivity.
Qed.

(** C7, amended.  When the filter for missing files fires on a line, in
    whatever run of whatever engine, and the scan returns, the
    missing-file latch is set and a missing-file entry is in the output.
    (For the filter to fire the line has to be displayed, the abort latch
    open, and no filter listed before it found in the line.) *)
Theorem C7_missing_file_any_run
        (autotex_log : string) (submission_id : Z)
        (compilation_status : string) (st : state) :
  scan (discover autotex_log) submission_id compilation_status
       (splitlines autotex_log) state0 = Ok st ->
  Exists (fun x => snd x = Some file_filter)
         (firings (discover autotex_log) submission_id compilation_status
                  (splitlines autotex_log) state0) ->
  missing_file st = true
  /\ exists line,
      contains (missing_file_entry line)
               (report (discover autotex_log) compilation_status st).
Proof.
  intros Hscan Hfires.
  assert (Hseen : Exists (fun x => file_missing_seen x = true)
                         (firings (discover autotex_log) submission_id
                                  compilation_status
                                  (splitlines autotex_log) state0)).
  { apply Exists_exists in Hfires. destruct Hfires as (x & Hin & Hx).
    apply Exists_exists. exists x. split; [exact Hin|].
    pose proof (firings_fired (discover autotex_log) submission_id
                              compilation_status
                              (splitlines autotex_log) state0) as Hall.
    rewrite Forall_forall in Hall. specialize (Hall x Hin).
    destruct x as [[s line] fired]. cbn [fst snd] in *. subst fired.
    apply first_filter_some in Hall. destruct Hall as (_ & _ & _ & Hs).
    cbn [file_missing_seen]. apply andb_true_iff. split; [reflexivity|].
    exact (markup_keeps_match file_filter line Hs). }
  assert (H : file_reported_in st).
  { apply (scan_reaches (discover autotex_log) submission_id
                        compilation_status file_latch_entry file_reported_in
                        (fun x => file_missing_seen x = true))
      with (lines := splitlines autotex_log) (st := state0); auto.
    - apply file_latch_entry_frame.
    - apply file_latch_entry_fire.
    - apply file_reported_in_frame.
    - apply file_reported_in_fire.
    - apply file_reported_in_set.
    - intros s line. discriminate.
    - intros E. discriminate E. }
  destruct H as (Hl & line & Hc). split; [exact Hl|].
  exists line. now apply report_contains.
Qed.

(** C7, witness: the theorem on a concrete log. *)
Lemma C7_missing_file_any_run_witness :
  map observe
      (firings (discover missing_file_log) 1 "failed"
               (splitlines missing_file_log) state0)
  = [ ("latex", "first", false, "~~~ Running latex for the first time ~~~",
       Some (info, ""));
      ("latex", "first", false,
       "! LaTeX Error: File `a.sty&#x27; not found.", Some (danger, ""));
      ("latex", "second", true, "~~~ Running latex for the second time ~~~",
       Some (info, ""));
      ("latex", "second", true, "Output written on paper.dvi", None) ]
  /\ missing_file missing_file_st = true
  /\ exists line,
      contains (missing_file_entry line)
               (report (discover missing_file_log) "failed" missing_file_st).
Proof.
  assert (Hscan : scan (discover missing_file_log) 1 "failed"
                       (splitlines missing_file_log) state0
                  = Ok missing_file_st) by (vm_compute; reflexivity).
  assert (Hfires : Exists (fun x => snd x = Some file_filter)
                          (firings (discover missing_file_log) 1 "failed"
                                   (splitlines missing_file_log) state0)).
  { vm_compute. apply Exists_cons_tl, Exists_cons_hd. reflexivity. }
  split; [vm_compute; reflexivity|].
  exact (C7_missing_file_any_run missing_file_log 1 "failed" missing_file_st
                                 Hscan Hfires).
Defined.

(* ================================================================== *)
(** ** C4: two runs of one engine, as the line loop follows them *)

Section TwoRuns.

Variable d : discovery.
Variable submission_id : Z.
Variable compilation_status : string.

Local Abbreviation process_line' :=
  (process_line d submission_id compilation_status).
Local Abbreviation scan' := (scan d submission_id compilation_status).
Local Abbreviation firings' := (firings d submission_id compilation_status).

(** The current engine and run after the head of the loop body: those
    of the banner found in the line, or the ones before the line. *)
Lemma update_run_run (line : string) (st st' : state) :
  update_run d line st = Ok st' ->
  (current_engine st', current_run st')
  = match banner line with
    | Some er => er
    | None => (current_engine st, current_run st)
    end.
Proof.
  unfold banner, update_run, enable_step, disable_step, banner_step.
  destruct (any_search (disable_markup d) line);
    destruct (any_search (enable_markup d) line); cbn [bind].
  all: destruct (search_groups true run_regex line) as [g|].
  all: repeat match goal with
         | |- context [if ?b then _ else _] => destruct b
         end; cbn [bind].
  all: repeat match goal with
         | |- context [mark_last_run d ?s] =>
             let E := fresh "E" in
             destruct (mark_last_run d s) eqn:E; cbn [bind];
             [apply mark_last_run_monotone in E | discriminate]
         end.
  all: try (intros [= <-]).
  all: repeat match goal with s : state |- _ => destruct s end.
  all: repeat match goal with
         | H : _ /\ _ |- _ => destruct H as (?&?&?&?)
         end; simpl in *; congruence.
Qed.

(** The same after the whole turn of the loop: the reports do not touch
    the current engine and run. *)
Lemma process_line_run (raw : string) (st st' : state) :
  process_line' raw st = Ok st' ->
  (current_engine st', current_run st')
  = match banner (html_escape raw) with
    | Some er => er
    | None => (current_engine st, current_run st)
    end.
Proof.
  intros Hp. destruct (process_line_inv _ _ _ _ _ _ Hp) as (st1 & Hu & Hc).
  rewrite <- (update_run_run _ _ _ Hu).
  destruct Hc as [(_ & ->) | (_ & fired & _ & ->)]; [reflexivity|].
  match goal with
  | |- context [set_new_log ?v ?s] =>
      destruct (set_new_log_same v s) as ((-> & -> & _) & _)
  end.
  destruct fired as [f|]; [|reflexivity].
  now destruct (fire_same_run d submission_id compilation_status f
                              (shown (Some f) (html_escape raw)) st1)
    as ((-> & -> & _) & _).
Qed.

(** The firings of a scan in two parts. *)
Lemma firings_app (l1 l2 : list string) (st st1 : state) :
  scan' l1 st = Ok st1 ->
  firings' (l1 ++ l2)%list st = (firings' l1 st ++ firings' l2 st1)%list.
Proof.
  revert st. induction l1 as [|raw l1 IH]; intros st.
  - cbn [scan app firings]. intros H. now apply Ok_inj in H as ->.
  - rewrite scan_cons.
    destruct (process_line' raw st) as [st2|] eqn:Hp; [|discriminate].
    unfold bind at 1. intros Hscan.
    change ((raw :: l1) ++ l2)%list with (raw :: (l1 ++ l2))%list.
    rewrite !firings_cons.
    destruct (process_line_inv _ _ _ _ _ _ Hp) as (s1 & Hu & Hc).
    rewrite Hu, Hp.
    destruct Hc as [(Hm & ->) | (Hm & fired & Hf & _)]; rewrite Hm;
      cbn [negb].
    + exact (IH _ Hscan).
    + rewrite Hf. cbn [app]. now rewrite (IH _ Hscan).
Qed.

(** On lines without banner the current engine and run stay. *)
Lemma firings_run (e r : string) (lines : list string) (st : state) :
  Forall no_banner lines ->
  current_engine st = e -> current_run st = r ->
  Forall (in_run e r) (firings' lines st).
Proof.
  intros Hall. revert st.
  induction Hall as [|raw rest Hraw _ IH]; intros st He Hr; [constructor|].
  rewrite firings_cons.
  destruct (update_run d (html_escape raw) st) as [s1|] eqn:Hu;
    [|constructor].
  pose proof (update_run_run _ _ _ Hu) as E1.
  unfold no_banner in Hraw. rewrite Hraw, He, Hr in E1.
  injection E1 as He1 Hr1.
  destruct (markup_enabled s1); cbn [negb]; [|now apply IH].
  destruct (first_filter d s1 (html_escape raw) filters) as [fired|];
    [|constructor].
  destruct (process_line' raw st) as [st'|] eqn:Hp; [|constructor].
  pose proof (process_line_run _ _ _ Hp) as E2.
  rewrite Hraw, He, Hr in E2. injection E2 as He2 Hr2.
  constructor; [split; assumption | now apply IH].
Qed.

(** A banner line and the lines that follow it up to the next banner:
    the filters are tried on all of them in the run of the banner. *)
Lemma firings_banner_run (e r b : string) (lines : list string)
      (st : state) :
  banner (html_escape b) = Some (e, r) ->
  Forall no_banner lines ->
  Forall (in_run e r) (firings' (b :: lines) st).
Proof.
  intros Hb Hall. rewrite firings_cons.
  destruct (update_run d (html_escape b) st) as [s1|] eqn:Hu;
    [|constructor].
  pose proof (update_run_run _ _ _ Hu) as E1. rewrite Hb in E1.
  injection E1 as He1 Hr1.
  destruct (markup_enabled s1); cbn [negb]; [|now apply firings_run].
  destruct (first_filter d s1 (html_escape b) filters) as [fired|];
    [|constructor].
  destruct (process_line' b st) as [st'|] eqn:Hp; [|constructor].
  pose proof (process_line_run _ _ _ Hp) as E2. rewrite Hb in E2.
  injection E2 as He2 Hr2.
  constructor; [split; assumption | now apply firings_run].
Qed.

End TwoRuns.

(** C4, counterexample.
    The claim fails on two logs in which the search over the whole log
    finds exactly the first and the second run of [latex].  In
    [split_two_runs_log] the banner of the first run is broken over two
    lines: the line loop finds no banner in either line, the current run
    stays empty, and the [warning] filter for the second run fires on the
    line of the first run.  In [earlier_filter_log] the line of the second
    run holds [warning], yet the filter that fires on it is the one for
    [failed], listed earlier, and the [warning] filter does not fire. *)
Lemma C4_second_filter_out_of_turn :
  findall2 true run_regex split_two_runs_log
  = [("latex", "first"); ("latex", "second")]
  /\ map observe
         (firings (discover split_two_runs_log) 1 "succeeded"
                  (splitlines split_two_runs_log) state0)
     = [ ("", "", false, "~~~", None);
         ("", "", false, "Running latex for the first time ~~~", None);
         ("", "", false, "LaTeX Warning: Label(s) may have changed.",
          Some (warning, "second"));
         ("latex", "second", true,
          "~~~ Running latex for the second time ~~~", Some (info, ""));
         ("latex", "second", true,
          "LaTeX Warning: Label(s) may have changed.",
          Some (warning, "second")) ]
  /\ nth_error
       (map snd (firings (discover split_two_runs_log) 1 "succeeded"
                         (splitlines split_two_runs_log) state0)) 2
     = Some (Some warning_second)
  /\ findall2 true run_regex earlier_filter_log
     = [("latex", "first"); ("latex", "second")]
  /\ search true (Group (f_regex warning_second))
            "warning: conversion failed" = true
  /\ map observe
         (firings (discover earlier_filter_log) 1 "succeeded"
                  (splitlines earlier_filter_log) state0)
     = [ ("latex", "first", false,
          "~~~ Running latex for the first time ~~~", Some (info, ""));
         ("latex", "second", true,
          "~~~ Running latex for the second time ~~~", Some (info, ""));
         ("latex", "second", true, "warning: conversion failed",
          Some (danger, "")) ].
Proof.
  split; [vm_compute; reflexivity|].
  split; [vm_compute; reflexivity|].
  split; [vm_compute; reflexivity|].
  split; [vm_compute; reflexivity|].
  split; vm_compute; reflexivity.
Qed.

(** C4, amended.  Take a log in which the search over the whole log
    finds exactly two runs, the first and the second of one engine [e],
    and whose lines are: some lines [pre], a line [b1] in which the line
    loop finds the banner of the first run, lines [run1] without banner, a
    line [b2] in which it finds the banner of the second run, and lines
    [run2] without banner.  Let [f] be a filter of the table whose run
    spec is [second] or [last].  When the scan returns, its firings are
    those of [pre], then those of the first run ([b1] and [run1]), then
    those of the second run ([b2] and [run2]).  On every line of the first
    run that reaches the filters the current run is the first of [e], and
    [f] does not fire.  On every line of the second run that reaches the
    filters the current run is the second of [e], and [f] fires when it is
    found in the line, the abort latch is open and no filter listed before
    [f] is found. *)
Theorem C4_second_and_last_filters
        (autotex_log e : string) (submission_id : Z)
        (compilation_status : string)
        (pre run1 run2 : list string) (b1 b2 : string) (st_end : state)
        (f : filter) (before after : list filter) :
  findall2 true run_regex autotex_log = [(e, "first"); (e, "second")] ->
  splitlines autotex_log = (pre ++ b1 :: run1 ++ b2 :: run2)%list ->
  banner (html_escape b1) = Some (e, "first") ->
  banner (html_escape b2) = Some (e, "second") ->
  Forall no_banner run1 ->
  Forall no_banner run2 ->
  scan (discover autotex_log) submission_id compilation_status
       (splitlines autotex_log) state0 = Ok st_end ->
  filters = (before ++ f :: after)%list ->
  f_run f = "second" \/ f_run f = "last" ->
  exists st_p st_1,
    scan (discover autotex_log) submission_id compilation_status
         pre state0 = Ok st_p
    /\ scan (discover autotex_log) submission_id compilation_status
            (b1 :: run1) st_p = Ok st_1
    /\ firings (discover autotex_log) submission_id compilation_status
               (splitlines autotex_log) state0
       = (firings (discover autotex_log) submission_id compilation_status
                  pre state0
          ++ firings (discover autotex_log) submission_id compilation_status
                     (b1 :: run1) st_p
          ++ firings (discover autotex_log) submission_id compilation_status
                     (b2 :: run2) st_1)%list
    /\ Forall (fun x => in_run e "first" x /\ snd x <> Some f)
              (firings (discover autotex_log) submission_id
                       compilation_status (b1 :: run1) st_p)
    /\ Forall (fun x => in_run e "second" x /\ fires_when_found f before x)
              (firings (discover autotex_log) submission_id
                       compilation_status (b2 :: run2) st_1).
Proof.
  intros Hhits Hlines Hb1 Hb2 Hr1 Hr2 Hscan Hfs Hrun.
  set (d := discover autotex_log) in *.
  rewrite Hlines in *.
  change (pre ++ b1 :: run1 ++ b2 :: run2)%list
    with (pre ++ ((b1 :: run1) ++ (b2 :: run2)))%list in *.
  rewrite scan_app in Hscan.
  destruct (scan d submission_id compilation_status pre state0)
    as [st_p|] eqn:Hp; [|discriminate Hscan].
  unfold bind at 1 in Hscan. rewrite scan_app in Hscan.
  destruct (scan d submission_id compilation_status (b1 :: run1) st_p)
    as [st_1|] eqn:H1; [|discriminate Hscan].
  exists st_p, st_1. split; [reflexivity|]. split; [exact H1|].
  split.
  { rewrite (firings_app d submission_id compilation_status _ _ _ _ Hp).
    now rewrite (firings_app d submission_id compilation_status _ _ _ _ H1). }
  split.
  - pose proof (firings_banner_run d submission_id compilation_status
                                   _ _ _ _ st_p Hb1 Hr1) as Hin.
    pose proof (firings_fired d submission_id compilation_status
                              (b1 :: run1) st_p) as Hfired.
    rewrite Forall_forall in *. intros x Hx.
    split; [exact (Hin x Hx)|].
    specialize (Hfired x Hx). destruct (Hin x Hx) as (_ & Hfirst).
    destruct x as [[s line] fired]. cbn [fst snd] in *.
    intros ->.
    exact (proj1 (two_runs_gate autotex_log e s line f before after
                                Hhits Hfs Hrun) Hfirst Hfired).
  - pose proof (firings_banner_run d submission_id compilation_status
                                   _ _ _ _ st_1 Hb2 Hr2) as Hin.
    pose proof (firings_fired d submission_id compilation_status
                              (b2 :: run2) st_1) as Hfired.
    rewrite Forall_forall in *. intros x Hx.
    split; [exact (Hin x Hx)|].
    specialize (Hfired x Hx). destruct (Hin x Hx) as (He & Hsecond).
    destruct x as [[s line] fired]. cbn [fst snd] in *.
    unfold fires_when_found. cbn [fst snd]. intros Hab Hs Hbefore.
    pose proof (proj2 (proj2 (two_runs_gate autotex_log e s line f
                                            before after Hhits Hfs Hrun)
                             He Hsecond) Hab Hs Hbefore) as Hfire.
    fold d in Hfire. rewrite Hfire in Hfired. now injection Hfired as <-.
Qed.

(** C4, witness: the theorem on [two_runs_log], for the filter [warning]
    of the second run; the firings show that it fires on the line of the
    second run and not on the same line of the first run. *)
Lemma C4_second_and_last_filters_witness :
  map observe
      (firings (discover two_runs_log) 1 "succeeded"
               (splitlines two_runs_log) state0)
  = [ ("latex", "first", false, "~~~ Running latex for the first time ~~~",
       Some (info, ""));
      ("latex", "first", false,
       "LaTeX Warning: Label(s) may have changed.", Some (ignore, "first"));
      ("latex", "second", true, "~~~ Running latex for the second time ~~~",
       Some (info, ""));
      ("latex", "second", true,
       "LaTeX Warning: Label(s) may have changed.",
       Some (warning, "second")) ]
  /\ exists st_p st_1,
      scan (discover two_runs_log) 1 "succeeded" [] state0 = Ok st_p
      /\ scan (discover two_runs_log) 1 "succeeded"
              ["~~~ Running latex for the first time ~~~";
               "LaTeX Warning: Label(s) may have changed."] st_p = Ok st_1
      /\ firings (discover two_runs_log) 1 "succeeded"
                 (splitlines two_runs_log) state0
         = (firings (discover two_runs_log) 1 "succeeded" [] state0
            ++ firings (discover two_runs_log) 1 "succeeded"
                       ["~~~ Running latex for the first time ~~~";
                        "LaTeX Warning: Label(s) may have changed."] st_p
            ++ firings (discover two_runs_log) 1 "succeeded"
                       ["~~~ Running latex for the second time ~~~";
                        "LaTeX Warning: Label(s) may have changed."]
                       st_1)%list
      /\ Forall (fun x => in_run "latex" "first" x
                          /\ snd x <> Some warning_second)
                (firings (discover two_runs_log) 1 "succeeded"
                         ["~~~ Running latex for the first time ~~~";
                          "LaTeX Warning: Label(s) may have changed."] st_p)
      /\ Forall (fun x => in_run "latex" "second" x
                          /\ fires_when_found warning_second
                                              (firstn 21 filters) x)
                (firings (discover two_runs_log) 1 "succeeded"
                         ["~~~ Running latex for the second time ~~~";
                          "LaTeX Warning: Label(s) may have changed."] st_1).
Proof.
  split; [vm_compute; reflexivity|].
  apply (C4_second_and_last_filters
           two_runs_log "latex" 1 "succeeded" []
           ["LaTeX Warning: Label(s) may have changed."]
           ["LaTeX Warning: Label(s) may have changed."]
           "~~~ Running latex for the first time ~~~"
           "~~~ Running latex for the second time ~~~"
           two_runs_st warning_second
           (firstn 21 filters) (skipn 22 filters)).
  - vm_compute; reflexivity.
  - vm_compute; reflexivity.
  - vm_compute; reflexivity.
  - vm_compute; reflexivity.
  - repeat constructor.
  - repeat constructor.
  - vm_compute; reflexivity.
  - reflexivity.
  - left; reflexivity.
Defined.

(* ================================================================== *)
(** * Further properties of the code *)

(** ** The run discovery (lines 84-134) *)

Lemma dict_find_set (k k' v : string) (d : dict) :
  dict_find k' (dict_set k v d)
  = if (k' =? k)%string then Some v else dict_find k' d.
Proof.
  induction d as [|[k0 v0] d IH]; simpl; [reflexivity|].
  destruct (String.eqb_spec k k0) as [-> | Hk]; simpl.
  - destruct (String.eqb_spec k' k0); reflexivity.
  - rewrite IH. destruct (String.eqb_spec k' k0) as [-> | _];
      [|reflexivity].
    destruct (String.eqb_spec k0 k); [congruence | reflexivity].
Qed.

Lemma dict_set_keys (k v k0 : string) (d : dict) :
  In k0 (map fst (dict_set k v d)) <-> k0 = k \/ In k0 (map fst d).
Proof.
  induction d as [|[k1 v1] d IH]; simpl; [intuition congruence|].
  destruct (String.eqb_spec k k1) as [-> | Hk]; simpl;
    [intuition congruence|].
  rewrite IH. intuition congruence.
Qed.

Lemma dict_set_nodup (k v : string) (d : dict) :
  NoDup (map fst d) -> NoDup (map fst (dict_set k v d)).
Proof.
  induction d as [|[k1 v1] d IH]; simpl; intros H.
  - constructor; [intros [] | constructor].
  - inversion H as [|x l Hn Hd]; subst.
    destruct (String.eqb_spec k k1) as [-> | Hk]; simpl;
      [now constructor|].
    constructor; [|now apply IH].
    rewrite dict_set_keys. intros [E | E]; [congruence | contradiction].
Qed.

Lemma discover_hit_dict (d : discovery) (e r : string) :
  last_run_for_engine (discover_hit d (e, r))
  = dict_set e r (last_run_for_engine d).
Proof. reflexivity. Qed.

Lemma fold_dict_find (e : string) (hits : list (string * string))
      (d : discovery) :
  dict_find e (last_run_for_engine (fold_left discover_hit hits d))
  = match last_hit e hits with
    | Some r => Some r
    | None => dict_find e (last_run_for_engine d)
    end.
Proof.
  revert d. induction hits as [|[e' r] hits IH]; intros d; [reflexivity|].
  cbn [fold_left last_hit]. rewrite IH, discover_hit_dict, dict_find_set.
  destruct (last_hit e hits); [reflexivity|].
  now destruct (e =? e')%string.
Qed.

Lemma fold_dict_nodup (hits : list (string * string)) (d : discovery) :
  NoDup (map fst (last_run_for_engine d)) ->
  NoDup (map fst (last_run_for_engine (fold_left discover_hit hits d))).
Proof.
  revert d. induction hits as [|[e r] hits IH]; intros d H; [exact H|].
  cbn [fold_left]. apply IH. rewrite discover_hit_dict.
  now apply dict_set_nodup.
Qed.

Lemma discover_fields (autotex_log : string) :
  let d := fold_left discover_hit (findall2 true run_regex autotex_log)
                     discovery0 in
  last_run_for_engine (discover autotex_log) = last_run_for_engine d
  /\ success_last_engine (discover autotex_log) = success_last_engine d
  /\ success_last_run (discover autotex_log) = success_last_run d
  /\ enable_markup (discover autotex_log) = enable_markup d
  /\ disable_markup (discover autotex_log) = disable_markup d.
Proof. repeat split; reflexivity. Qed.

(** X1.  [last_run_for_engine] maps every engine found in the log to the
    run of its last banner, later banners overwriting earlier ones, and
    engines without banner are not keys; each engine is a key once. *)
Theorem X1_last_run_for_engine (autotex_log e : string) :
  dict_find e (last_run_for_engine (discover autotex_log))
  = last_hit e (findall2 true run_regex autotex_log)
  /\ NoDup (map fst (last_run_for_engine (discover autotex_log))).
Proof.
  destruct (discover_fields autotex_log) as (-> & _). split.
  - rewrite fold_dict_find. now destruct (last_hit e _).
  - apply fold_dict_nodup. constructor.
Qed.

Lemma fold_last (hits : list (string * string)) (e r : string)
      (d : discovery) :
  let d' := fold_left discover_hit (hits ++ [(e, r)])%list d in
  success_last_engine d' = e /\ success_last_run d' = r
  /\ dict_find e (last_run_for_engine d') = Some r.
Proof.
  cbn zeta. rewrite fold_left_app. cbn [fold_left].
  split; [reflexivity|]. split; [reflexivity|].
  rewrite discover_hit_dict, dict_find_set. now rewrite String.eqb_refl.
Qed.

(** X2.  When the log holds a banner, the engine and run recorded as the
    last of the log are those of its last banner, and that run is the
    one recorded as the last run of that engine. *)
Theorem X2_final_run_is_last_of_engine (autotex_log : string) :
  findall2 true run_regex autotex_log <> [] ->
  (success_last_engine (discover autotex_log),
   success_last_run (discover autotex_log))
  = last (findall2 true run_regex autotex_log) ("", "")
  /\ dict_find (success_last_engine (discover autotex_log))
               (last_run_for_engine (discover autotex_log))
     = Some (success_last_run (discover autotex_log)).
Proof.
  intros Hne. destruct (discover_fields autotex_log) as (-> & -> & -> & _).
  destruct (exists_last Hne) as (hits & [e r] & ->).
  rewrite last_last.
  destruct (fold_last hits e r discovery0) as (-> & -> & ->). auto.
Qed.

(** X2, witness. *)
Lemma X2_final_run_is_last_of_engine_witness :
  (success_last_engine (discover two_engines_log),
   success_last_run (discover two_engines_log))
  = ("latex", "second")
  /\ dict_find "latex" (last_run_for_engine (discover two_engines_log))
     = Some "second".
Proof.
  assert (Hne : findall2 true run_regex two_engines_log <> [])
    by (vm_compute; discriminate).
  destruct (X2_final_run_is_last_of_engine two_engines_log Hne) as (H1 & H2).
  split.
  - rewrite H1. vm_compute. reflexivity.
  - assert (E : success_last_engine (discover two_engines_log) = "latex")
      by (vm_compute; reflexivity).
    assert (E' : success_last_run (discover two_engines_log) = "second")
      by (vm_compute; reflexivity).
    rewrite E, E' in H2. exact H2.
Defined.

(** ** Which lines are displayed *)

Lemma discover_hit_hidden (d : discovery) (e r : string) :
  real_engine e = false ->
  enable_markup (discover_hit d (e, r)) = enable_markup d
  /\ disable_markup (discover_hit d (e, r)) = disable_markup d.
Proof.
  unfold real_engine. intros H.
  apply orb_false_iff in H. destruct H as (H & H3).
  apply orb_false_iff in H. destruct H as (H1 & H2).
  unfold discover_hit. cbn [enable_markup disable_markup].
  now rewrite H1, H2, H3.
Qed.

Lemma fold_hidden (hits : list (string * string)) (d : discovery) :
  forallb (fun hit => negb (real_engine (fst hit))) hits = true ->
  enable_markup (fold_left discover_hit hits d) = enable_markup d
  /\ disable_markup (fold_left discover_hit hits d) = disable_markup d.
Proof.
  revert d. induction hits as [|[e r] hits IH]; intros d; [auto|].
  cbn [forallb fold_left fst]. intros H.
  apply andb_true_iff in H. destruct H as (He & H).
  apply negb_true_iff in He.
  destruct (IH (discover_hit d (e, r)) H) as (-> & ->).
  now apply discover_hit_hidden.
Qed.

Section Displayed.

Variable d : discovery.
Variable submission_id : Z.
Variable compilation_status : string.
Hypothesis no_disable : disable_markup d = [].

Lemma update_run_stays_enabled (line : string) (st st' : state) :
  update_run d line st = Ok st' ->
  markup_enabled st = true -> markup_enabled st' = true.
Proof.
  unfold update_run, enable_step, disable_step, banner_step.
  rewrite no_disable. cbn [any_search existsb].
  destruct (any_search (enable_markup d) line); cbn [bind].
  all: destruct (search_groups true run_regex line) as [g|].
  all: repeat match goal with
         | |- context [if ?b then _ else _] => destruct b
         end; cbn [bind].
  all: repeat match goal with
         | |- context [mark_last_run d ?s] =>
             let E := fresh "E" in
             destruct (mark_last_run d s) eqn:E; cbn [bind];
             [apply mark_last_run_monotone in E | discriminate]
         end.
  all: try (intros [= <-]).
  all: repeat match goal with s : state |- _ => destruct s end.
  all: repeat match goal with
         | H : _ /\ _ |- _ => destruct H
         end; simpl in *; congruence.
Qed.

(** With nothing to disable, every line of a scan that returns reaches
    the filters. *)
Lemma scan_all_displayed (lines : list string) (st st' : state) :
  scan d submission_id compilation_status lines st = Ok st' ->
  markup_enabled st = true ->
  markup_enabled st' = true
  /\ map (fun x => snd (fst x))
         (firings d submission_id compilation_status lines st)
     = map html_escape lines.
Proof.
  revert st. induction lines as [|raw rest IH]; intros st Hscan Hm.
  - simpl in Hscan. injection Hscan as <-. auto.
  - destruct (scan_step d submission_id compilation_status _ _ _ _ Hscan)
      as (st1 & st2 & Hu & Hrest & Hc).
    pose proof (update_run_stays_enabled _ _ _ Hu Hm) as Hm1.
    destruct Hc as [(Hoff & _) | (_ & fired & _ & _ & _ & Hrun & ->)];
      [congruence|].
    destruct Hrun as (_ & _ & _ & Hm2).
    destruct (IH st2 Hrest ltac:(congruence)) as (H1 & H2).
    split; [exact H1|]. cbn [map fst snd]. now rewrite H2.
Qed.

End Displayed.

(** X3.  A run is dropped from the display only when the log holds a run
    of [tex], [latex] or [pdflatex]: when every banner of the log is for
    another engine and the scan returns, the filters are tried on every
    line of the log, in order, and markup ends enabled. *)
Theorem X3_nothing_dropped_without_real_engine
        (autotex_log : string) (submission_id : Z)
        (compilation_status : string) (st : state) :
  forallb (fun hit => negb (real_engine (fst hit)))
          (findall2 true run_regex autotex_log) = true ->
  scan (discover autotex_log) submission_id compilation_status
       (splitlines autotex_log) state0 = Ok st ->
  disable_markup (discover autotex_log) = []
  /\ markup_enabled st = true
  /\ map (fun x => snd (fst x))
         (firings (discover autotex_log) submission_id compilation_status
                  (splitlines autotex_log) state0)
     = map html_escape (splitlines autotex_log).
Proof.
  intros Hhits Hscan.
  assert (Hd : disable_markup (discover autotex_log) = []).
  { destruct (discover_fields autotex_log) as (_ & _ & _ & _ & ->).
    now destruct (fold_hidden _ discovery0 Hhits) as (_ & ->). }
  split; [exact Hd|].
  exact (scan_all_displayed _ submission_id compilation_status Hd
                            _ _ _ Hscan eq_refl).
Qed.

(** X3, witness. *)
Lemma X3_nothing_dropped_without_real_engine_witness :
  map (fun x => snd (fst x))
      (firings (discover hidden_only_log) 1 "succeeded"
               (splitlines hidden_only_log) state0)
  = map html_escape (splitlines hidden_only_log).
Proof.
  assert (Hhits : forallb (fun hit => negb (real_engine (fst hit)))
                          (findall2 true run_regex hidden_only_log) = true)
    by (vm_compute; reflexivity).
  assert (Hscan : scan (discover hidden_only_log) 1 "succeeded"
                       (splitlines hidden_only_log) state0
                  = Ok hidden_only_st) by (vm_compute; reflexivity).
  exact (proj2 (proj2 (X3_nothing_dropped_without_real_engine
                         hidden_only_log 1 "succeeded" hidden_only_st
                         Hhits Hscan))).
Defined.

(** ** The inputs on which the scan returns *)

Lemma index_known (x : string) (l : list string) :
  existsb (String.eqb x) l = true -> exists i, index x l = Ok i.
Proof.
  induction l as [|y l IH]; simpl; [discriminate|].
  destruct (x =? y)%string; simpl; [now eexists|].
  intros H. destruct (IH H) as (i & ->). now eexists.
Qed.

Lemma filters_run_specs :
  Forall (fun f => existsb (String.eqb (run_spec f)) RUN_ORDER = true)
         filters.
Proof. repeat constructor. Qed.

Section Returns.

Variable d : discovery.
Variable submission_id : Z.
Variable compilation_status : string.

Lemma wrong_run_known (st : state) (run : string) :
  run_known d st = true ->
  existsb (String.eqb run) RUN_ORDER = true ->
  exists b, wrong_run d st run = Ok b.
Proof.
  unfold run_known, wrong_run. intros Hk Hr.
  destruct (nonempty run && nonempty (current_run st)) eqn:E;
    [|now eexists].
  apply andb_true_iff in E. destruct E as (_ & E). rewrite E in Hk.
  cbn [negb orb] in Hk. apply andb_true_iff in Hk. destruct Hk as (Hd & Hc).
  destruct (index_known _ _ Hr) as (i & ->).
  destruct (index_known _ _ Hc) as (j & ->). cbn [bind].
  destruct (j <? i)%nat; [now eexists|].
  destruct (run =? "last")%string; [|now eexists].
  unfold dict_get.
  destruct (dict_find (current_engine st) (last_run_for_engine d));
    [now eexists | discriminate].
Qed.

Lemma first_filter_known (st : state) (line : string) (fs : list filter) :
  run_known d st = true ->
  Forall (fun f => existsb (String.eqb (run_spec f)) RUN_ORDER = true) fs ->
  exists o, first_filter d st line fs = Ok o.
Proof.
  intros Hk. induction 1 as [|f fs Hf _ IH]; simpl; [now eexists|].
  destruct (abort_markup st && negb (fatal_or_abort (f_level f)));
    [exact IH|].
  destruct (wrong_run_known st _ Hk Hf) as (b & ->). cbn [bind].
  destruct b; [exact IH|].
  destruct (search true (Group (f_regex f)) line); [now eexists | exact IH].
Qed.

Lemma mark_last_run_known (st : state) :
  is_some (dict_find (current_engine st) (last_run_for_engine d)) = true ->
  exists st', mark_last_run d st = Ok st'
              /\ current_engine st' = current_engine st
              /\ current_run st' = current_run st.
Proof.
  unfold mark_last_run, dict_get.
  destruct (dict_find (current_engine st) (last_run_for_engine d));
    [|discriminate].
  intros _. cbn [bind]. eexists. split; [reflexivity|].
  destruct (_ =? _)%string; destruct st; auto.
Qed.

Lemma update_run_known (line : string) (st : state) :
  run_known d st = true -> banner_ok d line = true ->
  exists st', update_run d line st = Ok st' /\ run_known d st' = true.
Proof.
  unfold banner_ok, update_run, enable_step, disable_step, banner_step.
  intros Hk Hb.
  set (st0 := if any_search (disable_markup d) line
              then set_markup_enabled false st else st).
  assert (H0 : current_engine st0 = current_engine st
               /\ current_run st0 = current_run st)
    by (subst st0; destruct (any_search _ _); destruct st; auto).
  destruct H0 as (He0 & Hr0).
  destruct (search_groups true run_regex line) as [g|].
  - apply andb_true_iff in Hb. destruct Hb as (Hd & Hr).
    assert (Hset : forall s,
               exists s', mark_last_run d (set_run (group 1 g) (group 2 g) s)
                          = Ok s'
                          /\ current_engine s' = group 1 g
                          /\ current_run s' = group 2 g).
    { intros s.
      destruct (mark_last_run_known (set_run (group 1 g) (group 2 g) s))
        as (s' & Hs & E1 & E2); [destruct s; exact Hd|].
      exists s'. destruct s. auto. }
    assert (Hfin : forall s,
               exists st', mark_last_run d
                             (set_run (group 1 g) (group 2 g) s) = Ok st'
                           /\ run_known d st' = true).
    { intros s. destruct (Hset s) as (s' & Hs & E1 & E2). exists s'.
      split; [exact Hs|]. unfold run_known. rewrite E1, E2, Hd, Hr.
      apply orb_true_r. }
    destruct (any_search (enable_markup d) line).
    + destruct (nonempty _ && nonempty _).
      * destruct (Hset (set_markup_enabled true st0)) as (s' & -> & _).
        cbn [bind]. apply Hfin.
      * cbn [bind]. apply Hfin.
    + cbn [bind]. apply Hfin.
  - assert (Hk0 : forall s, current_engine s = current_engine st ->
                            current_run s = current_run st ->
                            run_known d s = true).
    { intros s E1 E2. unfold run_known in *. now rewrite E1, E2. }
    destruct (any_search (enable_markup d) line).
    + destruct (nonempty (current_engine (set_markup_enabled true st0))
                && nonempty (current_run (set_markup_enabled true st0)))
        eqn:E.
      * apply andb_true_iff in E. destruct E as (_ & E).
        assert (E1 : current_engine (set_markup_enabled true st0)
                     = current_engine st) by (destruct st0; exact He0).
        assert (E2 : current_run (set_markup_enabled true st0)
                     = current_run st) by (destruct st0; exact Hr0).
        destruct (mark_last_run_known (set_markup_enabled true st0))
          as (s' & -> & E3 & E4).
        { rewrite E1. unfold run_known in Hk. rewrite E2 in E.
          rewrite E in Hk. cbn [negb orb] in Hk.
          apply andb_true_iff in Hk. tauto. }
        cbn [bind]. exists s'. split; [reflexivity|].
        apply Hk0; congruence.
      * cbn [bind]. eexists. split; [reflexivity|].
        apply Hk0; destruct st0; assumption.
    + cbn [bind]. exists st0. split; [reflexivity|]. now apply Hk0.
Qed.

Lemma process_line_known (raw : string) (st : state) :
  run_known d st = true -> banner_ok d (html_escape raw) = true ->
  exists st', process_line d submission_id compilation_status raw st = Ok st'
              /\ run_known d st' = true.
Proof.
  intros Hk Hb.
  destruct (update_run_known _ _ Hk Hb) as (st1 & Hu & Hk1).
  destruct (first_filter_known st1 (html_escape raw) filters Hk1
                               filters_run_specs) as (fired & Hf).
  unfold process_line. revert Hf. generalize filters. intros fs Hf.
  rewrite Hu. unfold bind at 1.
  destruct (markup_enabled st1); cbn [negb]; [|now exists st1].
  rewrite Hf. unfold bind. eexists. split; [reflexivity|].
  assert (Hrun : forall s v, current_engine s = current_engine st1 ->
                             current_run s = current_run st1 ->
                             run_known d (set_new_log v s) = true).
  { intros s v E1 E2. unfold run_known in *.
    destruct (set_new_log_same v s) as ((-> & -> & _) & _).
    now rewrite E1, E2. }
  destruct fired as [f|]; apply Hrun; try reflexivity.
  - now destruct (fire_same_run d submission_id compilation_status f
                    (shown (Some f) (html_escape raw)) st1)
      as ((? & _) & _).
  - now destruct (fire_same_run d submission_id compilation_status f
                    (shown (Some f) (html_escape raw)) st1)
      as ((_ & ? & _) & _).
Qed.

Lemma scan_known (lines : list string) (st : state) :
  run_known d st = true ->
  forallb (fun raw => banner_ok d (html_escape raw)) lines = true ->
  exists st', scan d submission_id compilation_status lines st = Ok st'.
Proof.
  revert st. induction lines as [|raw rest IH]; intros st Hk Hall.
  - now exists st.
  - cbn [forallb] in Hall. apply andb_true_iff in Hall.
    destruct Hall as (Hb & Hall).
    destruct (process_line_known raw st Hk Hb) as (st1 & Hp & Hk1).
    destruct (IH st1 Hk1 Hall) as (st' & Hs). exists st'.
    cbn [scan]. rewrite Hp. exact Hs.
Qed.

End Returns.

(** X4.  The call returns normally whenever, on every escaped line that
    holds a banner, the engine of the banner is a key of
    [last_run_for_engine] and its run is one of [RUN_ORDER]: these are
    the only two ways for the function to raise. *)
Theorem X4_returns_on_known_banners
        (autotex_log : string) (submission_id : Z)
        (compilation_status : string) :
  forallb (fun raw => banner_ok (discover autotex_log) (html_escape raw))
          (splitlines autotex_log) = true ->
  exists out,
    compilation_log_display autotex_log submission_id compilation_status
    = Ok out.
Proof.
  intros H. unfold compilation_log_display.
  destruct (search false no_log_regex autotex_log); [now eexists|].
  destruct (scan_known (discover autotex_log) submission_id
                       compilation_status (splitlines autotex_log) state0
                       eq_refl H) as (st & ->).
  cbn [bind]. now eexists.
Qed.

(** X4, witness. *)
Lemma X4_returns_on_known_banners_witness :
  exists out, compilation_log_display two_engines_log 1 "succeeded" = Ok out.
Proof.
  assert (H : forallb (fun raw => banner_ok (discover two_engines_log)
                                            (html_escape raw))
                      (splitlines two_engines_log) = true)
    by (vm_compute; reflexivity).
  exact (X4_returns_on_known_banners two_engines_log 1 "succeeded" H).
Defined.

(** ** Lines of a dropped run *)

(** X5.  A line that ends its turn with markup disabled (a line of a
    dropped run) changes no latch, no flag of the final run, and neither
    the error summary nor the marked-up log. *)
Theorem X5_dropped_line_changes_nothing
        (d : discovery) (submission_id : Z) (compilation_status : string)
        (raw : string) (st st' : state) :
  process_line d submission_id compilation_status raw st = Ok st' ->
  markup_enabled st' = false ->
  same_report st st'.
Proof.
  intros Hp Hoff.
  destruct (process_line_inv _ _ _ _ _ _ Hp) as (st1 & Hu & Hc).
  destruct Hc as [(_ & ->) | (Hon & fired & _ & ->)].
  - exact (update_run_report _ _ _ _ Hu).
  - exfalso. revert Hoff.
    match goal with
    | |- markup_enabled (set_new_log ?v ?s) = false -> _ =>
        destruct (set_new_log_same v s) as ((_ & _ & _ & ->) & _)
    end.
    destruct fired as [f|]; [|congruence].
    destruct (fire_same_run d submission_id compilation_status f
                            (shown (Some f) (html_escape raw)) st1)
      as ((_ & _ & _ & ->) & _).
    congruence.
Qed.

(** X5, witness: a fontspec line after the banner of a dropped run. *)
Lemma X5_dropped_line_changes_nothing_witness :
  exists st',
    process_line (discover hidden_fontspec_log) 1 "failed"
                 "! The fontspec package requires either XeTeX or LuaTeX."
                 (set_markup_enabled false state0) = Ok st'
    /\ same_report (set_markup_enabled false state0) st'.
Proof.
  assert (H : exists st',
             process_line (discover hidden_fontspec_log) 1 "failed"
               "! The fontspec package requires either XeTeX or LuaTeX."
               (set_markup_enabled false state0) = Ok st'
             /\ markup_enabled st' = false).
  { eexists. split; [vm_compute; reflexivity | reflexivity]. }
  destruct H as (st' & Hp & Hoff). exists st'. split; [exact Hp|].
  exact (X5_dropped_line_changes_nothing _ _ _ _ _ _ Hp Hoff).
Defined.

(** ** Each report is made once *)

(** A report guarded by a latch: the report is not due while the latch
    is set, a firing that makes the report sets the latch, and nothing
    clears it. *)
Section Once.

Variable d : discovery.
Variable submission_id : Z.
Variable compilation_status : string.
Variable latch : state -> bool.
Variable due : state * string * option filter -> bool.

Hypothesis latch_frame :
  forall st st', same_latches st st' -> latch st' = latch st.
Hypothesis latch_keep :
  forall st line f,
    latch st = true ->
    latch (fire d submission_id compilation_status f line st) = true.
Hypothesis latch_set :
  forall st line f,
    due (st, line, Some f) = true ->
    latch (fire d submission_id compilation_status f (markup f line) st)
    = true.
Hypothesis due_open :
  forall st line fired, latch st = true -> due (st, line, fired) = false.
Hypothesis due_none : forall st line, due (st, line, None) = false.

Lemma latched_none (lines : list string) (st : state) :
  latch st = true ->
  List.filter due (firings d submission_id compilation_status lines st) = [].
Proof.
  intros H.
  assert (HF : Forall (fun x => due x = false)
                      (firings d submission_id compilation_status lines st)).
  { apply (firings_all d submission_id compilation_status
                       (fun s => latch s = true)).
    - intros s s' Hs E. now rewrite (latch_frame _ _ Hs).
    - intros s line f. apply latch_keep.
    - intros s line fired Hs _. now apply due_open.
    - exact H. }
  induction HF as [|x l Hx _ IH]; [reflexivity|].
  cbn [List.filter]. now rewrite Hx.
Qed.

Lemma reported_once (lines : list string) (st : state) :
  length (List.filter due
            (firings d submission_id compilation_status lines st)) <= 1.
Proof.
  revert st. induction lines as [|raw rest IH]; intros st;
    [apply Nat.le_0_l|].
  rewrite firings_cons.
  destruct (update_run d (html_escape raw) st) as [st1|] eqn:Hu;
    [|apply Nat.le_0_l].
  destruct (markup_enabled st1) eqn:Hm; cbn [negb]; [|apply IH].
  destruct (first_filter d st1 (html_escape raw) filters) as [fired|] eqn:Hf;
    [|apply Nat.le_0_l].
  destruct (process_line d submission_id compilation_status raw st)
    as [st'|] eqn:Hp; [|apply Nat.le_0_l].
  cbn [List.filter].
  destruct (due (st1, html_escape raw, fired)) eqn:Hdue; [|apply IH].
  rewrite latched_none; [apply le_n|].
  assert (Hs : scan d submission_id compilation_status [raw] st = Ok st')
    by (rewrite scan_cons, Hp; reflexivity).
  destruct (scan_step d submission_id compilation_status _ _ _ _ Hs)
    as (s1 & s2 & Hu' & Hrest & Hc).
  injection Hrest as ->. rewrite Hu in Hu'. injection Hu' as <-.
  destruct Hc as [(Hm' & _) | (_ & fired' & Hf' & Hl & _)]; [congruence|].
  rewrite Hf in Hf'. injection Hf' as <-.
  rewrite (latch_frame _ _ Hl).
  destruct fired as [f|]; [|now rewrite due_none in Hdue].
  now apply latch_set.
Qed.

End Once.

Section Reports.

Variable d : discovery.
Variable submission_id : Z.
Variable compilation_status : string.

Local Abbreviation fire' := (fire d submission_id compilation_status).
Local Abbreviation firings' := (firings d submission_id compilation_status).

Lemma abort_once (lines : list string) (st : state) :
  length (List.filter abort_reported (firings' lines st)) <= 1.
Proof.
  apply (reported_once d submission_id compilation_status abort_markup).
  - now intros s s' (-> & _).
  - intros s line f H.
    destruct (fire_latches d submission_id compilation_status f line s)
      as (-> & _). now rewrite H.
  - intros s line f H. cbn [abort_reported] in H.
    destruct (fire_latches d submission_id compilation_status f
                           (markup f line) s) as (-> & _).
    rewrite H. apply orb_true_r.
  - intros s line [f|] H; [|reflexivity].
    cbn [abort_reported]. unfold abort_due. now rewrite H.
  - reflexivity.
Qed.

Lemma rerun_once (lines : list string) (st : state) :
  length (List.filter rerun_reported (firings' lines st)) <= 1.
Proof.
  apply (reported_once d submission_id compilation_status rerun_markup).
  - now intros s s' (_ & _ & _ & _ & _ & -> & _).
  - intros s line f H.
    destruct (fire_latches d submission_id compilation_status f line s)
      as (_ & _ & _ & -> & _). now rewrite H.
  - intros s line f H. cbn [rerun_reported] in H.
    destruct (fire_latches d submission_id compilation_status f
                           (markup f line) s) as (_ & _ & _ & -> & _).
    rewrite H. apply orb_true_r.
  - intros s line [f|] H; [|reflexivity].
    cbn [rerun_reported]. unfold rerun_due. now rewrite H.
  - reflexivity.
Qed.

Lemma file_once (lines : list string) (st : state) :
  length (List.filter file_reported (firings' lines st)) <= 1.
Proof.
  apply (reported_once d submission_id compilation_status missing_file).
  - now intros s s' (_ & _ & _ & -> & _).
  - intros s line f H.
    destruct (fire_latches d submission_id compilation_status f line s)
      as (_ & _ & _ & _ & -> & _). now rewrite H.
  - intros s line f H. cbn [file_reported] in H.
    destruct (fire_latches d submission_id compilation_status f
                           (markup f line) s) as (_ & _ & _ & _ & -> & _).
    rewrite H. apply orb_true_r.
  - intros s line [f|] H; [|reflexivity].
    cbn [file_reported]. unfold missing_file_due. now rewrite H.
  - reflexivity.
Qed.

Lemma emergency_once (lines : list string) (st : state) :
  length (List.filter emergency_reported (firings' lines st)) <= 1.
Proof.
  apply (reported_once d submission_id compilation_status emergency_stop).
  - now intros s s' (_ & _ & -> & _).
  - intros s line f H.
    destruct (fire_latches d submission_id compilation_status f line s)
      as (_ & _ & _ & _ & _ & -> & _). now rewrite H.
  - intros s line f H. cbn [emergency_reported] in H.
    destruct (fire_latches d submission_id compilation_status f
                           (markup f line) s)
      as (_ & _ & _ & _ & _ & -> & _).
    rewrite H. apply orb_true_r.
  - intros s line [f|] H; [|reflexivity].
    cbn [emergency_reported]. unfold emergency_stop_after.
    rewrite H. cbn [negb]. now rewrite andb_false_r.
  - reflexivity.
Qed.


End Reports.

(** X6.  In one scan each of the reports on the XeTeX/LuaTeX abort, on
    the extra TeX run, on the missing file and on the emergency stop is
    made by at most one firing, whatever the lines and the state the scan
    starts in. *)
Theorem X6_each_report_at_most_once
        (d : discovery) (submission_id : Z) (compilation_status : string)
        (lines : list string) (st : state) :
  length (List.filter abort_reported
            (firings d submission_id compilation_status lines st)) <= 1
  /\ length (List.filter rerun_reported
               (firings d submission_id compilation_status lines st)) <= 1
  /\ length (List.filter file_reported
               (firings d submission_id compilation_status lines st)) <= 1
  /\ length (List.filter emergency_reported
               (firings d submission_id compilation_status lines st)) <= 1.
Proof.
  repeat split;
    [apply abort_once | apply rerun_once | apply file_once
     | apply emergency_once].
Qed.



(** ** The latches and flags at the end of a scan *)

(** A variable that the firings only raise: at the end of a scan it is
    set when it was set at the start or some firing raised it. *)
Section Raised.

Variable d : discovery.
Variable submission_id : Z.
Variable compilation_status : string.
Variable flag : state -> bool.
Variable raises : state * string * option filter -> bool.

Hypothesis flag_frame :
  forall st st', same_latches st st' -> flag st' = flag st.
Hypothesis flag_fire :
  forall st line f,
    flag (fire d submission_id compilation_status f (markup f line) st)
    = flag st || raises (st, line, Some f).
Hypothesis raises_none : forall st line, raises (st, line, None) = false.

Lemma flag_at_end (lines : list string) (st st' : state) :
  scan d submission_id compilation_status lines st = Ok st' ->
  flag st'
  = flag st
    || existsb raises (firings d submission_id compilation_status lines st).
Proof.
  revert st. induction lines as [|raw rest IH]; intros st Hscan.
  - simpl in Hscan. injection Hscan as <-. simpl. now rewrite orb_false_r.
  - destruct (scan_step d submission_id compilation_status _ _ _ _ Hscan)
      as (st1 & st2 & Hu & Hrest & Hc).
    pose proof (flag_frame _ _ (same_report_latches
                                  _ _ (update_run_report _ _ _ _ Hu))) as E1.
    rewrite (IH _ Hrest).
    destruct Hc as [(_ & -> & ->) | (_ & fired & _ & Hl & _ & _ & ->)].
    + now rewrite E1.
    + rewrite (flag_frame _ _ Hl). cbn [existsb].
      destruct fired as [f|].
      * now rewrite flag_fire, E1, orb_assoc.
      * now rewrite raises_none, E1.
Qed.

End Raised.

Section AtEnd.

Variable d : discovery.
Variable submission_id : Z.
Variable compilation_status : string.

Local Abbreviation scan' := (scan d submission_id compilation_status).
Local Abbreviation firings' := (firings d submission_id compilation_status).

Lemma abort_at_end (lines : list string) (st : state) :
  scan' lines state0 = Ok st ->
  xetex_luatex_abort st = existsb abort_reported (firings' lines state0).
Proof.
  intros Hscan.
  apply (flag_at_end d submission_id compilation_status
                     xetex_luatex_abort abort_reported) in Hscan;
    [exact Hscan | | | reflexivity].
  - now intros s s' (_ & -> & _).
  - intros s line f. cbn [abort_reported].
    now destruct (fire_latches d submission_id compilation_status f
                               (markup f line) s) as (_ & -> & _).
Qed.

Lemma errors_at_end (lines : list string) (st : state) :
  scan' lines state0 = Ok st ->
  final_run_had_errors st
  = existsb (final_run_error d compilation_status) (firings' lines state0).
Proof.
  intros Hscan.
  apply (flag_at_end d submission_id compilation_status
                     final_run_had_errors
                     (final_run_error d compilation_status)) in Hscan;
    [exact Hscan | | | reflexivity].
  - now intros s s' (_ & _ & _ & _ & _ & _ & -> & _).
  - intros s line f. cbn [final_run_error].
    now destruct (fire_latches d submission_id compilation_status f
                               (markup f line) s)
      as (_ & _ & _ & _ & _ & _ & -> & _).
Qed.

Lemma warnings_at_end (lines : list string) (st : state) :
  scan' lines state0 = Ok st ->
  final_run_had_warnings st
  = existsb (final_run_warning d compilation_status) (firings' lines state0).
Proof.
  intros Hscan.
  apply (flag_at_end d submission_id compilation_status
                     final_run_had_warnings
                     (final_run_warning d compilation_status)) in Hscan;
    [exact Hscan | | | reflexivity].
  - now intros s s' (_ & _ & _ & _ & _ & _ & _ & -> & _).
  - intros s line f. cbn [final_run_warning].
    now destruct (fire_latches d submission_id compilation_status f
                               (markup f line) s)
      as (_ & _ & _ & _ & _ & _ & _ & ->).
Qed.

End AtEnd.

(** X8.  What the latches and the flags of the final run record.  At the
    end of a scan that returns, each of the four latches is set exactly
    when some firing made its report; [final_run_had_errors] is set
    exactly when a filter shown as danger or fatal fired on a line of the
    final run, and [final_run_had_warnings] exactly when a filter shown
    as warning fired on such a line or some firing made the rerun
    report. *)
Theorem X8_latches_record_the_firings
        (d : discovery) (submission_id : Z) (compilation_status : string)
        (lines : list string) (st : state) :
  scan d submission_id compilation_status lines state0 = Ok st ->
  let fs := firings d submission_id compilation_status lines state0 in
  xetex_luatex_abort st = existsb abort_reported fs
  /\ rerun_markup st = existsb rerun_reported fs
  /\ missing_file st = existsb file_reported fs
  /\ emergency_stop st = existsb emergency_reported fs
  /\ final_run_had_errors st
     = existsb (final_run_error d compilation_status) fs
  /\ final_run_had_warnings st
     = existsb (final_run_warning d compilation_status) fs.
Proof.
  intros Hscan fs. subst fs.
  split; [now apply abort_at_end|].
  split.
  { apply (flag_at_end d submission_id compilation_status
                       rerun_markup rerun_reported) in Hscan;
      [exact Hscan | | | reflexivity].
    - now intros s s' (_ & _ & _ & _ & _ & -> & _).
    - intros s line f. cbn [rerun_reported].
      now destruct (fire_latches d submission_id compilation_status f
                                 (markup f line) s)
        as (_ & _ & _ & -> & _). }
  split.
  { apply (flag_at_end d submission_id compilation_status
                       missing_file file_reported) in Hscan;
      [exact Hscan | | | reflexivity].
    - now intros s s' (_ & _ & _ & -> & _).
    - intros s line f. cbn [file_reported].
      now destruct (fire_latches d submission_id compilation_status f
                                 (markup f line) s)
        as (_ & _ & _ & _ & -> & _). }
  split.
  { apply (flag_at_end d submission_id compilation_status
                       emergency_stop emergency_reported) in Hscan;
      [exact Hscan | | | reflexivity].
    - now intros s s' (_ & _ & -> & _).
    - intros s line f. cbn [emergency_reported].
      now destruct (fire_latches d submission_id compilation_status f
                                 (markup f line) s)
        as (_ & _ & _ & _ & _ & -> & _). }
  split; [now apply errors_at_end | now apply warnings_at_end].
Qed.

(** X8, witness: the scan of [file_then_stop_log]. *)
Lemma X8_latches_record_the_firings_witness :
  missing_file file_then_stop_st
  = existsb file_reported
            (firings (discover file_then_stop_log) 1 "failed"
                     (splitlines file_then_stop_log) state0).
Proof.
  assert (H : scan (discover file_then_stop_log) 1 "failed"
                   (splitlines file_then_stop_log) state0
              = Ok file_then_stop_st) by (vm_compute; reflexivity).
  exact (proj1 (proj2 (proj2 (X8_latches_record_the_firings
                                (discover file_then_stop_log) 1 "failed"
                                (splitlines file_then_stop_log)
                                file_then_stop_st H)))).
Defined.

(** ** The status line *)

Lemma existsb_orb {A : Type} (p q : A -> bool) (l : list A) :
  existsb (fun x => p x || q x) l = existsb p l || existsb q l.
Proof.
  induction l as [|x l IH]; [reflexivity|]. cbn [existsb]. rewrite IH.
  destruct (p x), (q x), (existsb p l); reflexivity.
Qed.

(** X9.  The status line, read off the firings.  On a compilation that
    failed the XeTeX/LuaTeX message is shown exactly when some firing made
    the abort report.  On one that succeeded the class of the status is
    [danger] exactly when a filter shown as danger or fatal fired on a
    line of the final run, and the status is [Succeeded!] exactly when no
    filter shown as warning, danger or fatal fired on such a line and no
    firing made the rerun report. *)
Theorem X9_status_from_firings
        (d : discovery) (submission_id : Z) (compilation_status : string)
        (lines : list string) (st : state) :
  scan d submission_id compilation_status lines state0 = Ok st ->
  let fs := firings d submission_id compilation_status lines state0 in
  (compilation_status = "failed" ->
   (status compilation_status st
    = ("fatal", "Failed: XeTeX/LuaTeX are not supported at current time.")
    <-> existsb abort_reported fs = true)
   /\ (status compilation_status st = ("fatal", "Failed")
       <-> existsb abort_reported fs = false))
  /\ (compilation_status = "succeeded" ->
      (fst (status compilation_status st) = "danger"
       <-> existsb (final_run_error d compilation_status) fs = true)
      /\ (status compilation_status st = ("success", "Succeeded!")
          <-> existsb (final_run_error d compilation_status) fs = false
              /\ existsb (final_run_warning d compilation_status) fs
                 = false)).
Proof.
  intros Hscan fs.
  pose proof (abort_at_end _ _ _ _ _ Hscan) as Hab.
  pose proof (errors_at_end _ _ _ _ _ Hscan) as He.
  pose proof (warnings_at_end _ _ _ _ _ Hscan) as Hw.
  fold fs in Hab, He, Hw. rewrite <- Hab, <- He, <- Hw.
  split; intros ->; unfold status; cbn [String.eqb Ascii.eqb Bool.eqb].
  - destruct (xetex_luatex_abort st); split; split;
      (reflexivity || discriminate).
  - destruct (final_run_had_errors st), (final_run_had_warnings st);
      cbn [andb negb fst]; split; split;
        try reflexivity; try discriminate;
          try (intros (? & ?); discriminate); try (split; reflexivity).
Qed.

(** X9, witness: [clean_log] succeeds without a problem in its final
    run. *)
Lemma X9_status_from_firings_witness :
  existsb (final_run_error (discover clean_log) "succeeded")
          (firings (discover clean_log) 1 "succeeded"
                   (splitlines clean_log) state0) = false
  /\ existsb (final_run_warning (discover clean_log) "succeeded")
             (firings (discover clean_log) 1 "succeeded"
                      (splitlines clean_log) state0) = false.
Proof.
  assert (H : scan (discover clean_log) 1 "succeeded"
                   (splitlines clean_log) state0 = Ok clean_st)
    by (vm_compute; reflexivity).
  apply (proj2 (proj2 (X9_status_from_firings
                         (discover clean_log) 1 "succeeded"
                         (splitlines clean_log) clean_st H)
                      eq_refl)).
  reflexivity.
Defined.

(** ** The error summary *)





Section SummaryShape.

Variable d : discovery.
Variable submission_id : Z.
Variable compilation_status : string.









End SummaryShape.



(** ** The entries of the error summary *)

Lemma has_entry_step (latch : state -> bool) (e : string) (st st' : state) :
  grows st st' -> latch st' = latch st ->
  has_entry latch e st -> has_entry latch e st'.
Proof.
  unfold has_entry. intros Hg -> H Hl.
  exact (grows_contains e st st' Hg (H Hl)).
Qed.

Lemma has_entry_frame (latch : state -> bool) (e : string) (st st' : state) :
  same_latches st st' -> latch st' = latch st ->
  has_entry latch e st -> has_entry latch e st'.
Proof.
  intros (_ & _ & _ & _ & _ & _ & _ & _ & Hs). apply has_entry_step.
  exists "". now rewrite Hs, append_nil_r.
Qed.

Lemma has_entry_added (latch : state -> bool) (e : string) (st st' : state) :
  error_summary st' = error_summary (add_entry e st) ->
  has_entry latch e st'.
Proof. intros Hs _. rewrite Hs. apply add_entry_contains. Qed.

Lemma raised_xetex (st st' : state) (mfm rr mf es fe fw : bool) :
  raised st st' false mfm rr mf es fe fw ->
  xetex_luatex_abort st' = xetex_luatex_abort st.
Proof. intros (_ & -> & _). apply orb_false_r. Qed.

Lemma raised_rerun (st st' : state) (ab mfm mf es fe fw : bool) :
  raised st st' ab mfm false mf es fe fw ->
  rerun_markup st' = rerun_markup st.
Proof. intros (_ & _ & _ & -> & _). apply orb_false_r. Qed.

Lemma raised_emergency (st st' : state) (ab mfm rr mf fe fw : bool) :
  raised st st' ab mfm rr mf false fe fw ->
  emergency_stop st' = emergency_stop st.
Proof. intros (_ & _ & _ & _ & _ & -> & _). apply orb_false_r. Qed.

(** One step that does not touch the latch. *)
Ltac entry_step keep G R :=
  match goal with
  | |- has_entry ?latch ?e (?g ?s) =>
      apply (has_entry_step latch e s (g s));
      [apply G | eapply keep; apply R | ]
  end.

(** The step that makes the report of the latch. *)
Ltac entry_made :=
  match goal with
  | |- context [if ?b then _ else _] => destruct b
  end;
  [match goal with
   | |- has_entry _ _ (_ (_ (add_entry ?e ?s))) =>
       apply (has_entry_added _ _ s); now destruct (add_entry e s)
   | |- has_entry _ _ (_ (add_entry ?e ?s)) =>
       apply (has_entry_added _ _ s); now destruct (add_entry e s)
   end|].

Section Entries.

Variable d : discovery.
Variable submission_id : Z.
Variable compilation_status : string.

Lemma fire_abort_entry (f : filter) (line : string) (st : state) :
  has_entry xetex_luatex_abort (abort_entry submission_id) st ->
  has_entry xetex_luatex_abort (abort_entry submission_id)
            (fire d submission_id compilation_status f line st).
Proof.
  intros H. unfold fire. cbv zeta.
  entry_step raised_xetex report_emergency_stop_grows
             report_emergency_stop_raised.
  entry_step raised_xetex report_missing_file_grows
             report_missing_file_raised.
  entry_step raised_xetex report_rerun_grows report_rerun_raised.
  entry_step raised_xetex report_missing_font_grows
             report_missing_font_raised.
  unfold report_abort at 1. entry_made.
  entry_step raised_xetex note_final_run_grows note_final_run_raised.
  exact H.
Qed.

Lemma fire_rerun_entry (f : filter) (line : string) (st : state) :
  has_entry rerun_markup rerun_entry st ->
  has_entry rerun_markup rerun_entry
            (fire d submission_id compilation_status f line st).
Proof.
  intros H. unfold fire. cbv zeta.
  entry_step raised_rerun report_emergency_stop_grows
             report_emergency_stop_raised.
  entry_step raised_rerun report_missing_file_grows
             report_missing_file_raised.
  unfold report_rerun at 1. entry_made.
  entry_step raised_rerun report_missing_font_grows
             report_missing_font_raised.
  entry_step raised_rerun report_abort_grows report_abort_raised.
  entry_step raised_rerun note_final_run_grows note_final_run_raised.
  exact H.
Qed.

Lemma fire_emergency_entry (f : filter) (line : string) (st : state) :
  has_entry emergency_stop emergency_stop_entry st ->
  has_entry emergency_stop emergency_stop_entry
            (fire d submission_id compilation_status f line st).
Proof.
  intros H. unfold fire. cbv zeta.
  unfold report_emergency_stop at 1. entry_made.
  entry_step raised_emergency report_missing_file_grows
             report_missing_file_raised.
  entry_step raised_emergency report_rerun_grows report_rerun_raised.
  entry_step raised_emergency report_missing_font_grows
             report_missing_font_raised.
  entry_step raised_emergency report_abort_grows report_abort_raised.
  entry_step raised_emergency note_final_run_grows note_final_run_raised.
  exact H.
Qed.

Lemma entries_in_frame (st st' : state) :
  same_latches st st' ->
  entries_in submission_id st -> entries_in submission_id st'.
Proof.
  intros Hl (H1 & H2 & H3).
  pose proof Hl as (_ & Hx & He & _ & _ & Hr & _).
  repeat split; eapply has_entry_frame; eauto.
Qed.

Lemma entries_in_fire (f : filter) (line : string) (st : state) :
  entries_in submission_id st ->
  entries_in submission_id
             (fire d submission_id compilation_status f line st).
Proof.
  intros (H1 & H2 & H3).
  repeat split;
    [now apply fire_abort_entry | now apply fire_rerun_entry
     | now apply fire_emergency_entry].
Qed.

End Entries.

(** X11.  A report that was made is in the output.  When the scan
    returns with the XeTeX/LuaTeX latch, the rerun latch or the
    emergency-stop latch set, the entry of that report, with the
    submission identifier where it has one, is in the report that
    [compilation_log_display] assembles. *)
Theorem X11_reports_are_in_the_output
        (d : discovery) (submission_id : Z) (compilation_status : string)
        (lines : list string) (st : state) :
  scan d submission_id compilation_status lines state0 = Ok st ->
  (xetex_luatex_abort st = true ->
   contains (abort_entry submission_id) (report d compilation_status st))
  /\ (rerun_markup st = true ->
      contains rerun_entry (report d compilation_status st))
  /\ (emergency_stop st = true ->
      contains emergency_stop_entry (report d compilation_status st)).
Proof.
  intros Hscan.
  assert (H : entries_in submission_id st).
  { apply (scan_keeps d submission_id compilation_status
             (entries_in submission_id) (fun _ => True)
             (entries_in_frame submission_id)
             (fun s l f _ K =>
                entries_in_fire d submission_id compilation_status
                                f (markup f l) s K)
             lines state0 st Hscan).
    - apply Forall_forall. auto.
    - repeat split; intros K; discriminate K. }
  destruct H as (H1 & H2 & H3).
  repeat split; intros K; apply report_contains; auto.
Qed.

(** X11, witness: the emergency stop of [emergency_log]. *)
Lemma X11_reports_are_in_the_output_witness :
  contains emergency_stop_entry
           (report (discover emergency_log) "failed" emergency_st).
Proof.
  assert (H : scan (discover emergency_log) 1 "failed"
                   (splitlines emergency_log) state0
              = Ok emergency_st) by (vm_compute; reflexivity).
  apply (proj2 (proj2 (X11_reports_are_in_the_output
                         (discover emergency_log) 1 "failed"
                         (splitlines emergency_log) emergency_st H))).
  reflexivity.
Defined.

(** ** What the markup does to a line *)

Lemma push_char (lv : level) (c : ascii) (segs : list (string * string))
      (tail : string) :
  exists segs' tail',
    plain segs' tail' = String c (plain segs tail)
    /\ spanned lv segs' tail' = String c (spanned lv segs tail)
    /\ map snd segs' = map snd segs.
Proof.
  destruct segs as [|[pre m] segs].
  - exists [], (String c tail). repeat split.
  - exists ((String c pre, m) :: segs), tail. repeat split.
Qed.

Lemma drop_length_app (m rest : string) :
  drop (String.length m) (m ++ rest) = rest.
Proof. induction m as [|c m IH]; [reflexivity | exact IH]. Qed.

(** [re.sub] with the span as replacement, for a pattern inside one
    group: the text from [skip] on is cut into pieces, and the result is
    these pieces with the matches inside spans. *)
Lemma sub_go_spans (ic : bool) (r : regex) (lv : level) (s : string) :
  forall skip,
  exists segs tail,
    drop skip s = plain segs tail
    /\ sub_go ic (Group r) (fun g => span lv (group 1 g)) s skip
       = spanned lv segs tail
    /\ Forall (fun m => ends ic r m "") (map snd segs).
Proof.
  induction s as [|c s IH]; intros [|k]; cbn [sub_go drop].
  - destruct (match_at ic (Group r) "") as [[g rest]|] eqn:E.
    + destruct (match_at_group _ _ _ _ _ E) as (m & Hm & Hg & He).
      destruct m as [|c m]; [|discriminate Hm].
      exists [("", "")], "". rewrite Hg. repeat split.
      constructor; [exact He | constructor].
    + exists [], "". repeat split. constructor.
  - exists [], "". repeat split. constructor.
  - destruct (match_at ic (Group r) (String c s)) as [[g rest]|] eqn:E.
    + destruct (match_at_group _ _ _ _ _ E) as (m & Hm & Hg & He).
      rewrite Hg.
      destruct (String.length (String c s) <=? String.length rest)%nat
               eqn:L.
      * apply Nat.leb_le in L. rewrite Hm, length_append in L.
        assert (m = "") as -> by (destruct m; [reflexivity | simpl in L; lia]).
        destruct (IH 0) as (segs & tail & Hp & Hs & Hf).
        cbn [drop] in Hp.
        destruct (push_char lv c segs tail) as (segs' & tail' & P1 & P2 & P3).
        exists (("", "") :: segs'), tail'. cbn [plain spanned map snd].
        rewrite P1, P2, P3, Hs, <- Hp. cbn [append].
        repeat split. constructor; assumption.
      * apply Nat.leb_gt in L. rewrite Hm, length_append in L.
        destruct m as [|c' m']; [simpl in L; lia|].
        cbn [append] in Hm. injection Hm as Hc Hs'. subst c' s.
        rewrite length_append.
        replace (String.length m' + String.length rest - String.length rest)
          with (String.length m') by lia.
        destruct (IH (String.length m')) as (segs & tail & Hp & Hs & Hf).
        rewrite drop_length_app in Hp.
        exists (("", String c m') :: segs), tail. cbn [plain spanned map snd].
        rewrite Hs, <- Hp. cbn [append].
        repeat split. constructor; assumption.
    + destruct (IH 0) as (segs & tail & Hp & Hs & Hf). cbn [drop] in Hp.
      destruct (push_char lv c segs tail) as (segs' & tail' & P1 & P2 & P3).
      exists segs', tail'. rewrite P1, P2, P3, Hs, <- Hp. repeat split.
      exact Hf.
  - apply IH.
Qed.

(** X12.  The markup of a line only adds spans.  For every filter and
    every line, the line is a sequence of stretches of text, each
    followed by a match of the filter's pattern, and the line with its
    markup is the same sequence with every match inside a span of the
    class of the filter (an abort filter is shown as [fatal]); no
    character of the line is lost or changed. *)
Theorem X12_markup_only_adds_spans (f : filter) (line : string) :
  exists segs tail,
    line = plain segs tail
    /\ markup f line = spanned (css_level (f_level f)) segs tail
    /\ Forall (fun m => ends true (f_regex f) m "") (map snd segs).
Proof.
  destruct (sub_go_spans true (f_regex f) (css_level (f_level f)) line 0)
    as (segs & tail & Hp & Hs & Hf).
  exists segs, tail. repeat split; assumption.
Qed.

(** ** The marked-up log *)

Section MarkedUpLog.

Variable d : discovery.
Variable submission_id : Z.
Variable compilation_status : string.

Lemma scan_new_log (lines : list string) (st st' : state) :
  scan d submission_id compilation_status lines st = Ok st' ->
  new_log st'
  = new_log st
    ++ log_of (firings d submission_id compilation_status lines st).
Proof.
  revert st. induction lines as [|raw rest IH]; intros st Hscan.
  - simpl in Hscan. injection Hscan as <-. simpl. now rewrite append_nil_r.
  - destruct (scan_step d submission_id compilation_status _ _ _ _ Hscan)
      as (st1 & st2 & Hu & Hrest & Hc).
    destruct (update_run_report _ _ _ _ Hu)
      as (_ & _ & _ & _ & _ & _ & _ & _ & _ & Hn).
    rewrite (IH _ Hrest).
    destruct Hc as [(_ & -> & ->) | (_ & fired & _ & _ & Hl & _ & ->)].
    + now rewrite Hn.
    + rewrite Hl, Hn. cbn [log_of]. now rewrite !append_assoc.
Qed.

End MarkedUpLog.

(** X13.  The marked-up log of the output.  When the log is not the
    sentinel and the scan returns, the output ends, after the heading
    [Marked Up Log], with the lines that reached the filters, in the
    order of the log, each one with the markup of the filter that fired
    on it (or as escaped, when none fired) and followed by one line
    feed.  Lines of a dropped run are not in it. *)
Theorem X13_marked_up_log
        (autotex_log : string) (submission_id : Z)
        (compilation_status : string) (st : state) :
  search false no_log_regex autotex_log = false ->
  scan (discover autotex_log) submission_id compilation_status
       (splitlines autotex_log) state0 = Ok st ->
  compilation_log_display autotex_log submission_id compilation_status
  = Ok (run_summary (discover autotex_log)
        ++ status_line (status compilation_status st)
        ++ final_error_summary st ++ key_summary
        ++ nl ++ nl ++ "<b>Marked Up Log:</b>" ++ nl ++ nl
        ++ log_of (firings (discover autotex_log) submission_id
                           compilation_status
                           (splitlines autotex_log) state0)).
Proof.
  intros Hno Hscan. unfold compilation_log_display.
  rewrite Hno, Hscan. cbn [bind]. unfold report.
  now rewrite (scan_new_log _ _ _ _ _ _ Hscan).
Qed.

(** X13, witness: the scan of [file_then_stop_log]. *)
Lemma X13_marked_up_log_witness :
  exists out,
    compilation_log_display file_then_stop_log 1 "failed" = Ok out.
Proof.
  eexists.
  apply (X13_marked_up_log file_then_stop_log 1 "failed" file_then_stop_st);
    vm_compute; reflexivity.
Defined.

(** ** The head of the loop body *)

(** X14.  What a line does to the variables that follow the runs, when
    the head of the loop body returns.  Markup is enabled when a pattern
    of [enable_markup] is found in the line, also when a pattern of
    [disable_markup] is found in it as well; it is disabled when only a
    pattern of [disable_markup] is found; otherwise it stays as it was.
    The current engine and run are the two groups of the banner found in
    the line, and stay as they were on a line without a banner. *)
Theorem X14_run_tracking
        (d : discovery) (line : string) (st st' : state) :
  update_run d line st = Ok st' ->
  markup_enabled st'
  = (if any_search (enable_markup d) line then true
     else if any_search (disable_markup d) line then false
          else markup_enabled st)
  /\ (current_engine st', current_run st')
     = match search_groups true run_regex line with
       | Some g => (group 1 g, group 2 g)
       | None => (current_engine st, current_run st)
       end.
Proof.
  unfold update_run, enable_step, disable_step, banner_step.
  destruct (any_search (disable_markup d) line);
    destruct (any_search (enable_markup d) line); cbn [bind].
  all: destruct (search_groups true run_regex line) as [g|].
  all: repeat match goal with
         | |- context [if ?b then _ else _] => destruct b
         end; cbn [bind].
  all: repeat match goal with
         | |- context [mark_last_run ?dd ?s] =>
             let E := fresh "E" in
             destruct (mark_last_run dd s) eqn:E; cbn [bind];
             [apply mark_last_run_monotone in E | discriminate]
         end.
  all: try (intros [= <-]).
  all: repeat match goal with s : state |- _ => destruct s end.
  all: repeat match goal with
         | H : _ /\ _ |- _ => destruct H as (?&?&?&?)
         end; simpl in *; split; congruence.
Qed.

(** X14, witness: the banner of a dropped run in [hidden_fontspec_log]
    disables markup and sets the engine and the run. *)
Lemma X14_run_tracking_witness :
  exists st',
    update_run (discover hidden_fontspec_log)
               "~~~ Running hpdflatex for the first time ~~~" state0
    = Ok st'
    /\ markup_enabled st' = false
    /\ (current_engine st', current_run st') = ("hpdflatex", "first").
Proof.
  assert (H : exists st',
             update_run (discover hidden_fontspec_log)
                        "~~~ Running hpdflatex for the first time ~~~" state0
             = Ok st').
  { eexists. vm_compute. reflexivity. }
  destruct H as (st' & H). exists st'. split; [exact H|].
  destruct (X14_run_tracking _ _ _ _ H) as (Hm & Hr).
  split; [rewrite Hm | rewrite Hr]; vm_compute; reflexivity.
Defined.

(** ** The lists [enable_markup] and [disable_markup] *)

Lemma discover_hit_lists (d : discovery) (e r : string) :
  disable_markup (discover_hit d (e, r))
  = (disable_markup d ++ disable_for e)%list
  /\ enable_markup (discover_hit d (e, r))
     = (enable_markup d ++ enable_for e)%list.
Proof.
  unfold discover_hit, disable_for, enable_for.
  cbn [enable_markup disable_markup].
  destruct (e =? PDFLATEX)%string, (e =? LATEX)%string, (e =? TEX)%string;
    cbn [app]; rewrite <- ?app_assoc, ?app_nil_r; split; reflexivity.
Qed.

Lemma fold_lists (hits : list (string * string)) (d : discovery) :
  disable_markup (fold_left discover_hit hits d)
  = (disable_markup d ++ flat_map disable_for (map fst hits))%list
  /\ enable_markup (fold_left discover_hit hits d)
     = (enable_markup d ++ flat_map enable_for (map fst hits))%list.
Proof.
  revert d. induction hits as [|[e r] hits IH]; intros d.
  - cbn. now rewrite !app_nil_r.
  - cbn [fold_left map fst flat_map].
    destruct (IH (discover_hit d (e, r))) as (-> & ->).
    destruct (discover_hit_lists d e r) as (-> & ->).
    now rewrite <- !app_assoc.
Qed.

Lemma in_disable_for (e : string) (x : regex) :
  In x (disable_for e)
  <-> (e = PDFLATEX /\ x = DISABLE_HPDFLATEX)
      \/ (e = LATEX /\ x = DISABLE_HLATEX)
      \/ (e = TEX /\ x = DISABLE_HTEX).
Proof.
  unfold disable_for.
  destruct (String.eqb_spec e PDFLATEX) as [E1 | N1];
    destruct (String.eqb_spec e LATEX) as [E2 | N2];
    destruct (String.eqb_spec e TEX) as [E3 | N3];
    unfold PDFLATEX, LATEX, TEX in *; cbn [app In];
      intuition congruence.
Qed.

(** X15.  The two lists of the discovery loop.  Every banner of the log
    whose engine is [pdflatex], [latex] or [tex] appends one pattern to
    each list, in the order of the banners; so the pattern of a hidden
    engine is in [disable_markup] exactly when the log has a banner of
    the matching real engine, and the two lists have the same length. *)
Theorem X15_enable_and_disable_lists (autotex_log : string) :
  let d := discover autotex_log in
  let engines := map fst (findall2 true run_regex autotex_log) in
  disable_markup d = flat_map disable_for engines
  /\ enable_markup d = flat_map enable_for engines
  /\ (In DISABLE_HPDFLATEX (disable_markup d) <-> In PDFLATEX engines)
  /\ (In DISABLE_HLATEX (disable_markup d) <-> In LATEX engines)
  /\ (In DISABLE_HTEX (disable_markup d) <-> In TEX engines)
  /\ length (enable_markup d) = length (disable_markup d).
Proof.
  intros d engines.
  destruct (discover_fields autotex_log) as (_ & _ & _ & He & Hd).
  destruct (fold_lists (findall2 true run_regex autotex_log) discovery0)
    as (Fd & Fe).
  cbn [disable_markup enable_markup discovery0 app] in Fd, Fe.
  cbv zeta in He, Hd. rewrite Fd in Hd. rewrite Fe in He.
  fold d in He, Hd. fold engines in He, Hd.
  split; [exact Hd|]. split; [exact He|].
  rewrite Hd, He.
  assert (Hin : forall e x,
             In x (disable_for e) -> In e engines ->
             In x (flat_map disable_for engines)).
  { intros e x Hx Hi. apply in_flat_map. now exists e. }
  repeat split.
  - intros H. apply in_flat_map in H. destruct H as (e & Hi & Hx).
    apply in_disable_for in Hx.
    destruct Hx as [(-> & _) | [(_ & K) | (_ & K)]];
      [exact Hi | discriminate K | discriminate K].
  - apply Hin. apply in_disable_for. auto.
  - intros H. apply in_flat_map in H. destruct H as (e & Hi & Hx).
    apply in_disable_for in Hx.
    destruct Hx as [(_ & K) | [(-> & _) | (_ & K)]];
      [discriminate K | exact Hi | discriminate K].
  - apply Hin. apply in_disable_for. auto.
  - intros H. apply in_flat_map in H. destruct H as (e & Hi & Hx).
    apply in_disable_for in Hx.
    destruct Hx as [(_ & K) | [(_ & K) | (-> & _)]];
      [discriminate K | discriminate K | exact Hi].
  - apply Hin. apply in_disable_for. auto.
  - clear. induction engines as [|e l IH]; [reflexivity|].
    cbn [flat_map]. rewrite !length_app, IH. f_equal.
    unfold enable_for, disable_for.
    destruct (e =? PDFLATEX)%string, (e =? LATEX)%string, (e =? TEX)%string;
      reflexivity.
Qed.
